(** * Link.io short-code registry: contract and service

    A shallow embedding of the two registry implementations of the
    repository and the properties of its specification:

    - [Contract]: the Solidity contract [LinkIO] (contracts/LinkIO.sol),
      a state-transition function over its storage;
    - [Service]: the express / better-sqlite3 server, one handler per
      route, over the two SQL tables [links] and [media];
    - [Wire]: the two creation handlers of the server on any JSON body;
    - [Ipfs], [Pages], [LocalStore]: the browser side, that is the IPFS
      helpers, the upload form and the page behind a short link as
      clients of the service, and the registry kept in [localStorage].

    Integers of the contract are [uint256], modelled in [N] with the
    wrap-around or the overflow revert written out.  Strings are byte
    strings.  The loops that draw a fresh short code are bounded by an
    explicit amount of fuel (the gas of the transaction, the patience of
    the HTTP client): running out of it is a distinct outcome. *)

From Stdlib Require Import NArith ZArith Ascii String List Lia Bool Permutation.
From Stdlib.Strings Require Import Byte.
From stdpp Require Import base decidable option list sorting gmap strings fin_maps.

Local Open Scope string_scope.
Local Open Scope list_scope.

(** ** The alphabet shared by both generators *)

Definition chars : string :=
  "abcdefghijklmnopqrstuvwxyzABCDEFGHIJKLMNOPQRSTUVWXYZ0123456789".

(** [chars[i]]: every use in the source is in range ([i < 62]); out of
    range the byte [0] stands for Solidity's panic and JS's [undefined]. *)
Definition char_at (i : nat) : ascii :=
  match String.get i chars with
  | Some c => c
  | None => Ascii.zero
  end.

Definition alphabet : list ascii := list_ascii_of_string chars.

Definition is_code (c : string) : Prop :=
  String.length c = 6%nat ∧ Forall (λ a, a ∈ alphabet) (list_ascii_of_string c).

(** ** Runs and what they hand out *)

(** What a run hands out: [out o s] is what the operation [o] hands out
    in the state [s], [step o s] the state it leaves. *)
Fixpoint collect {St Op A : Type} (step : Op → St → St) (out : Op → St → list A)
    (os : list Op) (s : St) : list A :=
  match os with
  | [] => []
  | o :: os' => out o s ++ collect step out os' (step o s)
  end.

(** ** The contract *)

Module Contract.

Local Open Scope N_scope.

Inductive ContentType := LINK | MEDIA.

Definition address := N.

Record LinkData := mkLinkData {
  l_originalUrl : string;
  l_creator : address;
  l_createdAt : N;
  l_clicks : N;
  l_exists : bool
}.

Record MediaData := mkMediaData {
  m_ipfsHash : string;
  m_fileName : string;
  m_fileType : string;
  m_fileSize : N;
  m_creator : address;
  m_createdAt : N;
  m_views : N;
  m_exists : bool
}.

(** Storage.  A Solidity mapping is total: a key never written reads as
    the zero value, which [links_at] and friends spell out. *)
Record State := mkState {
  _linkCounter : N;
  _mediaCounter : N;
  links : gmap string LinkData;
  media : gmap string MediaData;
  userLinks : gmap address (list string);
  userMedia : gmap address (list string)
}.

Definition zeroLink : LinkData := mkLinkData EmptyString 0 0 0 false.
Definition zeroMedia : MediaData := mkMediaData EmptyString EmptyString EmptyString 0 0 0 0 false.

Definition links_at (s : State) (c : string) : LinkData :=
  default zeroLink (links s !! c).
Definition media_at (s : State) (c : string) : MediaData :=
  default zeroMedia (media s !! c).
Definition userLinks_at (s : State) (a : address) : list string :=
  default [] (userLinks s !! a).
Definition userMedia_at (s : State) (a : address) : list string :=
  default [] (userMedia s !! a).

Definition init : State := mkState 0 0 ∅ ∅ ∅ ∅.

(** What a call sees of its transaction and block. *)
Record Env := mkEnv {
  msg_sender : address;
  block_timestamp : N;
  block_prevrandao : N
}.

Definition uint256_max : N := 2 ^ 256 - 1.

(** [Counters.increment] of the OpenZeppelin library the contract
    imports: [unchecked { counter._value += 1; }]. *)
Definition increment (c : N) : N := (c + 1) mod 2 ^ 256.

(** The loop [for i < 6: shortCode[i] = chars[seed % 62]; seed /= 62]. *)
Fixpoint fill (n : nat) (seed : N) : list ascii :=
  match n with
  | O => []
  | S n' => char_at (N.to_nat (seed mod 62)) :: fill n' (seed / 62)
  end.

Inductive Event :=
| LinkCreated (shortCode originalUrl : string) (creator : address)
| MediaUploaded (shortCode ipfsHash fileName : string) (creator : address)
| LinkAccessed (shortCode : string) (accessor : address)
| MediaAccessed (shortCode : string) (accessor : address).

(** The outcome of an external call.  A revert and an exhausted gas
    allowance both roll the storage back. *)
Inductive Outcome (A : Type) :=
| Done (ret : A) (log : list Event) (s' : State)
| Revert (reason : string)
| OutOfGas.
Arguments Done {A} ret log s'.
Arguments Revert {A} reason.
Arguments OutOfGas {A}.

Definition state_after {A} (s : State) (o : Outcome A) : State :=
  match o with
  | Done _ _ s' => s'
  | _ => s
  end.

Definition succeeded {A} (o : Outcome A) : bool :=
  match o with
  | Done _ _ _ => true
  | _ => false
  end.

Section WithHash.

(** [uint256(keccak256(abi.encodePacked(timestamp, prevrandao, sender,
  counter)))]: the hash is a primitive of the platform, any function of
  the four packed values. *)
Variable keccak256 : N → N → address → N → N.

Definition _generateShortCode (e : Env) (contentType : ContentType) (s : State)
: string * State :=
let s' :=
  match contentType with
  | LINK => mkState (increment (_linkCounter s)) (_mediaCounter s)
              (links s) (media s) (userLinks s) (userMedia s)
  | MEDIA => mkState (_linkCounter s) (increment (_mediaCounter s))
              (links s) (media s) (userLinks s) (userMedia s)
  end in
let counter :=
  match contentType with
  | LINK => _linkCounter s'
  | MEDIA => _mediaCounter s'
  end in
let seed :=
  keccak256 (block_timestamp e) (block_prevrandao e) (msg_sender e) counter in
(string_of_list_ascii (fill 6 seed), s').

(** [while (links[shortCode].exists) shortCode = _generateShortCode(LINK)],
  each further turn paid from [gas]. *)
Fixpoint unique_link (gas : nat) (e : Env) (shortCode : string) (s : State)
: option (string * State) :=
if l_exists (links_at s shortCode) then
  match gas with
  | O => None
  | S gas' =>
      let '(c, s') := _generateShortCode e LINK s in
      unique_link gas' e c s'
  end
else Some (shortCode, s).

Fixpoint unique_media (gas : nat) (e : Env) (shortCode : string) (s : State)
: option (string * State) :=
if m_exists (media_at s shortCode) then
  match gas with
  | O => None
  | S gas' =>
      let '(c, s') := _generateShortCode e MEDIA s in
      unique_media gas' e c s'
  end
else Some (shortCode, s).

Definition createShortLink (gas : nat) (e : Env) (originalUrl : string) (s : State)
: Outcome string :=
if negb (0 <? String.length originalUrl)%nat then Revert "URL cannot be empty"
else if negb (String.length originalUrl <=? 2048)%nat then Revert "URL too long"
else
  let '(c0, s0) := _generateShortCode e LINK s in
  match unique_link gas e c0 s0 with
  | None => OutOfGas
  | Some (shortCode, s1) =>
      let rec := mkLinkData originalUrl (msg_sender e) (block_timestamp e) 0 true in
      let s2 :=
        mkState (_linkCounter s1) (_mediaCounter s1)
          (<[shortCode := rec]> (links s1)) (media s1)
          (<[msg_sender e := (userLinks_at s1 (msg_sender e) ++ [shortCode])%list]>
             (userLinks s1))
          (userMedia s1) in
      Done shortCode [LinkCreated shortCode originalUrl (msg_sender e)] s2
  end.

Definition uploadMedia (gas : nat) (e : Env)
  (ipfsHash fileName fileType : string) (fileSize : N) (s : State)
: Outcome string :=
if negb (0 <? String.length ipfsHash)%nat then Revert "IPFS hash cannot be empty"
else if negb (0 <? String.length fileName)%nat then Revert "File name cannot be empty"
else
  let '(c0, s0) := _generateShortCode e MEDIA s in
  match unique_media gas e c0 s0 with
  | None => OutOfGas
  | Some (shortCode, s1) =>
      let rec :=
        mkMediaData ipfsHash fileName fileType fileSize
          (msg_sender e) (block_timestamp e) 0 true in
      let s2 :=
        mkState (_linkCounter s1) (_mediaCounter s1)
          (links s1) (<[shortCode := rec]> (media s1))
          (userLinks s1)
          (<[msg_sender e := (userMedia_at s1 (msg_sender e) ++ [shortCode])%list]>
             (userMedia s1)) in
      Done shortCode [MediaUploaded shortCode ipfsHash fileName (msg_sender e)] s2
  end.

(** [links[shortCode].clicks++] is checked arithmetic: at [uint256_max]
  the call panics, which reverts. *)
Definition getLink (e : Env) (shortCode : string) (s : State) : Outcome string :=
let l := links_at s shortCode in
if negb (l_exists l) then Revert "Link does not exist"
else if l_clicks l =? uint256_max then Revert "panic 0x11"
else
  let l' := mkLinkData (l_originalUrl l) (l_creator l) (l_createdAt l)
              (l_clicks l + 1) (l_exists l) in
  let s' := mkState (_linkCounter s) (_mediaCounter s)
              (<[shortCode := l']> (links s)) (media s)
              (userLinks s) (userMedia s) in
  Done (l_originalUrl (links_at s' shortCode))
       [LinkAccessed shortCode (msg_sender e)] s'.

Definition getMedia (e : Env) (shortCode : string) (s : State)
: Outcome (string * string * string * N) :=
let m := media_at s shortCode in
if negb (m_exists m) then Revert "Media does not exist"
else if m_views m =? uint256_max then Revert "panic 0x11"
else
  let m' := mkMediaData (m_ipfsHash m) (m_fileName m) (m_fileType m)
              (m_fileSize m) (m_creator m) (m_createdAt m)
              (m_views m + 1) (m_exists m) in
  let s' := mkState (_linkCounter s) (_mediaCounter s)
              (links s) (<[shortCode := m']> (media s))
              (userLinks s) (userMedia s) in
  let r := media_at s' shortCode in
  Done (m_ipfsHash r, m_fileName r, m_fileType r, m_fileSize r)
       [MediaAccessed shortCode (msg_sender e)] s'.

Definition getLinkData (shortCode : string) (s : State)
: Outcome (string * address * N * N) :=
if negb (l_exists (links_at s shortCode)) then Revert "Link does not exist"
else
  let l := links_at s shortCode in
  Done (l_originalUrl l, l_creator l, l_createdAt l, l_clicks l) [] s.

Definition getMediaData (shortCode : string) (s : State)
: Outcome (string * string * string * N * address * N * N) :=
if negb (m_exists (media_at s shortCode)) then Revert "Media does not exist"
else
  let m := media_at s shortCode in
  Done (m_ipfsHash m, m_fileName m, m_fileType m, m_fileSize m,
        m_creator m, m_createdAt m, m_views m) [] s.

Definition getUserLinks (user : address) (s : State) : Outcome (list string) :=
Done (userLinks_at s user) [] s.

Definition getUserMedia (user : address) (s : State) : Outcome (list string) :=
Done (userMedia_at s user) [] s.

Definition getTotalLinks (s : State) : Outcome N := Done (_linkCounter s) [] s.
Definition getTotalMedia (s : State) : Outcome N := Done (_mediaCounter s) [] s.

Definition linkExists (shortCode : string) (s : State) : Outcome bool :=
Done (l_exists (links_at s shortCode)) [] s.
Definition mediaExists (shortCode : string) (s : State) : Outcome bool :=
Done (m_exists (media_at s shortCode)) [] s.

(** The external interface as one transition function.  Left out are
    the getters that Solidity generates for the four public mappings,
    which only read, and the functions inherited from [Ownable], which
    touch the owner alone. *)
Inductive Call :=
| CreateShortLink (originalUrl : string)
| UploadMedia (ipfsHash fileName fileType : string) (fileSize : N)
| GetLink (shortCode : string)
| GetMedia (shortCode : string)
| GetLinkData (shortCode : string)
| GetMediaData (shortCode : string)
| GetUserLinks (user : address)
| GetUserMedia (user : address)
| GetTotalLinks
| GetTotalMedia
| LinkExists (shortCode : string)
| MediaExists (shortCode : string).

(** A transaction: who calls what, in which block, with how much gas. *)
Record Tx := mkTx { tx_env : Env; tx_gas : nat; tx_call : Call }.

Definition exec (t : Tx) (s : State) : State :=
let e := tx_env t in
match tx_call t with
| CreateShortLink u => state_after s (createShortLink (tx_gas t) e u s)
| UploadMedia h n ty sz => state_after s (uploadMedia (tx_gas t) e h n ty sz s)
| GetLink c => state_after s (getLink e c s)
| GetMedia c => state_after s (getMedia e c s)
| GetLinkData c => state_after s (getLinkData c s)
| GetMediaData c => state_after s (getMediaData c s)
| GetUserLinks u => state_after s (getUserLinks u s)
| GetUserMedia u => state_after s (getUserMedia u s)
| GetTotalLinks => state_after s (getTotalLinks s)
| GetTotalMedia => state_after s (getTotalMedia s)
| LinkExists c => state_after s (linkExists c s)
| MediaExists c => state_after s (mediaExists c s)
end.

Definition run (ts : list Tx) (s : State) : State :=
foldl (λ st t, exec t st) s ts.

End WithHash.

(** The short codes a run of transactions has assigned, per namespace:
    those returned by its successful creations. *)
Definition link_created keccak256 (t : Tx) (s : State) : list string :=
  match tx_call t with
  | CreateShortLink u =>
      match createShortLink keccak256 (tx_gas t) (tx_env t) u s with
      | Done c _ _ => [c]
      | _ => []
      end
  | _ => []
  end.

Definition media_created keccak256 (t : Tx) (s : State) : list string :=
  match tx_call t with
  | UploadMedia h n ty sz =>
      match uploadMedia keccak256 (tx_gas t) (tx_env t) h n ty sz s with
      | Done c _ _ => [c]
      | _ => []
      end
  | _ => []
  end.

Definition links_created keccak256 : list Tx → State → list string :=
  collect (exec keccak256) (link_created keccak256).
Definition medias_created keccak256 : list Tx → State → list string :=
  collect (exec keccak256) (media_created keccak256).

(** The codes assigned to the creations of one sender. *)
Definition link_created_by keccak256 (user : address) (t : Tx) (s : State)
  : list string :=
  if decide (msg_sender (tx_env t) = user) then link_created keccak256 t s else [].
Definition media_created_by keccak256 (user : address) (t : Tx) (s : State)
  : list string :=
  if decide (msg_sender (tx_env t) = user) then media_created keccak256 t s else [].

Definition links_created_by keccak256 (user : address) : list Tx → State → list string :=
  collect (exec keccak256) (link_created_by keccak256 user).
Definition medias_created_by keccak256 (user : address) : list Tx → State → list string :=
  collect (exec keccak256) (media_created_by keccak256 user).

(** The per-user lists hold the codes of the records of that creator,
    once each. *)
Definition owned (s : State) : Prop :=
  (∀ u c, c ∈ userLinks_at s u ↔
          l_exists (links_at s c) = true ∧ l_creator (links_at s c) = u)
  ∧ (∀ u c, c ∈ userMedia_at s u ↔
            m_exists (media_at s c) = true ∧ m_creator (media_at s c) = u)
  ∧ (∀ u, NoDup (userLinks_at s u))
  ∧ (∀ u, NoDup (userMedia_at s u)).

(** Reachable storage never holds a record whose [exists] flag is off. *)
Definition wf (s : State) : Prop :=
  (∀ c r, links s !! c = Some r → l_exists r = true)
  ∧ (∀ c r, media s !! c = Some r → m_exists r = true).

(** Whether the transaction [t], run in [s], is a successful counting
    resolve of the code [c]. *)
Definition counts_link (t : Tx) (s : State) (c : string) : bool :=
  match tx_call t with
  | GetLink c' => bool_decide (c' = c) && succeeded (getLink (tx_env t) c' s)
  | _ => false
  end.

Definition counts_media (t : Tx) (s : State) (c : string) : bool :=
  match tx_call t with
  | GetMedia c' => bool_decide (c' = c) && succeeded (getMedia (tx_env t) c' s)
  | _ => false
  end.

(** How many successful counting resolves of [c] a run contains. *)
Definition link_resolves keccak256 (c : string) (ts : list Tx) (s : State) : N :=
  N.of_nat (length (collect (exec keccak256)
                      (λ t s, if counts_link t s c then [t] else []) ts s)).
Definition media_resolves keccak256 (c : string) (ts : list Tx) (s : State) : N :=
  N.of_nat (length (collect (exec keccak256)
                      (λ t s, if counts_media t s c then [t] else []) ts s)).

(** The code the generator returns in the environment [e] once the
    counter of its namespace stands at [counter]. *)
Definition code_at keccak256 (e : Env) (counter : N) : string :=
  string_of_list_ascii
    (fill 6 (keccak256 (block_timestamp e) (block_prevrandao e) (msg_sender e) counter)).

(** The [j]-th candidate a creation draws: the generator's [j+1]-th
    call from the counter [c0]. *)
Definition candidate keccak256 (e : Env) (c0 : N) (j : nat) : string :=
  code_at keccak256 e (Nat.iter (S j) increment c0).

(** The most calls of the generator the transactions of a run can pay
    for: one per creation and one per further turn of its loop. *)
Definition generator_budget (ts : list Tx) : nat :=
  foldr (λ t n, (S (tx_gas t) + n)%nat) 0%nat ts.

(** The non-counting reads. *)
Definition is_peek (c : Call) : bool :=
  match c with
  | GetLinkData _ | GetMediaData _ => true
  | _ => false
  end.

(** The storage of each namespace. *)
Definition link_part (s : State) : N * gmap string LinkData * gmap address (list string) :=
  (_linkCounter s, links s, userLinks s).
Definition media_part (s : State) : N * gmap string MediaData * gmap address (list string) :=
  (_mediaCounter s, media s, userMedia s).

(** Two results of the loop that agree on a part of the storage. *)
Definition agree {A B} (f : State → B) (o1 o2 : option (A * State)) : Prop :=
  match o1, o2 with
  | Some (a1, s1), Some (a2, s2) => a1 = a2 ∧ f s1 = f s2
  | None, None => True
  | _, _ => False
  end.

(** An outcome seen through a part of the storage. *)
Definition outcome_on {A B} (f : State → B) (o : Outcome A)
  : option (A * list Event * B) + string :=
  match o with
  | Done r log s' => inl (Some (r, log, f s'))
  | Revert reason => inr reason
  | OutOfGas => inl None
  end.

End Contract.

(** ** The service

    The handlers run one at a time (better-sqlite3 is synchronous), so a
    request is a transition of the database.  SQL integers and JS numbers
    are modelled as integers: timestamps and sizes are far from the
    bounds, and a counter starts at 0 and grows by one per request. *)

Module Service.

Local Open Scope Z_scope.

(** *** The generator *)

(** [crypto.randomBytes(length)]: the entropy a request consumes is a
    stream of bytes, read from position [pos] on. *)
Definition randomBytes (rnd : nat → byte) (pos length : nat) : list byte :=
  map rnd (seq pos length).

(** The symbol chosen for one random byte: [chars[b % chars.length]]. *)
Definition pick (b : byte) : ascii :=
  char_at (N.to_nat (Byte.to_N b) mod String.length chars)%nat.

(** [generateShortCode(length = 6)], reading its bytes at [pos]. *)
Definition generateShortCode_len (rnd : nat → byte) (pos : nat) (length : nat)
  : string :=
  let bytes := randomBytes rnd pos length in
  string_of_list_ascii (map pick bytes).

Definition generateShortCode (rnd : nat → byte) (pos : nat) : string :=
  generateShortCode_len rnd pos 6.

(** *** The tables *)

Record LinkRow := mkLinkRow {
  l_id : Z;
  l_short_code : string;
  l_original_url : string;
  l_creator : string;
  l_created_at : Z;
  l_clicks : Z
}.

Record MediaRow := mkMediaRow {
  m_id : Z;
  m_short_code : string;
  m_ipfs_hash : string;
  m_file_name : string;
  m_file_type : string;
  m_file_size : Z;
  m_creator : string;
  m_created_at : Z;
  m_views : Z
}.

(** The database: both tables in rowid order and, for AUTOINCREMENT, the
    largest rowid each table has ever handed out. *)
Record DB := mkDB {
  links : list LinkRow;
  links_seq : Z;
  media : list MediaRow;
  media_seq : Z
}.

Definition empty : DB := mkDB [] 0 [] 0.

(** The first row of a table whose column [key] holds [k]. *)
Definition find_by {Row K : Type} `{EqDecision K} (key : Row → K) (k : K)
    (t : list Row) : option Row :=
  head (filter (λ r, key r = k) t).

(** The SQL statements of the handlers, over a table keyed by its
    [short_code] column. *)
Section Statements.
Context {Row : Type}.
Variable code : Row → string.

(** [SELECT ... WHERE short_code = ?] with [.get]: the first match. *)
Definition select_code (c : string) (t : list Row) : option Row :=
  find_by code c t.

(** [UPDATE ... SET ... WHERE short_code = ?] *)
Definition update_code (f : Row → Row) (c : string) (t : list Row) : list Row :=
  (λ r, if decide (code r = c) then f r else r) <$> t.

(** [DELETE ... WHERE short_code = ?] and its [changes]. *)
Definition delete_code (c : string) (t : list Row) : list Row :=
  filter (λ r, code r ≠ c) t.

Definition changes (t t' : list Row) : nat := (length t - length t')%nat.

(** [INSERT]: the [UNIQUE] constraint on [short_code] makes the
    statement throw when the code is taken. *)
Definition insert_row (r : Row) (t : list Row) : option (list Row) :=
  match select_code (code r) t with
  | Some _ => None
  | None => Some (t ++ [r])%list
  end.
End Statements.

(** [ORDER BY created_at DESC]: the order among rows of equal
    [created_at] is the sort's, where SQLite has its own; what is
    stated of a listing holds for any order among such rows. *)
Definition newer_first {Row : Type} (created_at : Row → Z) : relation Row :=
  λ a b, created_at b ≤ created_at a.

#[global] Instance newer_first_dec {Row : Type} (created_at : Row → Z) :
  RelDecision (newer_first created_at) :=
  λ a b, decide (created_at b ≤ created_at a).

Definition order_desc {Row : Type} (created_at : Row → Z) (t : list Row) : list Row :=
  merge_sort (newer_first created_at) t.

(** *** Requests and responses *)

(** The bodies of the two creation requests as the repository's client
    posts them: each field a string, the size an integer, or missing.
    [Wire], below, has the two handlers on any JSON value and agrees
    with the handlers here on these bodies. *)
Record LinkBody := mkLinkBody {
  lb_originalUrl : option string;
  lb_creator : option string
}.

Record MediaBody := mkMediaBody {
  mb_ipfsHash : option string;
  mb_fileName : option string;
  mb_fileType : option string;
  mb_fileSize : option Z;
  mb_creator : option string
}.

(** JS truthiness of a body field that is a string, or a number, or
    missing. *)
Definition truthy_str (o : option string) : bool :=
  match o with
  | Some s => negb (String.eqb s EmptyString)
  | None => false
  end.

Definition truthy_num (o : option Z) : bool :=
  match o with
  | Some z => negb (z =? 0)
  | None => false
  end.

(** [creator || 'anonymous'] *)
Definition creator_or_anonymous (o : option string) : string :=
  if truthy_str o then default EmptyString o else "anonymous".

Record LinkJson := mkLinkJson {
  lj_shortCode : string;
  lj_originalUrl : option string;
  lj_creator : string;
  lj_createdAt : Z;
  lj_clicks : Z
}.

Record MediaJson := mkMediaJson {
  mj_shortCode : string;
  mj_ipfsHash : option string;
  mj_fileName : option string;
  mj_fileType : option string;
  mj_fileSize : option Z;
  mj_creator : string;
  mj_createdAt : Z;
  mj_views : Z
}.

Definition link_json (r : LinkRow) : LinkJson :=
  mkLinkJson (l_short_code r) (Some (l_original_url r)) (l_creator r)
    (l_created_at r) (l_clicks r).

Definition media_json (r : MediaRow) : MediaJson :=
  mkMediaJson (m_short_code r) (Some (m_ipfs_hash r)) (Some (m_file_name r))
    (Some (m_file_type r)) (Some (m_file_size r)) (m_creator r)
    (m_created_at r) (m_views r).

Inductive Payload :=
| OfLink (j : LinkJson)
| OfUrl (originalUrl : string)
| OfLinks (js : list LinkJson)
| OfMedia (j : MediaJson)
| OfMediaList (js : list MediaJson)
| OfStats (totalLinks totalMedia : Z)
| OfHealth
| OfLinkRows (rows : list LinkRow)
| OfMediaRows (rows : list MediaRow)
| OfMessage (message : string).

Inductive Response :=
| Json (p : Payload)
| Error (status : Z) (error : string).

Definition set_links (db : DB) (t : list LinkRow) (sq : Z) : DB :=
  mkDB t sq (media db) (media_seq db).
Definition set_media (db : DB) (t : list MediaRow) (sq : Z) : DB :=
  mkDB (links db) (links_seq db) t sq.

(** *** The handlers *)

(** [while (checkStmt.get(shortCode)) shortCode = generateShortCode()]:
    [k] counts the calls of the generator so far, [fuel] bounds the
    further turns of the loop. *)
Fixpoint unique_code {Row : Type} (code : Row → string) (t : list Row)
    (rnd : nat → byte) (fuel : nat) (k : nat) (shortCode : string) : option string :=
  match select_code code shortCode t with
  | Some _ =>
      match fuel with
      | O => None
      | S fuel' =>
          unique_code code t rnd fuel' (S k) (generateShortCode rnd (6 * k))
      end
  | None => Some shortCode
  end.

(** [POST /api/links].  [now] is [Date.now()]. *)
Definition post_links (fuel : nat) (now : Z) (rnd : nat → byte) (body : LinkBody)
    (db : DB) : option (Response * DB) :=
  if negb (truthy_str (lb_originalUrl body)) then
    Some (Error 400 "Original URL is required", db)
  else
    match unique_code l_short_code (links db) rnd fuel 1 (generateShortCode rnd 0) with
    | None => None
    | Some shortCode =>
        let createdAt := now / 1000 in
        let row := mkLinkRow (links_seq db + 1) shortCode
                     (default EmptyString (lb_originalUrl body))
                     (creator_or_anonymous (lb_creator body)) createdAt 0 in
        match insert_row l_short_code row (links db) with
        | None => Some (Error 500 "Failed to create short link", db)
        | Some t =>
            Some (Json (OfLink (mkLinkJson shortCode (lb_originalUrl body)
                                  (creator_or_anonymous (lb_creator body))
                                  createdAt 0)),
                  set_links db t (links_seq db + 1))
        end
    end.

(** [GET /api/links/:shortCode] *)
Definition get_link (shortCode : string) (db : DB) : Response * DB :=
  match select_code l_short_code shortCode (links db) with
  | None => (Error 404 "Link not found", db)
  | Some link => (Json (OfLink (link_json link)), db)
  end.

Definition click (r : LinkRow) : LinkRow :=
  mkLinkRow (l_id r) (l_short_code r) (l_original_url r) (l_creator r)
    (l_created_at r) (l_clicks r + 1).

(** [GET /api/links/:shortCode/redirect] *)
Definition get_link_redirect (shortCode : string) (db : DB) : Response * DB :=
  match select_code l_short_code shortCode (links db) with
  | None => (Error 404 "Link not found", db)
  | Some link =>
      (Json (OfUrl (l_original_url link)),
       set_links db (update_code l_short_code click shortCode (links db))
         (links_seq db))
  end.

(** [GET /api/users/:walletAddress/links] *)
Definition get_user_links (walletAddress : string) (db : DB) : Response * DB :=
  let rows :=
    take 10 (order_desc l_created_at
               (filter (λ r, l_creator r = walletAddress) (links db))) in
  (Json (OfLinks (link_json <$> rows)), db).

(** [POST /api/media] *)
Definition post_media (fuel : nat) (now : Z) (rnd : nat → byte) (body : MediaBody)
    (db : DB) : option (Response * DB) :=
  if negb (truthy_str (mb_ipfsHash body)) || negb (truthy_str (mb_fileName body))
     || negb (truthy_str (mb_fileType body)) || negb (truthy_num (mb_fileSize body))
  then Some (Error 400 "Missing required fields", db)
  else
    match unique_code m_short_code (media db) rnd fuel 1 (generateShortCode rnd 0) with
    | None => None
    | Some shortCode =>
        let createdAt := now / 1000 in
        let row := mkMediaRow (media_seq db + 1) shortCode
                     (default EmptyString (mb_ipfsHash body)) (default EmptyString (mb_fileName body))
                     (default EmptyString (mb_fileType body)) (default 0 (mb_fileSize body))
                     (creator_or_anonymous (mb_creator body)) createdAt 0 in
        match insert_row m_short_code row (media db) with
        | None => Some (Error 500 "Failed to save media metadata", db)
        | Some t =>
            Some (Json (OfMedia (mkMediaJson shortCode (mb_ipfsHash body)
                                   (mb_fileName body) (mb_fileType body)
                                   (mb_fileSize body)
                                   (creator_or_anonymous (mb_creator body))
                                   createdAt 0)),
                  set_media db t (media_seq db + 1))
        end
    end.

(** [GET /api/media/:shortCode] *)
Definition get_media (shortCode : string) (db : DB) : Response * DB :=
  match select_code m_short_code shortCode (media db) with
  | None => (Error 404 "Media not found", db)
  | Some m => (Json (OfMedia (media_json m)), db)
  end.

Definition view (r : MediaRow) : MediaRow :=
  mkMediaRow (m_id r) (m_short_code r) (m_ipfs_hash r) (m_file_name r)
    (m_file_type r) (m_file_size r) (m_creator r) (m_created_at r) (m_views r + 1).

(** [GET /api/media/:shortCode/view]: the response is built from the row
    read before the update, with [views + 1]. *)
Definition get_media_view (shortCode : string) (db : DB) : Response * DB :=
  match select_code m_short_code shortCode (media db) with
  | None => (Error 404 "Media not found", db)
  | Some m =>
      (Json (OfMedia (media_json (view m))),
       set_media db (update_code m_short_code view shortCode (media db))
         (media_seq db))
  end.

(** [GET /api/users/:walletAddress/media] *)
Definition get_user_media (walletAddress : string) (db : DB) : Response * DB :=
  let rows :=
    take 10 (order_desc m_created_at
               (filter (λ r, m_creator r = walletAddress) (media db))) in
  (Json (OfMediaList (media_json <$> rows)), db).

(** [GET /api/stats]: two [SELECT COUNT( * )]. *)
Definition get_stats (db : DB) : Response * DB :=
  let totalLinks := Z.of_nat (length (links db)) in
  let totalMedia := Z.of_nat (length (media db)) in
  (Json (OfStats totalLinks totalMedia), db).

Definition get_health (db : DB) : Response * DB := (Json OfHealth, db).

(** [GET /api/admin/links] and [GET /api/admin/media] *)
Definition admin_links (db : DB) : Response * DB :=
  (Json (OfLinkRows (take 100 (order_desc l_created_at (links db)))), db).
Definition admin_media (db : DB) : Response * DB :=
  (Json (OfMediaRows (take 100 (order_desc m_created_at (media db)))), db).

(** [DELETE /api/admin/links/:shortCode] *)
Definition delete_link (shortCode : string) (db : DB) : Response * DB :=
  let t := delete_code l_short_code shortCode (links db) in
  if (changes (links db) t =? 0)%nat then (Error 404 "Link not found", db)
  else (Json (OfMessage "Link deleted"), set_links db t (links_seq db)).

(** [DELETE /api/admin/media/:shortCode] *)
Definition delete_media (shortCode : string) (db : DB) : Response * DB :=
  let t := delete_code m_short_code shortCode (media db) in
  if (changes (media db) t =? 0)%nat then (Error 404 "Media not found", db)
  else (Json (OfMessage "Media deleted"), set_media db t (media_seq db)).

(** The routes as one transition function.  A request whose loop does not
    end within its fuel gets no response and leaves the database as it
    was. *)
Inductive Request :=
| PostLinks (fuel : nat) (now : Z) (rnd : nat → byte) (body : LinkBody)
| GetLink (shortCode : string)
| GetLinkRedirect (shortCode : string)
| GetUserLinks (walletAddress : string)
| PostMedia (fuel : nat) (now : Z) (rnd : nat → byte) (body : MediaBody)
| GetMedia (shortCode : string)
| GetMediaView (shortCode : string)
| GetUserMedia (walletAddress : string)
| GetStats
| GetHealth
| AdminLinks
| AdminMedia
| DeleteLink (shortCode : string)
| DeleteMedia (shortCode : string).

Definition serve (r : Request) (db : DB) : option (Response * DB) :=
  match r with
  | PostLinks fuel now rnd body => post_links fuel now rnd body db
  | GetLink c => Some (get_link c db)
  | GetLinkRedirect c => Some (get_link_redirect c db)
  | GetUserLinks w => Some (get_user_links w db)
  | PostMedia fuel now rnd body => post_media fuel now rnd body db
  | GetMedia c => Some (get_media c db)
  | GetMediaView c => Some (get_media_view c db)
  | GetUserMedia w => Some (get_user_media w db)
  | GetStats => Some (get_stats db)
  | GetHealth => Some (get_health db)
  | AdminLinks => Some (admin_links db)
  | AdminMedia => Some (admin_media db)
  | DeleteLink c => Some (delete_link c db)
  | DeleteMedia c => Some (delete_media c db)
  end.

Definition db_after (r : Request) (db : DB) : DB :=
  match serve r db with
  | Some (_, db') => db'
  | None => db
  end.

Definition run (rs : list Request) (db : DB) : DB :=
  foldl (λ d r, db_after r d) db rs.

(** The short codes a run of requests has assigned, per namespace: those
    of the 200 responses of its creations. *)
Definition link_posted (r : Request) (db : DB) : list string :=
  match r with
  | PostLinks fuel now rnd body =>
      match post_links fuel now rnd body db with
      | Some (Json (OfLink j), _) => [lj_shortCode j]
      | _ => []
      end
  | _ => []
  end.

Definition media_posted (r : Request) (db : DB) : list string :=
  match r with
  | PostMedia fuel now rnd body =>
      match post_media fuel now rnd body db with
      | Some (Json (OfMedia j), _) => [mj_shortCode j]
      | _ => []
      end
  | _ => []
  end.

Definition links_posted : list Request → DB → list string :=
  collect db_after link_posted.
Definition medias_posted : list Request → DB → list string :=
  collect db_after media_posted.

Definition is_delete_link (r : Request) : bool :=
  match r with DeleteLink _ => true | _ => false end.
Definition is_delete_media (r : Request) : bool :=
  match r with DeleteMedia _ => true | _ => false end.

(** What the schema and AUTOINCREMENT maintain of a table: the ids are
    distinct and at most the sequence, the codes are distinct. *)
Definition table_ok {Row : Type} (id : Row → Z) (code : Row → string)
    (t : list Row) (sq : Z) : Prop :=
  NoDup (id <$> t) ∧ NoDup (code <$> t) ∧ Forall (λ r, id r ≤ sq) t.

Definition db_ok (db : DB) : Prop :=
  table_ok l_id l_short_code (links db) (links_seq db)
  ∧ table_ok m_id m_short_code (media db) (media_seq db).

(** A record is a row, identified by its id for as long as it lives. *)
Definition link_by_id (db : DB) (i : Z) : option LinkRow := find_by l_id i (links db).
Definition media_by_id (db : DB) (i : Z) : option MediaRow := find_by m_id i (media db).

(** The counting resolves of the code [c] in a list of requests. *)
Definition is_redirect_of (c : string) (r : Request) : bool :=
  match r with
  | GetLinkRedirect c' => bool_decide (c' = c)
  | _ => false
  end.
Definition is_view_of (c : string) (r : Request) : bool :=
  match r with
  | GetMediaView c' => bool_decide (c' = c)
  | _ => false
  end.

Definition redirects (c : string) (rs : list Request) : Z :=
  Z.of_nat (length (List.filter (is_redirect_of c) rs)).
Definition views (c : string) (rs : list Request) : Z :=
  Z.of_nat (length (List.filter (is_view_of c) rs)).

(** The [k]-th candidate a creation draws from its entropy. *)
Definition candidate (rnd : nat → byte) (k : nat) : string :=
  generateShortCode rnd (6 * k).

(** The non-counting reads by code. *)
Definition is_peek (r : Request) : bool :=
  match r with
  | GetLink _ | GetMedia _ => true
  | _ => false
  end.

(** The storage of each namespace. *)
Definition link_part (db : DB) : list LinkRow * Z := (links db, links_seq db).
Definition media_part (db : DB) : list MediaRow * Z := (media db, media_seq db).

Definition response_on {B} (f : DB → B) (o : option (Response * DB))
  : option (Response * B) :=
  match o with
  | Some (r, db') => Some (r, f db')
  | None => None
  end.

End Service.

(** ** The creation requests as they arrive

    [express.json()] hands the handlers a JSON object whose fields hold
    any JSON value.  [Service.post_links] and [Service.post_media] are
    the handlers on the bodies the repository's client posts, strings
    and an integer size; here the fields are any value.  The guards are
    JavaScript's truthiness.  Of the values that reach the INSERT, a
    string binds as text and an integer as itself, and a boolean is
    refused by the driver, which throws: the handler's [catch] answers
    500.  What the driver and the column's affinity make of any other
    value (a number for a text column, a string or a fraction for the
    size, an array, an object) is not modelled and is an outcome of its
    own. *)

Module Wire.

Local Open Scope Z_scope.

(** A JSON value after [JSON.parse], [Undefined] for a field the body
    does not have.  A number is an integer or a [Fraction]; arrays and
    objects stand without their contents. *)
Inductive Value :=
| Undefined
| Null
| Bool (b : bool)
| Int (z : Z)
| Fraction
| Str (s : string)
| Array
| Object.

(** [!!v] *)
Definition truthy (v : Value) : bool :=
  match v with
  | Undefined | Null => false
  | Bool b => b
  | Int z => negb (z =? 0)
  | Fraction => true
  | Str s => negb (String.eqb s EmptyString)
  | Array | Object => true
  end.

(** [creator || 'anonymous'] *)
Definition or_anonymous (creator : Value) : Value :=
  if truthy creator then creator else Str "anonymous".

Definition MAX_SAFE_INTEGER : Z := 2 ^ 53 - 1.

(** What the INSERT makes of a value handed to [stmt.run]. *)
Inductive Bound (A : Type) :=
| Binds (a : A)
| Throws
| Unknown.
Arguments Binds {A} a.
Arguments Throws {A}.
Arguments Unknown {A}.

Definition bind_text (v : Value) : Bound string :=
  match v with
  | Str s => Binds s
  | Bool _ => Throws
  | _ => Unknown
  end.

Definition bind_integer (v : Value) : Bound Z :=
  match v with
  | Int z =>
      if (- MAX_SAFE_INTEGER <=? z) && (z <=? MAX_SAFE_INTEGER) then Binds z
      else Unknown
  | Bool _ => Throws
  | _ => Unknown
  end.

(** Two of the values of one [stmt.run]: the statement throws as soon
    as one of them is refused. *)
Definition both {A B : Type} (x : Bound A) (y : Bound B) : Bound (A * B) :=
  match x, y with
  | Binds a, Binds b => Binds (a, b)
  | Throws, _ => Throws
  | _, Throws => Throws
  | _, _ => Unknown
  end.

Record LinkBody := mkLinkBody {
  lb_originalUrl : Value;
  lb_creator : Value
}.

Record MediaBody := mkMediaBody {
  mb_ipfsHash : Value;
  mb_fileName : Value;
  mb_fileType : Value;
  mb_fileSize : Value;
  mb_creator : Value
}.

Inductive Outcome :=
| Answered (resp : Service.Response) (db : Service.DB)
| NoAnswer
| Unmodelled.

(** [POST /api/links] *)
Definition post_links (fuel : nat) (now : Z) (rnd : nat → byte) (body : LinkBody)
    (db : Service.DB) : Outcome :=
  if negb (truthy (lb_originalUrl body)) then
    Answered (Service.Error 400 "Original URL is required") db
  else
    match Service.unique_code Service.l_short_code (Service.links db) rnd fuel 1
            (Service.generateShortCode rnd 0) with
    | None => NoAnswer
    | Some shortCode =>
        let createdAt := now / 1000 in
        match both (bind_text (lb_originalUrl body))
                (bind_text (or_anonymous (lb_creator body))) with
        | Throws => Answered (Service.Error 500 "Failed to create short link") db
        | Unknown => Unmodelled
        | Binds (originalUrl, creator) =>
            let row := Service.mkLinkRow (Service.links_seq db + 1) shortCode
                         originalUrl creator createdAt 0 in
            match Service.insert_row Service.l_short_code row (Service.links db) with
            | None => Answered (Service.Error 500 "Failed to create short link") db
            | Some t =>
                Answered
                  (Service.Json
                     (Service.OfLink
                        (Service.mkLinkJson shortCode (Some originalUrl) creator
                           createdAt 0)))
                  (Service.set_links db t (Service.links_seq db + 1))
            end
        end
    end.

(** [POST /api/media] *)
Definition post_media (fuel : nat) (now : Z) (rnd : nat → byte) (body : MediaBody)
    (db : Service.DB) : Outcome :=
  if negb (truthy (mb_ipfsHash body)) || negb (truthy (mb_fileName body))
     || negb (truthy (mb_fileType body)) || negb (truthy (mb_fileSize body))
  then Answered (Service.Error 400 "Missing required fields") db
  else
    match Service.unique_code Service.m_short_code (Service.media db) rnd fuel 1
            (Service.generateShortCode rnd 0) with
    | None => NoAnswer
    | Some shortCode =>
        let createdAt := now / 1000 in
        match both (bind_text (mb_ipfsHash body))
                (both (bind_text (mb_fileName body))
                   (both (bind_text (mb_fileType body))
                      (both (bind_integer (mb_fileSize body))
                         (bind_text (or_anonymous (mb_creator body)))))) with
        | Throws => Answered (Service.Error 500 "Failed to save media metadata") db
        | Unknown => Unmodelled
        | Binds (ipfsHash, (fileName, (fileType, (fileSize, creator)))) =>
            let row := Service.mkMediaRow (Service.media_seq db + 1) shortCode
                         ipfsHash fileName fileType fileSize creator createdAt 0 in
            match Service.insert_row Service.m_short_code row (Service.media db) with
            | None => Answered (Service.Error 500 "Failed to save media metadata") db
            | Some t =>
                Answered
                  (Service.Json
                     (Service.OfMedia
                        (Service.mkMediaJson shortCode (Some ipfsHash) (Some fileName)
                           (Some fileType) (Some fileSize) creator createdAt 0)))
                  (Service.set_media db t (Service.media_seq db + 1))
            end
        end
    end.

(** The bodies of [Service] among these. *)
Definition of_string (o : option string) : Value :=
  match o with
  | Some s => Str s
  | None => Undefined
  end.

Definition of_number (o : option Z) : Value :=
  match o with
  | Some z => Int z
  | None => Undefined
  end.

Definition of_link_body (b : Service.LinkBody) : LinkBody :=
  mkLinkBody (of_string (Service.lb_originalUrl b)) (of_string (Service.lb_creator b)).

Definition of_media_body (b : Service.MediaBody) : MediaBody :=
  mkMediaBody (of_string (Service.mb_ipfsHash b)) (of_string (Service.mb_fileName b))
    (of_string (Service.mb_fileType b)) (of_number (Service.mb_fileSize b))
    (of_string (Service.mb_creator b)).

Definition of_answer (o : option (Service.Response * Service.DB)) : Outcome :=
  match o with
  | Some (resp, db) => Answered resp db
  | None => NoAnswer
  end.

(** The size of a body of [Service] is a number the INSERT takes as it
    is. *)
Definition safe_size (b : Service.MediaBody) : Prop :=
  ∀ z, Service.mb_fileSize b = Some z → - MAX_SAFE_INTEGER ≤ z ≤ MAX_SAFE_INTEGER.

End Wire.

(** ** The browser side

    The IPFS helpers, the upload form and the pages that call the
    service.  A request of a page is an exchange with the handler of its
    route, in which the request or the reply can be lost. *)

Module Ipfs.

Definition IPFS_GATEWAYS : list string :=
  ["https://ipfs.io/ipfs/";
   "https://gateway.pinata.cloud/ipfs/";
   "https://cloudflare-ipfs.com/ipfs/";
   "https://dweb.link/ipfs/"].

(** [`${IPFS_GATEWAYS[0]}${hash}`] *)
Definition getIpfsUrl (hash : string) : string :=
  String.append (nth 0 IPFS_GATEWAYS EmptyString) hash.

Definition getIpfsUrls (hash : string) : list string :=
  map (λ gateway, String.append gateway hash) IPFS_GATEWAYS.

(** What the code reads of a [File]. *)
Record File := mkFile {
  f_name : string;
  f_type : string;
  f_size : Z
}.

Record Upload := mkUpload {
  u_hash : string;
  u_url : string;
  u_size : Z;
  u_name : string;
  u_type : string
}.

Definition hex_digit (n : N) : ascii :=
  match String.get (N.to_nat n) "0123456789abcdef" with
  | Some c => c
  | None => Ascii.zero
  end.

(** [b.toString(16)] for a byte: one digit below 16, two from there. *)
Definition toString16 (b : byte) : string :=
  let n := Byte.to_N b in
  if (n <? 16)%N then String (hex_digit n) EmptyString
  else String (hex_digit (n / 16)) (String (hex_digit (n mod 16)) EmptyString).

(** The two hex digits of a byte, the high one first. *)
Definition hex_pair (b : byte) : list ascii :=
  [hex_digit (Byte.to_N b / 16); hex_digit (Byte.to_N b mod 16)].

(** [s.padStart(targetLength, pad)] for a pad of one character. *)
Definition padStart (targetLength : nat) (pad : ascii) (s : string) : string :=
  String.append
    (string_of_list_ascii (repeat pad (targetLength - String.length s))) s.

(** The identifier [simulateUpload] makes up from 32 random bytes:
    ['Qm' + hex.substring(0, 44)]. *)
Definition simulated_hash (rnd : nat → byte) : string :=
  let randomBytes := Service.randomBytes rnd 0 32 in
  String.append "Qm"
    (String.substring 0 44
       (String.concat EmptyString
          (map (λ b, padStart 2 "0"%char (toString16 b)) randomBytes))).

Definition simulateUpload (rnd : nat → byte) (file : File) : Upload :=
  let hash := simulated_hash rnd in
  mkUpload hash (getIpfsUrl hash) (f_size file) (f_name file) (f_type file).

(** The answer of the pinning service to the upload request. *)
Inductive Answer :=
| NetworkError (message : string)
| Refused (message : option string)
| Pinned (IpfsHash : string).

(** [uploadToIPFS]: the two keys are the environment's, [None] or the
    empty string when not configured. *)
Definition uploadToIPFS (apiKey secretKey : option string) (rnd : nat → byte)
    (answer : Answer) (file : File) : Upload + string :=
  if negb (Service.truthy_str apiKey) || negb (Service.truthy_str secretKey) then
    inl (simulateUpload rnd file)
  else
    match answer with
    | NetworkError message => inr message
    | Refused message =>
        inr (if Service.truthy_str message then default EmptyString message
             else "Failed to upload to IPFS")
    | Pinned h => inl (mkUpload h (getIpfsUrl h) (f_size file) (f_name file) (f_type file))
    end.

(** [isValidCid]: [None] is a value that is not a string. *)
Definition isValidCid (cid : option string) : bool :=
  match cid with
  | None => false
  | Some cid =>
      if String.eqb cid EmptyString then false
      else if String.prefix "Qm" cid && (String.length cid =? 46)%nat then true
      else if String.prefix "ba" cid && (59 <=? String.length cid)%nat then true
      else false
  end.

(** The loop of [fetchFromIPFS]: the first URL whose request does not
    throw. *)
Fixpoint first_reachable (throws : string → bool) (urls : list string)
  : option string :=
  match urls with
  | [] => None
  | url :: urls' => if throws url then first_reachable throws urls' else Some url
  end.

Definition fetchFromIPFS (throws : string → bool) (hash : string) : string :=
  let urls := getIpfsUrls hash in
  match first_reachable throws urls with
  | Some url => url
  | None => nth 0 urls EmptyString
  end.

End Ipfs.

(** The upload form, the calls of the service it ends in, and the page
    behind a short link. *)
Module Pages.

Definition SUPPORTED_FILE_TYPES : list string :=
  ["image/jpeg"; "image/png"; "image/gif"; "image/webp"; "video/mp4";
   "video/webm"; "audio/mp3"; "audio/mpeg"; "audio/wav"; "application/pdf"].

Definition MAX_FILE_SIZE : Z := 50 * 1024 * 1024.

(** The state of the upload form that file selection touches. *)
Record Form := mkForm {
  file : option Ipfs.File;
  error : string;
  shortCode : string;
  ipfsHash : string
}.

Definition handleFileSelect (selectedFile : option Ipfs.File) (st : Form) : Form :=
  match selectedFile with
  | None => mkForm (file st) EmptyString EmptyString EmptyString
  | Some f =>
      if negb (bool_decide (Ipfs.f_type f ∈ SUPPORTED_FILE_TYPES)) then
        mkForm (file st)
          "Unsupported file type. Please upload images, videos, audio, or PDF files."
          EmptyString EmptyString
      else if (MAX_FILE_SIZE <? Ipfs.f_size f)%Z then
        mkForm (file st) "File is too large. Maximum size is 50MB."
          EmptyString EmptyString
      else mkForm (Some f) EmptyString EmptyString EmptyString
  end.


Definition saveMediaMetadata_body (ipfsHash fileName fileType : string) (fileSize : Z)
    (walletAddress : option string) : Service.MediaBody :=
  Service.mkMediaBody (Some ipfsHash) (Some fileName) (Some fileType) (Some fileSize)
    (Some (Service.creator_or_anonymous walletAddress)).

(** One HTTP exchange between a page and the service: the request or
    the reply can be lost, and [fetch] then rejects with a message of
    the browser's. *)
Inductive Delivery :=
| RequestLost (message : string)
| ReplyLost (message : string)
| Delivered.

(** Whether the request reaches the service. *)
Definition reaches (d : Delivery) : bool :=
  match d with
  | RequestLost _ => false
  | _ => true
  end.

(** What [fetch] gives the client. *)
Inductive Reply :=
| Rejected (message : string)
| Response (r : Service.Response).

(** An exchange with a route that may never answer, and with one that
    always answers. *)
Definition exchange (d : Delivery) (answer : option (Service.Response * Service.DB))
    (db : Service.DB) : option (Reply * Service.DB) :=
  match d with
  | RequestLost message => Some (Rejected message, db)
  | ReplyLost message =>
      match answer with
      | Some (_, db') => Some (Rejected message, db')
      | None => None
      end
  | Delivered =>
      match answer with
      | Some (r, db') => Some (Response r, db')
      | None => None
      end
  end.

Definition exchange_get (d : Delivery) (answer : Service.Response * Service.DB)
    (db : Service.DB) : Reply * Service.DB :=
  match d with
  | RequestLost message => (Rejected message, db)
  | ReplyLost message => (Rejected message, answer.2)
  | Delivered => (Response answer.1, answer.2)
  end.

(** What a function of the client comes to. *)
Inductive Result (A : Type) :=
| Returns (a : A)
| Throws (message : string).
Arguments Returns {A} a.
Arguments Throws {A} message.

(** [err.message || fallback] *)
Definition message_or (message fallback : string) : string :=
  if String.eqb message EmptyString then fallback else message.

(** [saveMediaMetadata], [getLinkForRedirect] and [getMediaForView] of
    the client, from the reply on. *)
Definition saveMediaMetadata (reply : Reply) : Result Service.Payload :=
  match reply with
  | Rejected message => Throws message
  | Response (Service.Json p) => Returns p
  | Response (Service.Error _ e) => Throws (message_or e "Failed to save media metadata")
  end.

Definition getLinkForRedirect (reply : Reply) : Result (option Service.Payload) :=
  match reply with
  | Rejected message => Throws message
  | Response (Service.Json p) => Returns (Some p)
  | Response (Service.Error 404 _) => Returns None
  | Response (Service.Error _ _) => Throws "Failed to get link"
  end.

Definition getMediaForView (reply : Reply) : Result (option Service.Payload) :=
  match reply with
  | Rejected message => Throws message
  | Response (Service.Json p) => Returns (Some p)
  | Response (Service.Error 404 _) => Returns None
  | Response (Service.Error _ _) => Throws "Failed to get media"
  end.

(** [data.shortCode], [data.originalUrl] and [data.ipfsHash]: a field
    the answer does not have is [undefined], which is empty as a short
    code of the form and prints as [undefined] in an address. *)
Definition shortCode_of (data : Service.Payload) : string :=
  match data with
  | Service.OfMedia j => Service.mj_shortCode j
  | Service.OfLink j => Service.lj_shortCode j
  | _ => EmptyString
  end.

Definition originalUrl_of (data : Service.Payload) : string :=
  match data with
  | Service.OfUrl originalUrl => originalUrl
  | Service.OfLink j => default "undefined" (Service.lj_originalUrl j)
  | _ => "undefined"
  end.

Definition ipfsHash_of (data : Service.Payload) : string :=
  match data with
  | Service.OfMedia j => default "undefined" (Service.mj_ipfsHash j)
  | _ => "undefined"
  end.

(** [handleUpload]: the file goes to IPFS, then its metadata to the
    service.  [rnd_cid] and [answer] are what [uploadToIPFS] meets, [d]
    is the exchange with the service, [fuel], [now] and [rnd] what the
    service does. *)
Definition handleUpload (apiKey secretKey : option string) (rnd_cid : nat → byte)
    (answer : Ipfs.Answer) (d : Delivery) (fuel : nat) (now : Z) (rnd : nat → byte)
    (account : option string) (st : Form) (db : Service.DB)
  : option (Form * Service.DB) :=
  match file st with
  | None =>
      Some (mkForm None "Please select a file to upload" (shortCode st) (ipfsHash st), db)
  | Some f =>
      match Ipfs.uploadToIPFS apiKey secretKey rnd_cid answer f with
      | inr message =>
          Some (mkForm (Some f) (message_or message "Failed to upload media")
                  (shortCode st) (ipfsHash st), db)
      | inl ipfsResult =>
          match exchange d
                  (Service.post_media fuel now rnd
                     (saveMediaMetadata_body (Ipfs.u_hash ipfsResult) (Ipfs.f_name f)
                        (Ipfs.f_type f) (Ipfs.f_size f) account) db) db with
          | None => None
          | Some (reply, db') =>
              match saveMediaMetadata reply with
              | Returns mediaData =>
                  Some (mkForm (Some f) EmptyString (shortCode_of mediaData)
                          (Ipfs.u_hash ipfsResult), db')
              | Throws message =>
                  Some (mkForm (Some f) (message_or message "Failed to upload media")
                          (shortCode st) (Ipfs.u_hash ipfsResult), db')
              end
          end
      end
  end.

(** [removeFile] *)
Definition removeFile (st : Form) : Form :=
  mkForm None (error st) (shortCode st) (ipfsHash st).

(** What the user does with the file field of the form. *)
Inductive Pick :=
| Select (selectedFile : option Ipfs.File)
| Remove.

Definition pick (p : Pick) (st : Form) : Form :=
  match p with
  | Select selectedFile => handleFileSelect selectedFile st
  | Remove => removeFile st
  end.

Definition initial : Form := mkForm None EmptyString EmptyString EmptyString.

Definition picks (ps : list Pick) (st : Form) : Form :=
  foldl (λ st p, pick p st) st ps.

(** The page behind a short link: its state, and where the browser has
    been sent. *)
Record Page := mkPage {
  loading : bool;
  page_error : string;
  mediaData : option (Service.Payload * string);
  href : option string
}.

Definition opened : Page := mkPage true EmptyString None None.

Inductive PageType := link | media.

(** One run of [fetchData], from the reply on. *)
Definition fetchData (type : PageType) (reply : Reply) (p : Page) : Page :=
  match type with
  | link =>
      match getLinkForRedirect reply with
      | Returns (Some data) =>
          mkPage (loading p) (page_error p) (mediaData p) (Some (originalUrl_of data))
      | Returns None => mkPage false "Link not found" (mediaData p) (href p)
      | Throws _ =>
          mkPage false "Failed to load content. Please try again." (mediaData p) (href p)
      end
  | media =>
      match getMediaForView reply with
      | Returns (Some data) =>
          mkPage false (page_error p)
            (Some (data, Ipfs.getIpfsUrl (ipfsHash_of data))) (href p)
      | Returns None => mkPage false "Media not found" (mediaData p) (href p)
      | Throws _ =>
          mkPage false "Failed to load content. Please try again." (mediaData p) (href p)
      end
  end.

(** The request a run of the effect sends. *)
Definition route (type : PageType) (shortCode : string) (db : Service.DB)
  : Service.Response * Service.DB :=
  match type with
  | link => Service.get_link_redirect shortCode db
  | media => Service.get_media_view shortCode db
  end.

(** One run of the effect of the page. *)
Definition effect (type : PageType) (shortCode : string) (st : Page * Service.DB)
    (d : Delivery) : Page * Service.DB :=
  let '(reply, db') := exchange_get d (route type shortCode st.2) st.2 in
  (fetchData type reply st.1, db').

(** The runs of the effect while the page is up, one exchange each, the
    replies handled in the order of the requests.  React runs the
    effect once when the page is mounted, and a second time when the
    page is mounted under [React.StrictMode], as [main.jsx] does, in a
    development build. *)
Definition effects (type : PageType) (shortCode : string) (ds : list Delivery)
    (st : Page * Service.DB) : Page * Service.DB :=
  foldl (effect type shortCode) st ds.

(** What the page renders. *)
Inductive View :=
| Spinner
| Oops (error : string)
| Media (data : Service.Payload) (url : string)
| Nothing.

Definition render (type : PageType) (p : Page) : View :=
  if loading p then Spinner
  else if negb (String.eqb (page_error p) EmptyString) then Oops (page_error p)
  else
    match type, mediaData p with
    | media, Some (data, url) => Media data url
    | _, _ => Nothing
    end.

(** How many of the exchanges reach the service. *)
Definition reached (ds : list Delivery) : Z :=
  Z.of_nat (length (List.filter reaches ds)).


Definition viewed (r : Service.MediaRow) (k : Z) : Service.MediaRow :=
  Service.mkMediaRow (Service.m_id r) (Service.m_short_code r) (Service.m_ipfs_hash r)
    (Service.m_file_name r) (Service.m_file_type r) (Service.m_file_size r)
    (Service.m_creator r) (Service.m_created_at r) (Service.m_views r + k).

End Pages.

(** ** The registry in [localStorage]

    The items are read with [JSON.parse] under a [try]: an item that is
    missing, empty or not JSON reads as the default.  An item that parses
    holds what this module has written, an object of records or the two
    totals. *)

Module LocalStore.

Local Open Scope Z_scope.

Record LinkData := mkLinkData {
  shortCode : string;
  originalUrl : string;
  creator : string;
  createdAt : Z;
  clicks : Z
}.

Record Stats := mkStats {
  totalLinks : Z;
  totalMedia : Z
}.

Inductive Item (A : Type) :=
| Absent
| Garbled
| Stored (v : A).
Arguments Absent {A}.
Arguments Garbled {A}.
Arguments Stored {A} v.

(** The items [linkio_links] and [linkio_stats]. *)
Record Storage := mkStorage {
  links_item : Item (gmap string LinkData);
  stats_item : Item Stats
}.

Definition clear : Storage := mkStorage Absent Absent.

Definition generateShortCode (rnd : nat → byte) (pos : nat) : string :=
  Service.generateShortCode_len rnd pos 6.

Definition getLinks (st : Storage) : gmap string LinkData :=
  match links_item st with
  | Stored links => links
  | _ => ∅
  end.

Definition getStats (st : Storage) : Stats :=
  match stats_item st with
  | Stored stats => stats
  | _ => mkStats 0 0
  end.

(** The names every object inherits from [Object.prototype]. *)
Definition object_prototype : list string :=
  ["constructor"; "__defineGetter__"; "__defineSetter__"; "hasOwnProperty";
   "__lookupGetter__"; "__lookupSetter__"; "isPrototypeOf"; "propertyIsEnumerable";
   "toString"; "valueOf"; "__proto__"; "toLocaleString"].

(** [links[shortCode]]: a record of the object, a value it inherits, or
    [undefined]. *)
Inductive Lookup :=
| Own (linkData : LinkData)
| Inherited
| Undefined.

Definition get (links : gmap string LinkData) (shortCode : string) : Lookup :=
  match links !! shortCode with
  | Some linkData => Own linkData
  | None => if bool_decide (shortCode ∈ object_prototype) then Inherited else Undefined
  end.

Definition truthy (v : Lookup) : bool :=
  match v with
  | Undefined => false
  | _ => true
  end.

(** [while (links[shortCode]) shortCode = generateShortCode()] *)
Fixpoint unique_code (links : gmap string LinkData) (rnd : nat → byte)
    (fuel : nat) (k : nat) (shortCode : string) : option string :=
  if truthy (get links shortCode) then
    match fuel with
    | O => None
    | S fuel' => unique_code links rnd fuel' (S k) (generateShortCode rnd (6 * k))
    end
  else Some shortCode.

Definition createShortLink (fuel : nat) (now : Z) (rnd : nat → byte)
    (originalUrl : string) (walletAddress : option string) (st : Storage)
  : option (LinkData * Storage) :=
  let links := getLinks st in
  let stats := getStats st in
  match unique_code links rnd fuel 1 (generateShortCode rnd 0) with
  | None => None
  | Some shortCode =>
      let linkData :=
        mkLinkData shortCode originalUrl (Service.creator_or_anonymous walletAddress)
          (now / 1000) 0 in
      Some (linkData,
            mkStorage (Stored (<[shortCode := linkData]> links))
              (Stored (mkStats (totalLinks stats + 1) (totalMedia stats))))
  end.

(** [links[shortCode] || null]: [Undefined] stands for the [null]. *)
Definition getLinkData (shortCode : string) (st : Storage) : Lookup :=
  get (getLinks st) shortCode.

Definition linkExists (shortCode : string) (st : Storage) : bool :=
  truthy (get (getLinks st) shortCode).

Definition click (d : LinkData) : LinkData :=
  mkLinkData (shortCode d) (originalUrl d) (creator d) (createdAt d) (clicks d + 1).

(** [incrementLinkClicks]: under an inherited name the increment lands
    on a value outside the object, which is written back as it was
    read. *)
Definition incrementLinkClicks (shortCode : string) (st : Storage) : Storage :=
  let links := getLinks st in
  match get links shortCode with
  | Own linkData =>
      mkStorage (Stored (<[shortCode := click linkData]> links)) (stats_item st)
  | Inherited => mkStorage (Stored links) (stats_item st)
  | Undefined => st
  end.

(** [Object.values(links)]; the order of the values is not the
    engine's. *)
Definition Object_values (links : gmap string LinkData) : list LinkData :=
  (map_to_list links).*2.

(** [getUserLinks]: [.filter(...).sort((a, b) => b.createdAt - a.createdAt)] *)
Definition getUserLinks (walletAddress : option string) (st : Storage) : list LinkData :=
  let allLinks := Object_values (getLinks st) in
  if Service.truthy_str walletAddress then
    merge_sort (Service.newer_first createdAt)
      (filter (λ link, creator link = default EmptyString walletAddress) allLinks)
  else
    merge_sort (Service.newer_first createdAt)
      (filter (λ link, creator link = "anonymous") allLinks).

Definition getTotalLinks (st : Storage) : Z := totalLinks (getStats st).

(** The calls that write. *)
Inductive Call :=
| CreateShortLink (fuel : nat) (now : Z) (rnd : nat → byte) (originalUrl : string)
    (walletAddress : option string)
| IncrementLinkClicks (shortCode : string).

(** A creation whose loop does not end leaves the storage as it was. *)
Definition step (st : Storage) (c : Call) : Storage :=
  match c with
  | CreateShortLink fuel now rnd originalUrl walletAddress =>
      match createShortLink fuel now rnd originalUrl walletAddress st with
      | Some (_, st') => st'
      | None => st
      end
  | IncrementLinkClicks shortCode => incrementLinkClicks shortCode st
  end.

Definition run (cs : list Call) (st : Storage) : Storage := foldl step st cs.

(** The click increments of the code [c] in a list of calls. *)
Definition is_increment_of (c : string) (call : Call) : bool :=
  match call with
  | IncrementLinkClicks c' => bool_decide (c' = c)
  | _ => false
  end.

Definition increments (c : string) (cs : list Call) : Z :=
  Z.of_nat (length (List.filter (is_increment_of c) cs)).

End LocalStore.

(** ** Concrete runs

    A stand-in for the hash, a block and some entropy, to run both
    registries on concrete inputs. *)
Module Sample.

Definition hash (timestamp prevrandao sender counter : N) : N :=
  (timestamp + prevrandao + sender + counter)%N.

Definition env : Contract.Env := Contract.mkEnv 7%N 1700000000%N 99%N.

(** Entropy whose bytes are all the byte of value [n mod 256]. *)
Definition const_rnd (n : nat) : nat → byte :=
  λ _, default x00 (Byte.of_N (N.of_nat n mod 256)).

(** Entropy whose [k]-th block of six bytes holds the byte of value
    [k mod 256]: the generator's [k]-th call returns the [k]-th symbol
    six times. *)
Definition step_rnd : nat → byte :=
  λ n, default x00 (Byte.of_N (N.of_nat (n / 6) mod 256)).

Definition url : string := "https://example.com/test".

(** Contract transactions by the sender of [env]. *)
Definition tx (c : Contract.Call) : Contract.Tx := Contract.mkTx env 3 c.

(** The same call from the next address one second earlier: under
    [hash] its first seed is the one of the call before it. *)
Definition tx' (c : Contract.Call) : Contract.Tx :=
  Contract.mkTx (Contract.mkEnv 8%N 1699999999%N 98%N) 3 c.

(** Service requests. *)
Definition post_link (creator : string) : Service.Request :=
  Service.PostLinks 5 1700000000123 step_rnd
    (Service.mkLinkBody (Some url) (Some creator)).

Definition post_media (creator : string) : Service.Request :=
  Service.PostMedia 5 1700000000123 step_rnd
    (Service.mkMediaBody (Some "QmTest123") (Some "a.png") (Some "image/png")
       (Some 1024000%Z) (Some creator)).

(** A transaction of the same sender in a block of timestamp [ts]. *)
Definition tx_at (ts : N) (c : Contract.Call) : Contract.Tx :=
  Contract.mkTx (Contract.mkEnv 7%N ts 99%N) 3 c.

(** The [k]-th of a series of creations by one wallet, one second apart,
    each with its own entropy. *)
Definition post_link_at (k : nat) : Service.Request :=
  Service.PostLinks 0 (1700000000000 + 1000 * Z.of_nat k) (const_rnd k)
    (Service.mkLinkBody (Some url) (Some "0xABC")).

Definition eleven : list Service.Request := map post_link_at (seq 0 11).

(** A URL of 2049 characters. *)
Definition long_url : string := string_of_list_ascii (repeat "a"%char 2049).

(** The environment of [tx']. *)
Definition env2 : Contract.Env := Contract.mkEnv 8%N 1699999999%N 98%N.

(** The contract after its first link, and after its first upload. *)
Definition s1 : Contract.State :=
  Contract.state_after Contract.init
    (Contract.createShortLink hash 3 env url Contract.init).

Definition m1 : Contract.State :=
  Contract.state_after Contract.init
    (Contract.uploadMedia hash 3 env "QmTest123" "a.png" "image/png" 1024000
       Contract.init).

(** The service after its first link. *)
Definition db1 : Service.DB := Service.run [post_link "0xABC"] Service.empty.

(** Files for the upload form: an ordinary one, one of zero bytes and
    one of a byte more than the form allows. *)
Definition pdf : Ipfs.File := Ipfs.mkFile "paper.pdf" "application/pdf" 1024.
Definition empty_pdf : Ipfs.File := Ipfs.mkFile "empty.pdf" "application/pdf" 0.
Definition big_pdf : Ipfs.File :=
  Ipfs.mkFile "big.pdf" "application/pdf" (50 * 1024 * 1024 + 1).

(** The browser's registry after its first link. *)
Definition local_link : LocalStore.LinkData :=
  LocalStore.mkLinkData "aaaaaa" url "anonymous" 1700000000 0.

Definition local1 : LocalStore.Storage :=
  LocalStore.mkStorage (LocalStore.Stored {["aaaaaa" := local_link]})
    (LocalStore.Stored (LocalStore.mkStats 1 0)).

End Sample.

(** ** Counting the bytes behind a symbol *)

(** The 256 values a random byte takes. *)
Definition all_bytes : list byte :=
  omap Byte.of_N (map N.of_nat (seq 0 256)).

(** How many byte values the service's generator maps to the symbol [c]:
    with a uniform byte, [c] has probability [preimages c / 256] at each
    position of the code. *)
Definition preimages (c : ascii) : nat :=
  length (filter (λ b, Service.pick b = c) all_bytes).

(** * Properties *)

(** ** Codes handed out once *)

Section Fresh.
Context {St Op : Type}.
Variable step : Op → St → St.
Variable out : Op → St → list string.
Variable live : St → string → Prop.
Variable ok : Op → Prop.

(** What an operation hands out is one code, free before and taken
    after; the operations that are [ok] free no code. *)
Hypothesis out_fresh :
  ∀ o s c, c ∈ out o s → out o s = [c] ∧ ¬ live s c ∧ live (step o s) c.
Hypothesis live_mono : ∀ o s c, ok o → live s c → live (step o s) c.

Lemma collect_fresh os s c :
  Forall ok os → c ∈ collect step out os s → ¬ live s c.
Proof.
  intros Hok. revert s. induction Hok as [|o os Ho Hos IH]; intros s; cbn [collect].
  - by intros ?%elem_of_nil.
  - intros [Hc|Hc]%elem_of_app.
    + by apply out_fresh in Hc as (_ & ? & _).
    + intros Hl. by eapply IH, live_mono.
Qed.

Lemma collect_NoDup os s : Forall ok os → NoDup (collect step out os s).
Proof.
  intros Hok. revert s. induction Hok as [|o os Ho Hos IH]; intros s; cbn [collect].
  - constructor.
  - apply NoDup_app. split_and!; [| |apply IH].
    + destruct (out o s) as [|c l] eqn:Ho'; [constructor|].
      assert (Hc : c ∈ out o s) by (rewrite Ho'; left).
      apply out_fresh in Hc as (Heq & _). rewrite Ho' in Heq.
      injection Heq as ->. apply NoDup_singleton.
    + intros c Hc Hc'. apply out_fresh in Hc as (_ & _ & Hl).
      by eapply collect_fresh.
Qed.
End Fresh.

(** ** The alphabet *)

Lemma chars_length : String.length chars = 62%nat.
Proof. reflexivity. Qed.

Lemma char_at_alphabet (i : nat) : (i < 62)%nat → char_at i ∈ alphabet.
Proof.
  intros Hi.
  assert (Hall : forallb (λ k, bool_decide (char_at k ∈ alphabet)) (seq 0 62) = true)
    by (vm_compute; reflexivity).
  rewrite forallb_forall in Hall.
  specialize (Hall i). rewrite bool_decide_eq_true in Hall.
  apply Hall, in_seq. lia.
Qed.

Lemma length_string_of_list_ascii (l : list ascii) :
  String.length (string_of_list_ascii l) = length l.
Proof. induction l as [|a l IH]; simpl; congruence. Qed.

Lemma all_bytes_NoDup : NoDup all_bytes.
Proof.
  apply (NoDup_fmap_1 Byte.to_N).
  apply (bool_decide_unpack _). vm_compute. exact I.
Qed.

Lemma all_bytes_complete (b : byte) : b ∈ all_bytes.
Proof.
  apply list_elem_of_In.
  destruct b; vm_compute; tauto.
Qed.

(** ** The generators *)

Lemma fill_length (n : nat) (seed : N) : length (Contract.fill n seed) = n.
Proof. revert seed; induction n as [|n IH]; intros seed; simpl; [|rewrite IH]; done. Qed.

Lemma fill_alphabet (n : nat) (seed : N) :
  Forall (λ a, a ∈ alphabet) (Contract.fill n seed).
Proof.
  revert seed; induction n as [|n IH]; intros seed; simpl; constructor; [|apply IH].
  apply char_at_alphabet.
  pose proof (N.mod_upper_bound seed 62). lia.
Qed.

(** The [i]-th symbol is the [i]-th base-62 digit of the seed. *)
Lemma fill_digits (n : nat) (seed : N) :
  Contract.fill n seed =
  map (λ i, char_at (N.to_nat ((seed / 62 ^ N.of_nat i) mod 62)%N)) (seq 0 n).
Proof.
  revert seed; induction n as [|n IH]; intros seed; [done|].
  cbn [Contract.fill seq map]. f_equal.
  - by rewrite N.pow_0_r, N.div_1_r.
  - rewrite IH, <- seq_shift, map_map. apply map_ext; intros i.
    rewrite N.Div0.div_div, Nat2N.inj_succ, N.pow_succ_r'. done.
Qed.

Lemma contract_code_is_code keccak256 e ct s :
  is_code (Contract._generateShortCode keccak256 e ct s).1.
Proof.
  unfold Contract._generateShortCode; cbn [fst]. split.
  - by rewrite length_string_of_list_ascii, fill_length.
  - rewrite list_ascii_of_string_of_list_ascii. apply fill_alphabet.
Qed.

Lemma pick_alphabet (b : byte) : Service.pick b ∈ alphabet.
Proof.
  unfold Service.pick. apply char_at_alphabet.
  rewrite chars_length. apply Nat.mod_upper_bound. lia.
Qed.

Lemma service_code_symbols rnd pos :
  list_ascii_of_string (Service.generateShortCode rnd pos) =
  map (λ i, Service.pick (rnd (pos + i)%nat)) (seq 0 6).
Proof.
  unfold Service.generateShortCode, Service.generateShortCode_len, Service.randomBytes.
  rewrite list_ascii_of_string_of_list_ascii. cbn [seq map].
  repeat f_equal; lia.
Qed.

Lemma service_code_is_code rnd pos : is_code (Service.generateShortCode rnd pos).
Proof.
  split.
  - unfold Service.generateShortCode, Service.generateShortCode_len, Service.randomBytes.
    by rewrite length_string_of_list_ascii, !length_map, length_seq.
  - rewrite service_code_symbols. apply Forall_forall; intros a Ha.
    apply list_elem_of_In, in_map_iff in Ha as (i & <- & _). apply pick_alphabet.
Qed.

(** ** The non-counting reads *)

Lemma contract_peek_exec keccak256 t s :
  Contract.is_peek (Contract.tx_call t) = true → Contract.exec keccak256 t s = s.
Proof.
  unfold Contract.exec. destruct (Contract.tx_call t); try discriminate; intros _.
  - unfold Contract.getLinkData. by destruct (negb _).
  - unfold Contract.getMediaData. by destruct (negb _).
Qed.

Lemma contract_peek_run keccak256 ts s :
  forallb (λ t, Contract.is_peek (Contract.tx_call t)) ts = true →
  Contract.run keccak256 ts s = s.
Proof.
  revert s; induction ts as [|t ts IH]; intros s H; [done|].
  cbn in H. apply andb_true_iff in H as [Ht Hts].
  unfold Contract.run in *. cbn [foldl]. rewrite contract_peek_exec by done. by apply IH.
Qed.

Lemma service_peek_after r db :
  Service.is_peek r = true → Service.db_after r db = db.
Proof.
  unfold Service.db_after. destruct r; try discriminate; intros _; cbn.
  - unfold Service.get_link. by destruct (Service.select_code _ _ _).
  - unfold Service.get_media. by destruct (Service.select_code _ _ _).
Qed.

Lemma service_peek_run rs db :
  forallb Service.is_peek rs = true → Service.run rs db = db.
Proof.
  revert db; induction rs as [|r rs IH]; intros db H; [done|].
  cbn in H. apply andb_true_iff in H as [Hr Hrs].
  unfold Service.run in *. cbn [foldl]. rewrite service_peek_after by done. by apply IH.
Qed.

(** ** The contract's storage *)

Module ContractFacts.
Import Contract.

Local Open Scope N_scope.

Section WithHash.
Variable keccak256 : N → N → address → N → N.

Abbreviation gen := (_generateShortCode keccak256).

Lemma gen_links e ct s : links (gen e ct s).2 = links s.
Proof. by destruct ct. Qed.
Lemma gen_media e ct s : media (gen e ct s).2 = media s.
Proof. by destruct ct. Qed.
Lemma gen_userLinks e ct s : userLinks (gen e ct s).2 = userLinks s.
Proof. by destruct ct. Qed.
Lemma gen_userMedia e ct s : userMedia (gen e ct s).2 = userMedia s.
Proof. by destruct ct. Qed.

Lemma links_at_ext s s' c : links s' = links s → links_at s' c = links_at s c.
Proof. unfold links_at. by intros ->. Qed.
Lemma media_at_ext s s' c : media s' = media s → media_at s' c = media_at s c.
Proof. unfold media_at. by intros ->. Qed.

(** The loop of [createShortLink] ends on a code that is not taken and
  has touched nothing but the link counter, which it has incremented
  once per turn. *)
Lemma unique_link_spec gas e c s c' s' :
unique_link keccak256 gas e c s = Some (c', s') →
l_exists (links_at s' c') = false
∧ links s' = links s ∧ media s' = media s
∧ userLinks s' = userLinks s ∧ userMedia s' = userMedia s
∧ _mediaCounter s' = _mediaCounter s
∧ ∃ k, (k ≤ gas)%nat ∧ _linkCounter s' = Nat.iter k increment (_linkCounter s).
Proof.
revert c s. induction gas as [|gas IH]; intros c s; cbn [unique_link];
  destruct (l_exists (links_at s c)) eqn:Hex; try discriminate.
- intros [= <- <-]. split_and!; try done. exists 0%nat. split; [lia|done].
- destruct (gen e LINK s) as [c1 s1] eqn:Hg. intros H.
  apply IH in H as (Hf & Hl & Hm & Hul & Hum & Hmc & k & Hk & Hc).
  assert (s1 = (gen e LINK s).2) as -> by (by rewrite Hg).
  split_and!; try done.
  exists (S k). split; [lia|]. rewrite Hc. cbn [_generateShortCode snd _linkCounter].
  by rewrite Nat.iter_succ_r.
- intros [= <- <-]. split_and!; try done. exists 0%nat. split; [lia|done].
Qed.

Lemma unique_media_spec gas e c s c' s' :
unique_media keccak256 gas e c s = Some (c', s') →
m_exists (media_at s' c') = false
∧ links s' = links s ∧ media s' = media s
∧ userLinks s' = userLinks s ∧ userMedia s' = userMedia s
∧ _linkCounter s' = _linkCounter s
∧ ∃ k, (k ≤ gas)%nat ∧ _mediaCounter s' = Nat.iter k increment (_mediaCounter s).
Proof.
revert c s. induction gas as [|gas IH]; intros c s; cbn [unique_media];
  destruct (m_exists (media_at s c)) eqn:Hex; try discriminate.
- intros [= <- <-]. split_and!; try done. exists 0%nat. split; [lia|done].
- destruct (gen e MEDIA s) as [c1 s1] eqn:Hg. intros H.
  apply IH in H as (Hf & Hl & Hm & Hul & Hum & Hmc & k & Hk & Hc).
  assert (s1 = (gen e MEDIA s).2) as -> by (by rewrite Hg).
  split_and!; try done.
  exists (S k). split; [lia|]. rewrite Hc. cbn [_generateShortCode snd _mediaCounter].
  by rewrite Nat.iter_succ_r.
- intros [= <- <-]. split_and!; try done. exists 0%nat. split; [lia|done].
Qed.

(** What a successful [createShortLink] has done. *)
Lemma createShortLink_Done gas e u s c log s2 :
createShortLink keccak256 gas e u s = Done c log s2 →
(0 < String.length u ≤ 2048)%nat
∧ l_exists (links_at s c) = false
∧ links s2 = <[c := mkLinkData u (msg_sender e) (block_timestamp e) 0 true]> (links s)
∧ media s2 = media s
∧ userLinks s2 =
    <[msg_sender e := (userLinks_at s (msg_sender e) ++ [c])%list]> (userLinks s)
∧ userMedia s2 = userMedia s
∧ _mediaCounter s2 = _mediaCounter s
∧ ∃ k, (k ≤ gas)%nat ∧ _linkCounter s2 = Nat.iter (S k) increment (_linkCounter s).
Proof.
unfold createShortLink.
destruct (0 <? String.length u)%nat eqn:H0; [|discriminate].
destruct (String.length u <=? 2048)%nat eqn:H1; [|discriminate]. cbn [negb].
apply Nat.ltb_lt in H0. apply Nat.leb_le in H1.
destruct (gen e LINK s) as [c0 s0] eqn:Hg.
assert (s0 = (gen e LINK s).2) as Hs0 by (by rewrite Hg).
destruct (unique_link keccak256 gas e c0 s0) as [[c1 s1]|] eqn:Hu; [|discriminate].
intros [= <- <- <-].
apply unique_link_spec in Hu as (Hf & Hl & Hm & Hul & Hum & Hmc & k & Hk & Hc).
subst s0. cbn [links media userLinks userMedia _mediaCounter _linkCounter].
rewrite gen_links in Hl. rewrite gen_media in Hm.
rewrite gen_userLinks in Hul. rewrite gen_userMedia in Hum.
split; [lia|]. split; [by rewrite <- (links_at_ext s s1)|].
split; [by rewrite Hl|]. split; [done|].
split; [unfold userLinks_at; by rewrite Hul|]. split; [done|].
split; [done|]. exists k. split; [done|]. by rewrite Hc, Nat.iter_succ_r.
Qed.

Lemma uploadMedia_Done gas e h n ty sz s c log s2 :
uploadMedia keccak256 gas e h n ty sz s = Done c log s2 →
(0 < String.length h)%nat ∧ (0 < String.length n)%nat
∧ m_exists (media_at s c) = false
∧ media s2 =
    <[c := mkMediaData h n ty sz (msg_sender e) (block_timestamp e) 0 true]> (media s)
∧ links s2 = links s
∧ userMedia s2 =
    <[msg_sender e := (userMedia_at s (msg_sender e) ++ [c])%list]> (userMedia s)
∧ userLinks s2 = userLinks s
∧ _linkCounter s2 = _linkCounter s
∧ ∃ k, (k ≤ gas)%nat ∧ _mediaCounter s2 = Nat.iter (S k) increment (_mediaCounter s).
Proof.
unfold uploadMedia.
destruct (0 <? String.length h)%nat eqn:H0; [|discriminate].
destruct (0 <? String.length n)%nat eqn:H1; [|discriminate]. cbn [negb].
apply Nat.ltb_lt in H0. apply Nat.ltb_lt in H1.
destruct (gen e MEDIA s) as [c0 s0] eqn:Hg.
assert (s0 = (gen e MEDIA s).2) as Hs0 by (by rewrite Hg).
destruct (unique_media keccak256 gas e c0 s0) as [[c1 s1]|] eqn:Hu; [|discriminate].
intros [= <- <- <-].
apply unique_media_spec in Hu as (Hf & Hl & Hm & Hul & Hum & Hmc & k & Hk & Hc).
subst s0. cbn [links media userLinks userMedia _mediaCounter _linkCounter].
rewrite gen_links in Hl. rewrite gen_media in Hm.
rewrite gen_userLinks in Hul. rewrite gen_userMedia in Hum.
split; [done|]. split; [done|]. split; [by rewrite <- (media_at_ext s s1)|].
split; [by rewrite Hm|]. split; [done|].
split; [unfold userMedia_at; by rewrite Hum|]. split; [done|].
split; [done|]. exists k. split; [done|]. by rewrite Hc, Nat.iter_succ_r.
Qed.

(** The [links] mapping after a transaction. *)
Lemma exec_links t s :
links (exec keccak256 t s) =
match tx_call t with
| CreateShortLink u =>
    match createShortLink keccak256 (tx_gas t) (tx_env t) u s with
    | Done c _ _ =>
        <[c := mkLinkData u (msg_sender (tx_env t)) (block_timestamp (tx_env t)) 0 true]>
          (links s)
    | _ => links s
    end
| GetLink c =>
    if succeeded (getLink (tx_env t) c s) then
      <[c := mkLinkData (l_originalUrl (links_at s c)) (l_creator (links_at s c))
               (l_createdAt (links_at s c)) (l_clicks (links_at s c) + 1) true]>
        (links s)
    else links s
| _ => links s
end.
Proof.
unfold exec. destruct (tx_call t) as [u|h n ty sz|c|c|c|c|a|a| | |c|c]; try done.
- destruct (createShortLink _ _ _ _ _) as [c log s2| |] eqn:Hc; try done.
  cbn [state_after]. by apply createShortLink_Done in Hc as (_ & _ & -> & _).
- destruct (uploadMedia _ _ _ _ _ _ _ _) as [c log s2| |] eqn:Hc; try done.
  cbn [state_after]. by apply uploadMedia_Done in Hc as (_ & _ & _ & _ & -> & _).
- unfold getLink; cbv zeta. destruct (l_exists (links_at s c)) eqn:Hex; [|done]. cbn [negb].
  destruct (l_clicks (links_at s c) =? uint256_max); [done|].
  done.
- unfold getMedia; cbv zeta. destruct (m_exists (media_at s c)); [|done]. cbn [negb].
  destruct (m_views (media_at s c) =? uint256_max); done.
- unfold getLinkData. by destruct (negb _).
- unfold getMediaData. by destruct (negb _).
Qed.

Lemma exec_media t s :
media (exec keccak256 t s) =
match tx_call t with
| UploadMedia h n ty sz =>
    match uploadMedia keccak256 (tx_gas t) (tx_env t) h n ty sz s with
    | Done c _ _ =>
        <[c := mkMediaData h n ty sz (msg_sender (tx_env t))
                 (block_timestamp (tx_env t)) 0 true]> (media s)
    | _ => media s
    end
| GetMedia c =>
    if succeeded (getMedia (tx_env t) c s) then
      <[c := mkMediaData (m_ipfsHash (media_at s c)) (m_fileName (media_at s c))
               (m_fileType (media_at s c)) (m_fileSize (media_at s c))
               (m_creator (media_at s c)) (m_createdAt (media_at s c))
               (m_views (media_at s c) + 1) true]> (media s)
    else media s
| _ => media s
end.
Proof.
unfold exec. destruct (tx_call t) as [u|h n ty sz|c|c|c|c|a|a| | |c|c]; try done.
- destruct (createShortLink _ _ _ _ _) as [c log s2| |] eqn:Hc; try done.
  cbn [state_after]. by apply createShortLink_Done in Hc as (_ & _ & _ & -> & _).
- destruct (uploadMedia _ _ _ _ _ _ _ _) as [c log s2| |] eqn:Hc; try done.
  cbn [state_after]. by apply uploadMedia_Done in Hc as (_ & _ & _ & -> & _).
- unfold getLink; cbv zeta. destruct (l_exists (links_at s c)); [|done]. cbn [negb].
  destruct (l_clicks (links_at s c) =? uint256_max); done.
- unfold getMedia; cbv zeta. destruct (m_exists (media_at s c)) eqn:Hex; [|done]. cbn [negb].
  destruct (m_views (media_at s c) =? uint256_max); [done|].
  done.
- unfold getLinkData. by destruct (negb _).
- unfold getMediaData. by destruct (negb _).
Qed.

Lemma links_at_insert s s' c0 r c :
links s' = <[c0 := r]> (links s) →
links_at s' c = if decide (c0 = c) then r else links_at s c.
Proof.
unfold links_at. intros ->. rewrite lookup_insert. by destruct (decide (c0 = c)).
Qed.

Lemma media_at_insert s s' c0 r c :
media s' = <[c0 := r]> (media s) →
media_at s' c = if decide (c0 = c) then r else media_at s c.
Proof.
unfold media_at. intros ->. rewrite lookup_insert. by destruct (decide (c0 = c)).
Qed.

Lemma wf_free_link s c :
wf s → l_exists (links_at s c) = false → links_at s c = zeroLink.
Proof.
intros [Hl _]. unfold links_at. destruct (links s !! c) as [r|] eqn:Hr; [|done].
cbn. intros Hex. apply Hl in Hr. congruence.
Qed.

Lemma wf_free_media s c :
wf s → m_exists (media_at s c) = false → media_at s c = zeroMedia.
Proof.
intros [_ Hm]. unfold media_at. destruct (media s !! c) as [r|] eqn:Hr; [|done].
cbn. intros Hex. apply Hm in Hr. congruence.
Qed.

(** The record read under [c] after a transaction. *)
Lemma exec_links_at t s c :
links_at (exec keccak256 t s) c =
match tx_call t with
| CreateShortLink u =>
    match createShortLink keccak256 (tx_gas t) (tx_env t) u s with
    | Done c0 _ _ =>
        if decide (c0 = c) then
          mkLinkData u (msg_sender (tx_env t)) (block_timestamp (tx_env t)) 0 true
        else links_at s c
    | _ => links_at s c
    end
| GetLink c0 =>
    if succeeded (getLink (tx_env t) c0 s) && bool_decide (c0 = c) then
      mkLinkData (l_originalUrl (links_at s c)) (l_creator (links_at s c))
        (l_createdAt (links_at s c)) (l_clicks (links_at s c) + 1) true
    else links_at s c
| _ => links_at s c
end.
Proof.
pose proof (exec_links t s) as H.
destruct (tx_call t) as [u|h n ty sz|c0|c0|c0|c0|a|a| | |c0|c0];
  try (by apply links_at_ext).
- destruct (createShortLink _ _ _ _ _) as [c1 log s2| |]; try (by apply links_at_ext).
  by apply links_at_insert.
- destruct (succeeded _); cbn [andb]; [|by apply links_at_ext].
  rewrite (links_at_insert _ _ _ _ _ H). case_bool_decide; case_decide; congruence.
Qed.

Lemma exec_media_at t s c :
media_at (exec keccak256 t s) c =
match tx_call t with
| UploadMedia h n ty sz =>
    match uploadMedia keccak256 (tx_gas t) (tx_env t) h n ty sz s with
    | Done c0 _ _ =>
        if decide (c0 = c) then
          mkMediaData h n ty sz (msg_sender (tx_env t))
            (block_timestamp (tx_env t)) 0 true
        else media_at s c
    | _ => media_at s c
    end
| GetMedia c0 =>
    if succeeded (getMedia (tx_env t) c0 s) && bool_decide (c0 = c) then
      mkMediaData (m_ipfsHash (media_at s c)) (m_fileName (media_at s c))
        (m_fileType (media_at s c)) (m_fileSize (media_at s c))
        (m_creator (media_at s c)) (m_createdAt (media_at s c))
        (m_views (media_at s c) + 1) true
    else media_at s c
| _ => media_at s c
end.
Proof.
pose proof (exec_media t s) as H.
destruct (tx_call t) as [u|h n ty sz|c0|c0|c0|c0|a|a| | |c0|c0];
  try (by apply media_at_ext).
- destruct (uploadMedia _ _ _ _ _ _ _ _) as [c1 log s2| |]; try (by apply media_at_ext).
  by apply media_at_insert.
- destruct (succeeded _); cbn [andb]; [|by apply media_at_ext].
  rewrite (media_at_insert _ _ _ _ _ H). case_bool_decide; case_decide; congruence.
Qed.

(** A code once taken stays taken: the contract has no deletion. *)
Lemma exec_link_stays t s c :
l_exists (links_at s c) = true → l_exists (links_at (exec keccak256 t s) c) = true.
Proof.
intros Hex. rewrite exec_links_at.
destruct (tx_call t); try done.
- destruct (createShortLink _ _ _ _ _); try done. by case_decide.
- by destruct (_ && _).
Qed.

Lemma exec_media_stays t s c :
m_exists (media_at s c) = true → m_exists (media_at (exec keccak256 t s) c) = true.
Proof.
intros Hex. rewrite exec_media_at.
destruct (tx_call t); try done.
- destruct (uploadMedia _ _ _ _ _ _ _ _); try done. by case_decide.
- by destruct (_ && _).
Qed.

Lemma exec_wf t s : wf s → wf (exec keccak256 t s).
Proof.
intros [Hl Hm]. split.
- intros c r. rewrite exec_links.
  destruct (tx_call t); try apply Hl.
  + destruct (createShortLink _ _ _ _ _); try apply Hl.
    rewrite lookup_insert. case_decide; [by intros [= <-]|apply Hl].
  + destruct (succeeded _); try apply Hl.
    rewrite lookup_insert. case_decide; [by intros [= <-]|apply Hl].
- intros c r. rewrite exec_media.
  destruct (tx_call t); try apply Hm.
  + destruct (uploadMedia _ _ _ _ _ _ _ _); try apply Hm.
    rewrite lookup_insert. case_decide; [by intros [= <-]|apply Hm].
  + destruct (succeeded _); try apply Hm.
    rewrite lookup_insert. case_decide; [by intros [= <-]|apply Hm].
Qed.

Lemma run_wf ts s : wf s → wf (run keccak256 ts s).
Proof.
revert s; induction ts as [|t ts IH]; intros s Hs; [done|].
apply IH, exec_wf, Hs.
Qed.

Lemma init_wf : wf init.
Proof. split; intros c r; cbn; by rewrite lookup_empty. Qed.

(** What a creation hands out is one code, free before and taken after. *)
Lemma link_created_fresh t s c :
c ∈ link_created keccak256 t s →
link_created keccak256 t s = [c]
∧ ¬ l_exists (links_at s c) = true
∧ l_exists (links_at (exec keccak256 t s) c) = true.
Proof.
rewrite exec_links_at. unfold link_created.
destruct (tx_call t) as [u| | | | | | | | | | | ]; try (by intros ?%elem_of_nil).
destruct (createShortLink _ _ _ _ _) as [c0 log s2| |] eqn:Hc;
  try (by intros ?%elem_of_nil).
intros ->%list_elem_of_singleton.
apply createShortLink_Done in Hc as (_ & Hf & _).
rewrite decide_True by done. split_and!; [done|congruence|done].
Qed.

Lemma media_created_fresh t s c :
c ∈ media_created keccak256 t s →
media_created keccak256 t s = [c]
∧ ¬ m_exists (media_at s c) = true
∧ m_exists (media_at (exec keccak256 t s) c) = true.
Proof.
rewrite exec_media_at. unfold media_created.
destruct (tx_call t) as [ |h n ty sz| | | | | | | | | | ]; try (by intros ?%elem_of_nil).
destruct (uploadMedia _ _ _ _ _ _ _ _) as [c0 log s2| |] eqn:Hc;
  try (by intros ?%elem_of_nil).
intros ->%list_elem_of_singleton.
apply uploadMedia_Done in Hc as (_ & _ & Hf & _).
rewrite decide_True by done. split_and!; [done|congruence|done].
Qed.

(** One transaction moves a click counter by one when it is a successful
  [getLink] of that code, and not at all otherwise. *)
Lemma exec_clicks t s c :
wf s →
l_clicks (links_at (exec keccak256 t s) c) =
l_clicks (links_at s c) + (if counts_link t s c then 1 else 0).
Proof.
intros Hwf. rewrite exec_links_at. unfold counts_link.
destruct (tx_call t) as [u|h n ty sz|c0|c0|c0|c0|a|a| | |c0|c0]; try (cbn; lia).
- destruct (createShortLink _ _ _ _ _) as [c1 log s2| |] eqn:Hc; try (cbn; lia).
  case_decide as Hc1; [subst c1|lia].
  apply createShortLink_Done in Hc as (_ & Hf & _).
  rewrite (wf_free_link _ _ Hwf Hf). reflexivity.
- destruct (succeeded _), (bool_decide _); cbn; lia.
Qed.

Lemma exec_views t s c :
wf s →
m_views (media_at (exec keccak256 t s) c) =
m_views (media_at s c) + (if counts_media t s c then 1 else 0).
Proof.
intros Hwf. rewrite exec_media_at. unfold counts_media.
destruct (tx_call t) as [u|h n ty sz|c0|c0|c0|c0|a|a| | |c0|c0]; try (cbn; lia).
- destruct (uploadMedia _ _ _ _ _ _ _ _) as [c1 log s2| |] eqn:Hc; try (cbn; lia).
  case_decide as Hc1; [subst c1|lia].
  apply uploadMedia_Done in Hc as (_ & _ & Hf & _).
  rewrite (wf_free_media _ _ Hwf Hf). reflexivity.
- destruct (succeeded _), (bool_decide _); cbn; lia.
Qed.

(** Over a run a counter has grown by the number of successful counting
  resolves of its code. *)
Lemma run_clicks ts s c :
wf s →
l_clicks (links_at (run keccak256 ts s) c) =
l_clicks (links_at s c) + link_resolves keccak256 c ts s.
Proof.
revert s; induction ts as [|t ts IH]; intros s Hwf.
- unfold link_resolves. cbn. lia.
- unfold run, link_resolves in *. cbn [foldl collect].
  rewrite IH by (by apply exec_wf). rewrite exec_clicks by done.
  rewrite length_app, Nat2N.inj_add.
  destruct (counts_link t s c); cbn [length]; lia.
Qed.

Lemma run_views ts s c :
wf s →
m_views (media_at (run keccak256 ts s) c) =
m_views (media_at s c) + media_resolves keccak256 c ts s.
Proof.
revert s; induction ts as [|t ts IH]; intros s Hwf.
- unfold media_resolves. cbn. lia.
- unfold run, media_resolves in *. cbn [foldl collect].
  rewrite IH by (by apply exec_wf). rewrite exec_views by done.
  rewrite length_app, Nat2N.inj_add.
  destruct (counts_media t s c); cbn [length]; lia.
Qed.

End WithHash.
End ContractFacts.

(** ** The service's tables *)

Module ServiceFacts.
Import Service.

Local Open Scope Z_scope.

Section FindBy.
Context {Row K : Type} `{EqDecision K}.
Variable key : Row → K.

Lemma find_by_Some k t r : find_by key k t = Some r → r ∈ t ∧ key r = k.
Proof.
  unfold find_by. intros [l' Hl]%head_Some.
  assert (r ∈ filter (λ r, key r = k) t) as Hin by (rewrite Hl; left).
  by apply list_elem_of_filter in Hin as [? ?].
Qed.

Lemma find_by_None k t : find_by key k t = None ↔ k ∉ key <$> t.
Proof.
  unfold find_by. rewrite head_None. split.
  - intros Hf (r & -> & Hr)%list_elem_of_fmap.
    by apply (filter_nil_not_elem_of _ _ r Hf).
  - intros Hn. destruct (filter _ t) as [|r l] eqn:Hf; [done|]. exfalso. apply Hn.
    assert (r ∈ filter (λ r, key r = k) t) as [Hk Hin]%list_elem_of_filter
      by (rewrite Hf; left).
    apply list_elem_of_fmap. by exists r.
Qed.

Lemma find_by_app k t1 t2 :
  find_by key k (t1 ++ t2) =
  match find_by key k t1 with
  | Some r => Some r
  | None => find_by key k t2
  end.
Proof. unfold find_by. rewrite filter_app. by destruct (filter _ t1). Qed.

Lemma find_by_fmap k (g : Row → Row) t :
  (∀ r, key (g r) = key r) → find_by key k (g <$> t) = g <$> find_by key k t.
Proof.
  intros Hg. unfold find_by. induction t as [|r t IH]; [done|].
  rewrite fmap_cons, !filter_cons, Hg. case_decide; [done|]. apply IH.
Qed.

Lemma key_inj t r r' :
  NoDup (key <$> t) → r ∈ t → r' ∈ t → key r = key r' → r = r'.
Proof.
  induction t as [|x t IH]; [by intros _ ?%elem_of_nil|].
  rewrite fmap_cons, NoDup_cons.
  intros [Hx Ht] [->|Hr]%elem_of_cons [->|Hr']%elem_of_cons Hk; try done.
  - exfalso. apply Hx. rewrite Hk. by apply list_elem_of_fmap_2.
  - exfalso. apply Hx. rewrite <- Hk. by apply list_elem_of_fmap_2.
  - by apply IH.
Qed.

Lemma find_by_NoDup t r :
  NoDup (key <$> t) → r ∈ t → find_by key (key r) t = Some r.
Proof.
  intros Hnd Hr. destruct (find_by key (key r) t) as [r'|] eqn:Hf.
  - apply find_by_Some in Hf as [Hin Hk]. f_equal. by eapply key_inj.
  - apply find_by_None in Hf. exfalso. apply Hf. by apply list_elem_of_fmap_2.
Qed.

Lemma NoDup_key_filter (P : Row → Prop) `{∀ r, Decision (P r)} t :
  NoDup (key <$> t) → NoDup (key <$> filter P t).
Proof.
  intros Hnd. eapply sublist_NoDup; [done|]. apply fmap_sublist, sublist_filter.
Qed.

Lemma find_by_filter (P : Row → Prop) `{∀ r, Decision (P r)} k t :
  NoDup (key <$> t) →
  find_by key k (filter P t) =
  match find_by key k t with
  | Some r => if decide (P r) then Some r else None
  | None => None
  end.
Proof.
  intros Hnd. destruct (find_by key k t) as [r|] eqn:Hf.
  - apply find_by_Some in Hf as [Hin <-]. case_decide as HP.
    + apply find_by_NoDup; [by apply NoDup_key_filter|].
      by apply list_elem_of_filter.
    + apply find_by_None. intros (r' & Hk & [HP' Hr']%list_elem_of_filter)%list_elem_of_fmap.
      apply HP. by rewrite (key_inj t r r').
  - apply find_by_None. rewrite find_by_None in Hf.
    intros (r' & Hk & [_ Hr']%list_elem_of_filter)%list_elem_of_fmap.
    apply Hf. subst k. by apply list_elem_of_fmap_2.
Qed.
End FindBy.

Section Tables.
Context {Row : Type}.
Variable id : Row → Z.
Variable code : Row → string.

Lemma select_code_None c t : select_code code c t = None ↔ c ∉ code <$> t.
Proof. apply find_by_None. Qed.

Lemma select_code_Some c t r : select_code code c t = Some r → r ∈ t ∧ code r = c.
Proof. apply find_by_Some. Qed.

(** The loop ends on a code that is not in the table. *)
Lemma unique_code_free t rnd fuel k c c' :
  unique_code code t rnd fuel k c = Some c' → select_code code c' t = None.
Proof.
  revert k c. induction fuel as [|fuel IH]; intros k c; cbn [unique_code];
    destruct (select_code code c t) eqn:Hs; try discriminate.
  - by intros [= <-].
  - apply IH.
  - by intros [= <-].
Qed.

(** It ends at once on a first candidate that is not in the table. *)
Lemma unique_code_first t rnd fuel k c :
  select_code code c t = None → unique_code code t rnd fuel k c = Some c.
Proof. intros Hs. destruct fuel; cbn [unique_code]; by rewrite Hs. Qed.

Lemma insert_row_free r t :
  select_code code (code r) t = None → insert_row code r t = Some (t ++ [r]).
Proof. unfold insert_row. by intros ->. Qed.

Lemma update_code_absent f c t : c ∉ code <$> t → update_code code f c t = t.
Proof.
  intros Hc. unfold update_code. rewrite <- (list_fmap_id t) at 2.
  apply list_fmap_ext. intros i r Hr. case_decide as Hd; [|done].
  exfalso. apply Hc. subst c. eapply list_elem_of_fmap_2, list_elem_of_lookup_2, Hr.
Qed.

Lemma update_code_key {K} (key : Row → K) f c t :
  (∀ r, key (f r) = key r) → key <$> update_code code f c t = key <$> t.
Proof.
  intros Hf. unfold update_code. rewrite <- list_fmap_compose.
  apply list_fmap_ext. intros i r _. cbn. by case_decide.
Qed.

Lemma filter_all (P : Row → Prop) `{∀ r, Decision (P r)} t :
  (length t ≤ length (filter P t))%nat → filter P t = t.
Proof.
  induction t as [|r t IH]; [done|]. rewrite filter_cons. case_decide.
  - cbn [length]. intros Hl. f_equal. apply IH. lia.
  - cbn [length]. pose proof (length_filter P t). lia.
Qed.

Lemma delete_code_absent c t :
  changes t (delete_code code c t) = 0%nat → delete_code code c t = t.
Proof. unfold changes, delete_code. intros Hc. apply filter_all. lia. Qed.

Lemma table_ok_snoc t sq r :
  table_ok id code t sq → id r = sq + 1 → code r ∉ code <$> t →
  table_ok id code (t ++ [r]) (sq + 1).
Proof.
  intros (Hid & Hcode & Hle) Hr Hc. rewrite Forall_forall in Hle.
  unfold table_ok. rewrite !fmap_app. split_and!.
  - apply NoDup_app. split_and!; [done| |apply NoDup_singleton].
    intros i (r' & -> & Hr')%list_elem_of_fmap Heq%list_elem_of_singleton.
    apply Hle in Hr'. lia.
  - apply NoDup_app. split_and!; [done| |apply NoDup_singleton].
    by intros c Hin ->%list_elem_of_singleton.
  - apply Forall_app. split.
    + apply Forall_forall. intros r' Hr'%Hle. lia.
    + apply Forall_singleton. lia.
Qed.

Lemma table_ok_update f c t sq :
  (∀ r, id (f r) = id r) → (∀ r, code (f r) = code r) →
  table_ok id code t sq → table_ok id code (update_code code f c t) sq.
Proof.
  intros Hfi Hfc (Hid & Hcode & Hle). unfold table_ok.
  rewrite !update_code_key by done. split_and!; try done.
  unfold update_code. apply Forall_fmap. eapply Forall_impl; [done|].
  intros r Hr. cbn. case_decide; [rewrite Hfi|]; done.
Qed.

Lemma table_ok_delete c t sq :
  table_ok id code t sq → table_ok id code (delete_code code c t) sq.
Proof.
  intros (Hid & Hcode & Hle). unfold table_ok, delete_code. split_and!.
  - by apply NoDup_key_filter.
  - by apply NoDup_key_filter.
  - rewrite Forall_forall in *. intros r [_ Hr]%list_elem_of_filter. by apply Hle.
Qed.
End Tables.

(** The outcomes of [POST /api/links]. *)
Lemma post_links_cases fuel now rnd body db resp db' :
  post_links fuel now rnd body db = Some (resp, db') →
  (truthy_str (lb_originalUrl body) = false
   ∧ resp = Error 400 "Original URL is required" ∧ db' = db)
  ∨ (∃ c, truthy_str (lb_originalUrl body) = true
       ∧ (c ∉ l_short_code <$> links db)
       ∧ resp = Json (OfLink (mkLinkJson c (lb_originalUrl body)
                                (creator_or_anonymous (lb_creator body)) (now / 1000) 0))
       ∧ db' = set_links db
                 (links db ++
                    [mkLinkRow (links_seq db + 1) c (default EmptyString (lb_originalUrl body))
                       (creator_or_anonymous (lb_creator body)) (now / 1000) 0])
                 (links_seq db + 1)).
Proof.
  unfold post_links. destruct (truthy_str (lb_originalUrl body)); cbn [negb].
  - destruct (unique_code _ _ _ _ _ _) as [c|] eqn:Hu; [|discriminate].
    apply unique_code_free in Hu. rewrite insert_row_free by done.
    intros [= <- <-]. right. exists c. by rewrite <- select_code_None.
  - intros [= <- <-]. by left.
Qed.

(** The outcomes of [POST /api/media]. *)
Lemma post_media_cases fuel now rnd body db resp db' :
  let valid := truthy_str (mb_ipfsHash body) && truthy_str (mb_fileName body)
               && truthy_str (mb_fileType body) && truthy_num (mb_fileSize body) in
  post_media fuel now rnd body db = Some (resp, db') →
  (valid = false ∧ resp = Error 400 "Missing required fields" ∧ db' = db)
  ∨ (∃ c, valid = true
       ∧ (c ∉ m_short_code <$> media db)
       ∧ resp = Json (OfMedia (mkMediaJson c (mb_ipfsHash body) (mb_fileName body)
                                 (mb_fileType body) (mb_fileSize body)
                                 (creator_or_anonymous (mb_creator body)) (now / 1000) 0))
       ∧ db' = set_media db
                 (media db ++
                    [mkMediaRow (media_seq db + 1) c (default EmptyString (mb_ipfsHash body))
                       (default EmptyString (mb_fileName body)) (default EmptyString (mb_fileType body))
                       (default 0 (mb_fileSize body))
                       (creator_or_anonymous (mb_creator body)) (now / 1000) 0])
                 (media_seq db + 1)).
Proof.
  unfold post_media.
  destruct (truthy_str (mb_ipfsHash body)), (truthy_str (mb_fileName body)),
    (truthy_str (mb_fileType body)), (truthy_num (mb_fileSize body));
    cbn [negb orb andb]; try (intros [= <- <-]; by left).
  destruct (unique_code _ _ _ _ _ _) as [c|] eqn:Hu; [|discriminate].
  apply unique_code_free in Hu. rewrite insert_row_free by done.
  intros [= <- <-]. right. exists c. by rewrite <- select_code_None.
Qed.

(** A creation hands out no code, or one that is not in the table. *)
Lemma link_posted_cases r db :
  link_posted r db = [] ∨ ∃ c, link_posted r db = [c] ∧ c ∉ l_short_code <$> links db.
Proof.
  destruct r; try (by left). cbn [link_posted].
  destruct (post_links _ _ _ _ _) as [[resp db']|] eqn:Hp; [|by left].
  apply post_links_cases in Hp as [(_ & -> & _)|(c & _ & Hc & -> & _)]; [by left|].
  right. by exists c.
Qed.

Lemma media_posted_cases r db :
  media_posted r db = [] ∨ ∃ c, media_posted r db = [c] ∧ c ∉ m_short_code <$> media db.
Proof.
  destruct r; try (by left). cbn [media_posted].
  destruct (post_media _ _ _ _ _) as [[resp db']|] eqn:Hp; [|by left].
  apply post_media_cases in Hp as [(_ & -> & _)|(c & _ & Hc & -> & _)]; [by left|].
  right. by exists c.
Qed.

(** The [links] table after a request. *)
Lemma db_after_links r db :
  links (db_after r db) =
  match r with
  | PostLinks fuel now rnd body =>
      links db ++
        ((λ c, mkLinkRow (links_seq db + 1) c (default EmptyString (lb_originalUrl body))
                 (creator_or_anonymous (lb_creator body)) (now / 1000) 0)
           <$> link_posted r db)
  | GetLinkRedirect c => update_code l_short_code click c (links db)
  | DeleteLink c => delete_code l_short_code c (links db)
  | _ => links db
  end
  ∧ links_seq (db_after r db) = links_seq db + Z.of_nat (length (link_posted r db)).
Proof.
  unfold db_after. destruct r; cbn [serve link_posted length Z.of_nat];
    rewrite ?Z.add_0_r; try done.
  - destruct (post_links _ _ _ _ _) as [[resp db']|] eqn:Hp.
    + apply post_links_cases in Hp as [(_ & -> & ->)|(c & _ & Hc & -> & ->)]; cbn.
      * by rewrite app_nil_r, Z.add_0_r.
      * done.
    + cbn. by rewrite app_nil_r, Z.add_0_r.
  - unfold get_link. by destruct (select_code _ _ _).
  - unfold get_link_redirect. destruct (select_code _ _ _) eqn:Hs; [done|].
    cbn. by rewrite update_code_absent by (by apply select_code_None).
  - destruct (post_media _ _ _ _ _) as [[resp db']|] eqn:Hp; [|done].
    by apply post_media_cases in Hp as [(_ & -> & ->)|(c & _ & Hc & -> & ->)].
  - unfold get_media. by destruct (select_code _ _ _).
  - unfold get_media_view. by destruct (select_code _ _ _).
  - unfold delete_link. destruct (changes _ _ =? 0)%nat eqn:Hc; [|done].
    apply Nat.eqb_eq in Hc. cbn. by rewrite delete_code_absent.
  - unfold delete_media. by destruct (changes _ _ =? 0)%nat.
Qed.

(** The [media] table after a request. *)
Lemma db_after_media r db :
  media (db_after r db) =
  match r with
  | PostMedia fuel now rnd body =>
      media db ++
        ((λ c, mkMediaRow (media_seq db + 1) c (default EmptyString (mb_ipfsHash body))
                 (default EmptyString (mb_fileName body)) (default EmptyString (mb_fileType body))
                 (default 0 (mb_fileSize body))
                 (creator_or_anonymous (mb_creator body)) (now / 1000) 0)
           <$> media_posted r db)
  | GetMediaView c => update_code m_short_code view c (media db)
  | DeleteMedia c => delete_code m_short_code c (media db)
  | _ => media db
  end
  ∧ media_seq (db_after r db) = media_seq db + Z.of_nat (length (media_posted r db)).
Proof.
  unfold db_after. destruct r; cbn [serve media_posted length Z.of_nat];
    rewrite ?Z.add_0_r; try done.
  - destruct (post_links _ _ _ _ _) as [[resp db']|] eqn:Hp; [|done].
    by apply post_links_cases in Hp as [(_ & -> & ->)|(c & _ & Hc & -> & ->)].
  - unfold get_link. by destruct (select_code _ _ _).
  - unfold get_link_redirect. by destruct (select_code _ _ _).
  - destruct (post_media _ _ _ _ _) as [[resp db']|] eqn:Hp.
    + apply post_media_cases in Hp as [(_ & -> & ->)|(c & _ & Hc & -> & ->)]; cbn.
      * by rewrite app_nil_r, Z.add_0_r.
      * done.
    + cbn. by rewrite app_nil_r, Z.add_0_r.
  - unfold get_media. by destruct (select_code _ _ _).
  - unfold get_media_view. destruct (select_code _ _ _) eqn:Hs; [done|].
    cbn. by rewrite update_code_absent by (by apply select_code_None).
  - unfold delete_link. by destruct (changes _ _ =? 0)%nat.
  - unfold delete_media. destruct (changes _ _ =? 0)%nat eqn:Hc; [|done].
    apply Nat.eqb_eq in Hc. cbn. by rewrite delete_code_absent.
Qed.

(** The handlers maintain what the schema promises. *)
Lemma db_after_ok r db : db_ok db → db_ok (db_after r db).
Proof.
  intros [Hl Hm]. unfold db_ok.
  destruct (db_after_links r db) as [-> ->]. destruct (db_after_media r db) as [-> ->].
  split.
  - destruct r; cbn [link_posted length Z.of_nat]; rewrite ?Z.add_0_r; try done.
    + destruct (link_posted_cases (PostLinks fuel now rnd body) db) as [E|(c & E & Hc)];
        cbn [link_posted] in E; rewrite E; cbn.
      * by rewrite app_nil_r, Z.add_0_r.
      * by apply table_ok_snoc.
    + by apply table_ok_update.
    + by apply table_ok_delete.
  - destruct r; cbn [media_posted length Z.of_nat]; rewrite ?Z.add_0_r; try done.
    + destruct (media_posted_cases (PostMedia fuel now rnd body) db) as [E|(c & E & Hc)];
        cbn [media_posted] in E; rewrite E; cbn.
      * by rewrite app_nil_r, Z.add_0_r.
      * by apply table_ok_snoc.
    + by apply table_ok_update.
    + by apply table_ok_delete.
Qed.

Lemma run_ok rs db : db_ok db → db_ok (run rs db).
Proof.
  revert db; induction rs as [|r rs IH]; intros db Hdb; [done|].
  apply IH, db_after_ok, Hdb.
Qed.

Lemma empty_ok : db_ok empty.
Proof. repeat split; constructor. Qed.

(** A creation's code is free before and in the table after. *)
Lemma link_posted_fresh r db c :
  c ∈ link_posted r db →
  link_posted r db = [c]
  ∧ ¬ c ∈ l_short_code <$> links db
  ∧ c ∈ l_short_code <$> links (db_after r db).
Proof.
  intros Hc. destruct (db_after_links r db) as [Hl _].
  destruct (link_posted_cases r db) as [E|(c' & E & Hf)]; rewrite E in Hc.
  - by apply elem_of_nil in Hc.
  - apply list_elem_of_singleton in Hc as ->. split_and!; [done|done|].
    destruct r; try discriminate. rewrite Hl, E, fmap_app. cbn.
    apply elem_of_app. right. left.
Qed.

(** Only the administrative deletion frees a code. *)
Lemma link_code_stays r db c :
  is_delete_link r = false →
  c ∈ l_short_code <$> links db → c ∈ l_short_code <$> links (db_after r db).
Proof.
  intros Hr Hc. destruct (db_after_links r db) as [-> _].
  destruct r; try done.
  - rewrite fmap_app. apply elem_of_app. by left.
  - by rewrite update_code_key.
Qed.

(** The row of a record after a request: a counting resolve of its code
    adds one to its counter, the deletion of its code removes it, and
    nothing else touches it. *)
Lemma link_by_id_after q db i r :
  db_ok db → link_by_id db i = Some r →
  link_by_id (db_after q db) i =
  match q with
  | GetLinkRedirect c => if decide (l_short_code r = c) then Some (click r) else Some r
  | DeleteLink c => if decide (l_short_code r ≠ c) then Some r else None
  | _ => Some r
  end.
Proof.
  intros [(Hid & _) _] Hr. unfold link_by_id in *.
  destruct (db_after_links q db) as [-> _]. destruct q; try done.
  - by rewrite find_by_app, Hr.
  - unfold update_code. rewrite find_by_fmap by (intros r0; by case_decide).
    rewrite Hr. cbn. by case_decide.
  - unfold delete_code. rewrite find_by_filter by done. by rewrite Hr.
Qed.

(** A record that is gone does not come back: AUTOINCREMENT never hands
    an id out twice. *)
Lemma link_gone_after q db i :
  db_ok db → i ≤ links_seq db → link_by_id db i = None →
  link_by_id (db_after q db) i = None ∧ i ≤ links_seq (db_after q db).
Proof.
  intros [(Hid & _) _] Hi Hr. unfold link_by_id in *.
  destruct (db_after_links q db) as [-> ->]. split; [|lia]. destruct q; try done.
  - rewrite find_by_app, Hr.
    destruct (link_posted_cases (PostLinks fuel now rnd body) db) as [E|(c & E & _)];
      rewrite E; [done|].
    apply find_by_None. cbn. intros ?%list_elem_of_singleton. lia.
  - unfold update_code. rewrite find_by_fmap by (intros r0; by case_decide).
    by rewrite Hr.
  - unfold delete_code. rewrite find_by_filter by done. by rewrite Hr.
Qed.

Lemma link_gone_run rs db i :
  db_ok db → i ≤ links_seq db → link_by_id db i = None → link_by_id (run rs db) i = None.
Proof.
  revert db; induction rs as [|q rs IH]; intros db Hok Hi Hr; [done|].
  destruct (link_gone_after q db i) as [Hr' Hi']; try done.
  apply IH; [by apply db_after_ok|done|done].
Qed.

Lemma redirects_cons c q rs :
  redirects c (q :: rs) = (if is_redirect_of c q then 1 else 0) + redirects c rs.
Proof.
  unfold redirects. cbn [List.filter]. destruct (is_redirect_of c q); cbn [length]; lia.
Qed.

(** Over a run, a record that is still there has kept its fields and has
    counted the counting resolves of its code. *)
Lemma link_by_id_run rs db i r r' :
  db_ok db → link_by_id db i = Some r → link_by_id (run rs db) i = Some r' →
  r' = mkLinkRow (l_id r) (l_short_code r) (l_original_url r) (l_creator r)
         (l_created_at r) (l_clicks r + redirects (l_short_code r) rs).
Proof.
  revert db r; induction rs as [|q rs IH]; intros db r Hok Hr Hr'.
  - cbn in Hr'. rewrite Hr in Hr'. injection Hr' as <-.
    unfold redirects. cbn. rewrite Z.add_0_r. by destruct r.
  - pose proof (link_by_id_after q db i r Hok Hr) as Hq.
    assert (Hi : i ≤ links_seq (db_after q db)).
    { destruct (db_after_links q db) as [_ ->].
      apply find_by_Some in Hr as [Hin <-]. destruct Hok as [(_ & _ & Hle) _].
      rewrite Forall_forall in Hle. apply Hle in Hin. lia. }
    change (run (q :: rs) db) with (run rs (db_after q db)) in Hr'.
    rewrite redirects_cons.
    destruct (link_by_id (db_after q db) i) as [r2|] eqn:Hr2.
    + rewrite (IH _ r2 (db_after_ok q db Hok) Hr2 Hr').
      destruct q; try (injection Hq as ->; cbn [is_redirect_of]; f_equal; lia).
      * cbn [is_redirect_of]. case_decide as Hc.
        -- injection Hq as ->. rewrite bool_decide_true by done. cbn. f_equal; lia.
        -- injection Hq as ->. rewrite bool_decide_false by done. f_equal; lia.
      * case_decide; [|done]. injection Hq as ->. cbn [is_redirect_of]. f_equal; lia.
    + rewrite link_gone_run in Hr'; try done. by apply db_after_ok.
Qed.

(** The same for the [media] table. *)
Lemma media_posted_fresh r db c :
  c ∈ media_posted r db →
  media_posted r db = [c]
  ∧ ¬ c ∈ m_short_code <$> media db
  ∧ c ∈ m_short_code <$> media (db_after r db).
Proof.
  intros Hc. destruct (db_after_media r db) as [Hl _].
  destruct (media_posted_cases r db) as [E|(c' & E & Hf)]; rewrite E in Hc.
  - by apply elem_of_nil in Hc.
  - apply list_elem_of_singleton in Hc as ->. split_and!; [done|done|].
    destruct r; try discriminate. rewrite Hl, E, fmap_app. cbn.
    apply elem_of_app. right. left.
Qed.

Lemma media_code_stays r db c :
  is_delete_media r = false →
  c ∈ m_short_code <$> media db → c ∈ m_short_code <$> media (db_after r db).
Proof.
  intros Hr Hc. destruct (db_after_media r db) as [-> _].
  destruct r; try done.
  - rewrite fmap_app. apply elem_of_app. by left.
  - by rewrite update_code_key.
Qed.

Lemma media_by_id_after q db i r :
  db_ok db → media_by_id db i = Some r →
  media_by_id (db_after q db) i =
  match q with
  | GetMediaView c => if decide (m_short_code r = c) then Some (view r) else Some r
  | DeleteMedia c => if decide (m_short_code r ≠ c) then Some r else None
  | _ => Some r
  end.
Proof.
  intros [_ (Hid & _)] Hr. unfold media_by_id in *.
  destruct (db_after_media q db) as [-> _]. destruct q; try done.
  - by rewrite find_by_app, Hr.
  - unfold update_code. rewrite find_by_fmap by (intros r0; by case_decide).
    rewrite Hr. cbn. by case_decide.
  - unfold delete_code. rewrite find_by_filter by done. by rewrite Hr.
Qed.

Lemma media_gone_after q db i :
  db_ok db → i ≤ media_seq db → media_by_id db i = None →
  media_by_id (db_after q db) i = None ∧ i ≤ media_seq (db_after q db).
Proof.
  intros [_ (Hid & _)] Hi Hr. unfold media_by_id in *.
  destruct (db_after_media q db) as [-> ->]. split; [|lia]. destruct q; try done.
  - rewrite find_by_app, Hr.
    destruct (media_posted_cases (PostMedia fuel now rnd body) db) as [E|(c & E & _)];
      rewrite E; [done|].
    apply find_by_None. cbn. intros ?%list_elem_of_singleton. lia.
  - unfold update_code. rewrite find_by_fmap by (intros r0; by case_decide).
    by rewrite Hr.
  - unfold delete_code. rewrite find_by_filter by done. by rewrite Hr.
Qed.

Lemma media_gone_run rs db i :
  db_ok db → i ≤ media_seq db → media_by_id db i = None → media_by_id (run rs db) i = None.
Proof.
  revert db; induction rs as [|q rs IH]; intros db Hok Hi Hr; [done|].
  destruct (media_gone_after q db i) as [Hr' Hi']; try done.
  apply IH; [by apply db_after_ok|done|done].
Qed.

Lemma views_cons c q rs :
  views c (q :: rs) = (if is_view_of c q then 1 else 0) + views c rs.
Proof.
  unfold views. cbn [List.filter]. destruct (is_view_of c q); cbn [length]; lia.
Qed.

Lemma media_by_id_run rs db i r r' :
  db_ok db → media_by_id db i = Some r → media_by_id (run rs db) i = Some r' →
  r' = mkMediaRow (m_id r) (m_short_code r) (m_ipfs_hash r) (m_file_name r)
         (m_file_type r) (m_file_size r) (m_creator r) (m_created_at r)
         (m_views r + views (m_short_code r) rs).
Proof.
  revert db r; induction rs as [|q rs IH]; intros db r Hok Hr Hr'.
  - cbn in Hr'. rewrite Hr in Hr'. injection Hr' as <-.
    unfold views. cbn. rewrite Z.add_0_r. by destruct r.
  - pose proof (media_by_id_after q db i r Hok Hr) as Hq.
    assert (Hi : i ≤ media_seq (db_after q db)).
    { destruct (db_after_media q db) as [_ ->].
      apply find_by_Some in Hr as [Hin <-]. destruct Hok as [_ (_ & _ & Hle)].
      rewrite Forall_forall in Hle. apply Hle in Hin. lia. }
    change (run (q :: rs) db) with (run rs (db_after q db)) in Hr'.
    rewrite views_cons.
    destruct (media_by_id (db_after q db) i) as [r2|] eqn:Hr2.
    + rewrite (IH _ r2 (db_after_ok q db Hok) Hr2 Hr').
      destruct q; try (injection Hq as ->; cbn [is_view_of]; f_equal; lia).
      * cbn [is_view_of]. case_decide as Hc.
        -- injection Hq as ->. rewrite bool_decide_true by done. cbn. f_equal; lia.
        -- injection Hq as ->. rewrite bool_decide_false by done. f_equal; lia.
      * case_decide; [|done]. injection Hq as ->. cbn [is_view_of]. f_equal; lia.
    + rewrite media_gone_run in Hr'; try done. by apply db_after_ok.
Qed.

End ServiceFacts.

(** ** The two namespaces *)

Module ContractFrame.
Import Contract.

Section WithHash.
Variable keccak256 : N → N → address → N → N.

Lemma unique_link_agree gas e c s1 s2 :
link_part s1 = link_part s2 →
agree link_part (unique_link keccak256 gas e c s1) (unique_link keccak256 gas e c s2).
Proof.
revert c s1 s2. induction gas as [|gas IH]; intros c s1 s2 Hs;
  destruct s1 as [lc1 mc1 l1 m1 ul1 um1], s2 as [lc2 mc2 l2 m2 ul2 um2];
  injection Hs as -> -> ->; cbn [unique_link]; unfold links_at; cbn [links];
  destruct (l_exists (default zeroLink (l2 !! c))); cbn; try done.
apply IH. reflexivity.
Qed.

Lemma unique_media_agree gas e c s1 s2 :
media_part s1 = media_part s2 →
agree media_part (unique_media keccak256 gas e c s1) (unique_media keccak256 gas e c s2).
Proof.
revert c s1 s2. induction gas as [|gas IH]; intros c s1 s2 Hs;
  destruct s1 as [lc1 mc1 l1 m1 ul1 um1], s2 as [lc2 mc2 l2 m2 ul2 um2];
  injection Hs as -> -> ->; cbn [unique_media]; unfold media_at; cbn [media];
  destruct (m_exists (default zeroMedia (m2 !! c))); cbn; try done.
apply IH. reflexivity.
Qed.

(** A creation of a link reads nothing of the media namespace. *)
Lemma createShortLink_reads gas e u s1 s2 :
link_part s1 = link_part s2 →
outcome_on link_part (createShortLink keccak256 gas e u s1) =
outcome_on link_part (createShortLink keccak256 gas e u s2).
Proof.
intros Hs. unfold createShortLink.
destruct (negb _); [done|]. destruct (negb _); [done|].
destruct (_generateShortCode keccak256 e LINK s1) as [c1 s1'] eqn:H1.
destruct (_generateShortCode keccak256 e LINK s2) as [c2 s2'] eqn:H2.
assert (c1 = c2 ∧ link_part s1' = link_part s2') as [-> Hs'].
{ destruct s1, s2. injection Hs as -> -> ->.
  injection H1 as <- <-. injection H2 as <- <-. done. }
pose proof (unique_link_agree gas e c2 s1' s2' Hs') as Ha.
destruct (unique_link keccak256 gas e c2 s1') as [[d1 t1]|],
  (unique_link keccak256 gas e c2 s2') as [[d2 t2]|]; cbn in Ha; try done.
destruct Ha as [-> Ht]. destruct t1, t2. injection Ht as -> -> ->.
reflexivity.
Qed.

Lemma uploadMedia_reads gas e h n ty sz s1 s2 :
media_part s1 = media_part s2 →
outcome_on media_part (uploadMedia keccak256 gas e h n ty sz s1) =
outcome_on media_part (uploadMedia keccak256 gas e h n ty sz s2).
Proof.
intros Hs. unfold uploadMedia.
destruct (negb _); [done|]. destruct (negb _); [done|].
destruct (_generateShortCode keccak256 e MEDIA s1) as [c1 s1'] eqn:H1.
destruct (_generateShortCode keccak256 e MEDIA s2) as [c2 s2'] eqn:H2.
assert (c1 = c2 ∧ media_part s1' = media_part s2') as [-> Hs'].
{ destruct s1, s2. injection Hs as -> -> ->.
  injection H1 as <- <-. injection H2 as <- <-. done. }
pose proof (unique_media_agree gas e c2 s1' s2' Hs') as Ha.
destruct (unique_media keccak256 gas e c2 s1') as [[d1 t1]|],
  (unique_media keccak256 gas e c2 s2') as [[d2 t2]|]; cbn in Ha; try done.
destruct Ha as [-> Ht]. destruct t1, t2. injection Ht as -> -> ->.
reflexivity.
Qed.

(** A creation of a link writes nothing of the media namespace. *)
Lemma createShortLink_writes gas e u s :
media_part (state_after s (createShortLink keccak256 gas e u s)) = media_part s.
Proof.
destruct (createShortLink keccak256 gas e u s) as [c log s2| |] eqn:Hc; try done.
apply ContractFacts.createShortLink_Done in Hc as (_ & _ & _ & Hm & _ & Hum & Hmc & _).
unfold media_part. cbn [state_after]. by rewrite Hm, Hum, Hmc.
Qed.

Lemma uploadMedia_writes gas e h n ty sz s :
link_part (state_after s (uploadMedia keccak256 gas e h n ty sz s)) = link_part s.
Proof.
destruct (uploadMedia keccak256 gas e h n ty sz s) as [c log s2| |] eqn:Hc; try done.
apply ContractFacts.uploadMedia_Done in Hc as (_ & _ & _ & _ & Hl & _ & Hul & Hlc & _).
unfold link_part. cbn [state_after]. by rewrite Hl, Hul, Hlc.
Qed.

(** A first candidate that is free among the links is accepted without a
  further turn of the loop, whatever the media namespace holds. *)
Lemma createShortLink_first gas e u s :
(0 < String.length u ≤ 2048)%nat →
let c := (_generateShortCode keccak256 e LINK s).1 in
l_exists (links_at s c) = false →
∃ s', createShortLink keccak256 gas e u s = Done c [LinkCreated c u (msg_sender e)] s'
      ∧ links_at s' c = mkLinkData u (msg_sender e) (block_timestamp e) 0 true
      ∧ _linkCounter s' = increment (_linkCounter s).
Proof.
intros [H0 H1] c Hf. subst c. unfold createShortLink.
apply Nat.ltb_lt in H0 as ->. apply Nat.leb_le in H1 as ->. cbn [negb].
destruct (_generateShortCode keccak256 e LINK s) as [c0 s0] eqn:Hg. cbn [fst] in *.
assert (Hl : links s0 = links s)
  by (replace s0 with (_generateShortCode keccak256 e LINK s).2 by (by rewrite Hg);
      apply ContractFacts.gen_links).
assert (Hc : _linkCounter s0 = increment (_linkCounter s))
  by (by injection Hg as _ <-).
assert (unique_link keccak256 gas e c0 s0 = Some (c0, s0)) as ->.
{ destruct gas; cbn [unique_link]; by rewrite (ContractFacts.links_at_ext s s0 c0 Hl), Hf. }
eexists. split; [reflexivity|]. split; [|done].
unfold links_at. cbn [links]. by rewrite lookup_insert_eq.
Qed.

Lemma uploadMedia_first gas e h n ty sz s :
(0 < String.length h)%nat → (0 < String.length n)%nat →
let c := (_generateShortCode keccak256 e MEDIA s).1 in
m_exists (media_at s c) = false →
∃ s', uploadMedia keccak256 gas e h n ty sz s =
        Done c [MediaUploaded c h n (msg_sender e)] s'
      ∧ media_at s' c =
          mkMediaData h n ty sz (msg_sender e) (block_timestamp e) 0 true
      ∧ _mediaCounter s' = increment (_mediaCounter s).
Proof.
intros H0 H1 c Hf. subst c. unfold uploadMedia.
apply Nat.ltb_lt in H0 as ->. apply Nat.ltb_lt in H1 as ->. cbn [negb].
destruct (_generateShortCode keccak256 e MEDIA s) as [c0 s0] eqn:Hg. cbn [fst] in *.
assert (Hm : media s0 = media s)
  by (replace s0 with (_generateShortCode keccak256 e MEDIA s).2 by (by rewrite Hg);
      apply ContractFacts.gen_media).
assert (Hc : _mediaCounter s0 = increment (_mediaCounter s))
  by (by injection Hg as _ <-).
assert (unique_media keccak256 gas e c0 s0 = Some (c0, s0)) as ->.
{ destruct gas; cbn [unique_media]; by rewrite (ContractFacts.media_at_ext s s0 c0 Hm), Hf. }
eexists. split; [reflexivity|]. split; [|done].
unfold media_at. cbn [media]. by rewrite lookup_insert_eq.
Qed.

End WithHash.
End ContractFrame.

Module ServiceFrame.
Import Service.

Local Open Scope Z_scope.

(** A creation of a link reads nothing of the [media] table. *)
Lemma post_links_reads fuel now rnd body db1 db2 :
  link_part db1 = link_part db2 →
  response_on link_part (post_links fuel now rnd body db1) =
  response_on link_part (post_links fuel now rnd body db2).
Proof.
  destruct db1 as [l1 s1 m1 t1], db2 as [l2 s2 m2 t2]. intros [= -> ->].
  unfold post_links. cbn [links links_seq]. destruct (negb _); [done|].
  destruct (unique_code _ _ _ _ _ _); [|done].
  by destruct (insert_row _ _ _).
Qed.

Lemma post_media_reads fuel now rnd body db1 db2 :
  media_part db1 = media_part db2 →
  response_on media_part (post_media fuel now rnd body db1) =
  response_on media_part (post_media fuel now rnd body db2).
Proof.
  destruct db1 as [l1 s1 m1 t1], db2 as [l2 s2 m2 t2]. intros [= -> ->].
  unfold post_media. cbn [media media_seq]. destruct (_ || _); [done|].
  destruct (unique_code _ _ _ _ _ _); [|done].
  by destruct (insert_row _ _ _).
Qed.

(** A creation of a link writes nothing of the [media] table. *)
Lemma post_links_writes fuel now rnd body db :
  media_part (db_after (PostLinks fuel now rnd body) db) = media_part db.
Proof.
  unfold media_part.
  destruct (ServiceFacts.db_after_media (PostLinks fuel now rnd body) db) as [-> ->].
  cbn. by rewrite Z.add_0_r.
Qed.

Lemma post_media_writes fuel now rnd body db :
  link_part (db_after (PostMedia fuel now rnd body) db) = link_part db.
Proof.
  unfold link_part.
  destruct (ServiceFacts.db_after_links (PostMedia fuel now rnd body) db) as [-> ->].
  cbn. by rewrite Z.add_0_r.
Qed.

(** A first candidate that is not in the [links] table is accepted
    without a further turn of the loop, whatever the [media] table
    holds. *)
Lemma post_links_first fuel now rnd body db :
  truthy_str (lb_originalUrl body) = true →
  generateShortCode rnd 0 ∉ l_short_code <$> links db →
  post_links fuel now rnd body db =
  Some (Json (OfLink (mkLinkJson (generateShortCode rnd 0) (lb_originalUrl body)
                        (creator_or_anonymous (lb_creator body)) (now / 1000) 0)),
        set_links db
          (links db ++
             [mkLinkRow (links_seq db + 1) (generateShortCode rnd 0)
                (default EmptyString (lb_originalUrl body))
                (creator_or_anonymous (lb_creator body)) (now / 1000) 0])
          (links_seq db + 1)).
Proof.
  intros Hu Hc. apply ServiceFacts.select_code_None in Hc.
  unfold post_links. rewrite Hu. cbn [negb].
  rewrite ServiceFacts.unique_code_first by done.
  by rewrite ServiceFacts.insert_row_free.
Qed.

Lemma post_media_first fuel now rnd body db :
  truthy_str (mb_ipfsHash body) = true → truthy_str (mb_fileName body) = true →
  truthy_str (mb_fileType body) = true → truthy_num (mb_fileSize body) = true →
  generateShortCode rnd 0 ∉ m_short_code <$> media db →
  post_media fuel now rnd body db =
  Some (Json (OfMedia (mkMediaJson (generateShortCode rnd 0) (mb_ipfsHash body)
                         (mb_fileName body) (mb_fileType body) (mb_fileSize body)
                         (creator_or_anonymous (mb_creator body)) (now / 1000) 0)),
        set_media db
          (media db ++
             [mkMediaRow (media_seq db + 1) (generateShortCode rnd 0)
                (default EmptyString (mb_ipfsHash body)) (default EmptyString (mb_fileName body))
                (default EmptyString (mb_fileType body)) (default 0 (mb_fileSize body))
                (creator_or_anonymous (mb_creator body)) (now / 1000) 0])
          (media_seq db + 1)).
Proof.
  intros H1 H2 H3 H4 Hc. apply ServiceFacts.select_code_None in Hc.
  unfold post_media. rewrite H1, H2, H3, H4. cbn [negb orb].
  rewrite ServiceFacts.unique_code_first by done.
  by rewrite ServiceFacts.insert_row_free.
Qed.

End ServiceFrame.

(** ** The totals *)

Module Totals.

Lemma iter_increment (k : nat) (c : N) :
  (c + N.of_nat k < 2 ^ 256)%N → Nat.iter k Contract.increment c = (c + N.of_nat k)%N.
Proof.
  induction k as [|k IH]; intros Hk; [cbn; lia|].
  rewrite Nat.iter_succ, IH by lia. unfold Contract.increment.
  rewrite N.mod_small by lia. lia.
Qed.

Section WithHash.
Variable keccak256 : N → N → Contract.address → N → N.

(** The counters after a transaction: only a successful creation moves
  the counter of its namespace, by one per call of the generator. *)
Lemma exec_linkCounter t s :
∃ k, (k ≤ S (Contract.tx_gas t))%nat
     ∧ Contract._linkCounter (Contract.exec keccak256 t s)
       = Nat.iter k Contract.increment (Contract._linkCounter s)
     ∧ (length (Contract.link_created keccak256 t s) ≤ k)%nat
     ∧ (Contract.link_created keccak256 t s = [] → k = 0%nat).
Proof.
unfold Contract.exec, Contract.link_created.
destruct (Contract.tx_call t) as [u|h n ty sz|c|c|c|c|a|a| | |c|c];
  try (exists 0%nat; split_and!; [lia|done|cbn; lia|done]).
- destruct (Contract.createShortLink _ _ _ _ _) as [c log s2| |] eqn:Hc;
    try (exists 0%nat; split_and!; [lia|done|cbn; lia|done]).
  apply ContractFacts.createShortLink_Done in Hc as (_ & _ & _ & _ & _ & _ & _ & k & Hk & Hc).
  exists (S k). split_and!; [lia|done|cbn; lia|done].
- exists 0%nat. split_and!; [lia| |cbn; lia|done].
  destruct (Contract.uploadMedia _ _ _ _ _ _ _ _) as [c log s2| |] eqn:Hc; try done.
  cbn [Contract.state_after].
  by apply ContractFacts.uploadMedia_Done in Hc as (_ & _ & _ & _ & _ & _ & _ & -> & _).
- exists 0%nat. split_and!; [lia| |cbn; lia|done].
  unfold Contract.getLink; cbv zeta. destruct (negb _); [done|]. by destruct (_ =? _)%N.
- exists 0%nat. split_and!; [lia| |cbn; lia|done].
  unfold Contract.getMedia; cbv zeta. destruct (negb _); [done|]. by destruct (_ =? _)%N.
- exists 0%nat. split_and!; [lia| |cbn; lia|done].
  unfold Contract.getLinkData. by destruct (negb _).
- exists 0%nat. split_and!; [lia| |cbn; lia|done].
  unfold Contract.getMediaData. by destruct (negb _).
Qed.

Lemma exec_mediaCounter t s :
∃ k, (k ≤ S (Contract.tx_gas t))%nat
     ∧ Contract._mediaCounter (Contract.exec keccak256 t s)
       = Nat.iter k Contract.increment (Contract._mediaCounter s)
     ∧ (length (Contract.media_created keccak256 t s) ≤ k)%nat
     ∧ (Contract.media_created keccak256 t s = [] → k = 0%nat).
Proof.
unfold Contract.exec, Contract.media_created.
destruct (Contract.tx_call t) as [u|h n ty sz|c|c|c|c|a|a| | |c|c];
  try (exists 0%nat; split_and!; [lia|done|cbn; lia|done]).
- exists 0%nat. split_and!; [lia| |cbn; lia|done].
  destruct (Contract.createShortLink _ _ _ _ _) as [c log s2| |] eqn:Hc; try done.
  cbn [Contract.state_after].
  by apply ContractFacts.createShortLink_Done in Hc as (_ & _ & _ & _ & _ & _ & -> & _).
- destruct (Contract.uploadMedia _ _ _ _ _ _ _ _) as [c log s2| |] eqn:Hc;
    try (exists 0%nat; split_and!; [lia|done|cbn; lia|done]).
  apply ContractFacts.uploadMedia_Done in Hc as (_ & _ & _ & _ & _ & _ & _ & _ & k & Hk & Hc).
  exists (S k). split_and!; [lia|done|cbn; lia|done].
- exists 0%nat. split_and!; [lia| |cbn; lia|done].
  unfold Contract.getLink; cbv zeta. destruct (negb _); [done|]. by destruct (_ =? _)%N.
- exists 0%nat. split_and!; [lia| |cbn; lia|done].
  unfold Contract.getMedia; cbv zeta. destruct (negb _); [done|]. by destruct (_ =? _)%N.
- exists 0%nat. split_and!; [lia| |cbn; lia|done].
  unfold Contract.getLinkData. by destruct (negb _).
- exists 0%nat. split_and!; [lia| |cbn; lia|done].
  unfold Contract.getMediaData. by destruct (negb _).
Qed.

End WithHash.

(** A creation that meets a taken code draws again and moves the counter
    once more: with the stand-in hash, three links are created and the
    total is 4. *)
Lemma counter_counts_retries :
  Contract.links_created Sample.hash
    [Sample.tx (Contract.CreateShortLink Sample.url);
     Sample.tx' (Contract.CreateShortLink Sample.url);
     Sample.tx (Contract.CreateShortLink Sample.url)] Contract.init
  = ["JQbd1b"; "KQbd1b"; "MQbd1b"]
  ∧ Contract.getTotalLinks
      (Contract.run Sample.hash
         [Sample.tx (Contract.CreateShortLink Sample.url);
          Sample.tx' (Contract.CreateShortLink Sample.url);
          Sample.tx (Contract.CreateShortLink Sample.url)] Contract.init)
    = Contract.Done 4%N []
        (Contract.run Sample.hash
           [Sample.tx (Contract.CreateShortLink Sample.url);
            Sample.tx' (Contract.CreateShortLink Sample.url);
            Sample.tx (Contract.CreateShortLink Sample.url)] Contract.init).
Proof. split; vm_compute; reflexivity. Qed.

Section Tables.
Context {Row : Type}.
Variable code : Row → string.

(** [DELETE] removes the one row of a code that is there. *)
Lemma delete_code_length c (t : list Row) :
  NoDup (code <$> t) →
  Z.of_nat (length (Service.delete_code code c t)) =
  (Z.of_nat (length t) - (if decide (c ∈ code <$> t) then 1 else 0))%Z.
Proof.
  unfold Service.delete_code. induction t as [|r t IH]; [done|].
  rewrite fmap_cons, NoDup_cons. intros [Hr Ht]. rewrite filter_cons.
  destruct (decide (code r ≠ c)) as [Hne|Heq%dec_stable].
  - cbn [length]. rewrite !Nat2Z.inj_succ, IH by done.
    destruct (decide (c ∈ code <$> t)) as [Hin|Hin].
    + rewrite decide_True by (by right). lia.
    + rewrite decide_False; [lia|]. intros [?|?]%elem_of_cons; congruence.
  - subst c. rewrite decide_True by left.
    rewrite IH, decide_False by done. cbn [length]. lia.
Qed.
End Tables.

End Totals.

(** ** Listing by owner *)

Module Listing.

Section Page.
Context {Row : Type}.
Variable created_at : Row → Z.
Variable P : Row → Prop.
Context `{∀ r, Decision (P r)}.

Lemma newer_first_trans : Transitive (Service.newer_first created_at).
Proof. intros a b c. unfold Service.newer_first. lia. Qed.

Lemma newer_first_total : Total (Service.newer_first created_at).
Proof. intros a b. unfold Service.newer_first. lia. Qed.

(** [WHERE P ORDER BY created_at DESC LIMIT n]: the page holds rows of
    the table that satisfy [P], newest first; it has [n] rows when
    there are that many; and the matching rows it leaves out are no
    newer than those it holds. *)
Lemma page_spec (n : nat) (t : list Row) :
  let rows := take n (Service.order_desc created_at (filter P t)) in
  let rest := drop n (Service.order_desc created_at (filter P t)) in
  Forall (λ r, r ∈ t ∧ P r) rows
  ∧ StronglySorted (Service.newer_first created_at) rows
  ∧ length rows = min n (length (filter P t))
  ∧ rows ++ rest ≡ₚ filter P t
  ∧ (∀ a b, a ∈ rows → b ∈ rest → (created_at b ≤ created_at a)%Z).
Proof.
  intros rows rest.
  pose proof (merge_sort_Permutation (Service.newer_first created_at) (filter P t))
    as Hperm.
  pose proof (@StronglySorted_merge_sort _ (Service.newer_first created_at) _
                newer_first_trans newer_first_total (filter P t)) as Hsort.
  fold (Service.order_desc created_at (filter P t)) in Hperm, Hsort.
  assert (Hsplit : rows ++ rest = Service.order_desc created_at (filter P t))
    by apply firstn_skipn.
  rewrite <- Hsplit in Hsort. split_and!.
  - apply Forall_forall. intros r Hr.
    assert (r ∈ filter P t) as [? ?]%list_elem_of_filter; [|done].
    rewrite <- Hperm, <- Hsplit. apply elem_of_app. by left.
  - by apply StronglySorted_app_1_l in Hsort.
  - subst rows. by rewrite length_take, Hperm.
  - by rewrite Hsplit.
  - intros a b Ha Hb. by apply (StronglySorted_app_1_elem_of _ _ _ _ _ Hsort).
Qed.
End Page.

End Listing.

Module ContractListing.
Import Contract.

Section WithHash.
Variable keccak256 : N → N → address → N → N.

Lemma getLink_succeeded e c s :
succeeded (getLink e c s) = true → l_exists (links_at s c) = true.
Proof.
unfold getLink; cbv zeta. by destruct (l_exists (links_at s c)).
Qed.

Lemma getMedia_succeeded e c s :
succeeded (getMedia e c s) = true → m_exists (media_at s c) = true.
Proof.
unfold getMedia; cbv zeta. by destruct (m_exists (media_at s c)).
Qed.

Lemma userLinks_at_insert s s' a l u :
userLinks s' = <[a := l]> (userLinks s) →
userLinks_at s' u = if decide (a = u) then l else userLinks_at s u.
Proof.
unfold userLinks_at. intros ->. rewrite lookup_insert. by destruct (decide (a = u)).
Qed.

Lemma userMedia_at_insert s s' a l u :
userMedia s' = <[a := l]> (userMedia s) →
userMedia_at s' u = if decide (a = u) then l else userMedia_at s u.
Proof.
unfold userMedia_at. intros ->. rewrite lookup_insert. by destruct (decide (a = u)).
Qed.

(** A creation appends its code to the list of its sender; nothing else
  changes a list. *)
Lemma exec_userLinks_at t s u :
userLinks_at (exec keccak256 t s) u =
userLinks_at s u ++ link_created_by keccak256 u t s.
Proof.
unfold exec, link_created_by, link_created.
destruct (tx_call t) as [url|h n ty sz|c|c|c|c|a|a| | |c|c];
  try (cbn; by rewrite ?app_nil_r; destruct (decide _); rewrite ?app_nil_r).
- destruct (createShortLink _ _ _ _ _) as [c log s2| |] eqn:Hc;
    try (cbn; by destruct (decide _); rewrite ?app_nil_r).
  apply ContractFacts.createShortLink_Done in Hc as (_ & _ & _ & _ & Hul & _).
  cbn [state_after]. rewrite (userLinks_at_insert _ _ _ _ _ Hul).
  destruct (decide _) as [->|]; [done|by rewrite app_nil_r].
- assert (userLinks (state_after s (uploadMedia keccak256 (tx_gas t) (tx_env t) h n ty sz s))
          = userLinks s) as Hul.
  { destruct (uploadMedia _ _ _ _ _ _ _ _) as [c log s2| |] eqn:Hc; try done.
    cbn [state_after]. by apply ContractFacts.uploadMedia_Done in Hc as (_ & _ & _ & _ & _ & _ & -> & _). }
  unfold userLinks_at. rewrite Hul. by destruct (decide _); rewrite ?app_nil_r.
- assert (userLinks (state_after s (getLink (tx_env t) c s)) = userLinks s) as Hul.
  { unfold getLink; cbv zeta. destruct (negb _); [done|]. by destruct (_ =? _)%N. }
  unfold userLinks_at. rewrite Hul. by destruct (decide _); rewrite ?app_nil_r.
- assert (userLinks (state_after s (getMedia (tx_env t) c s)) = userLinks s) as Hul.
  { unfold getMedia; cbv zeta. destruct (negb _); [done|]. by destruct (_ =? _)%N. }
  unfold userLinks_at. rewrite Hul. by destruct (decide _); rewrite ?app_nil_r.
- unfold getLinkData. destruct (negb _); cbn; by destruct (decide _); rewrite ?app_nil_r.
- unfold getMediaData. destruct (negb _); cbn; by destruct (decide _); rewrite ?app_nil_r.
Qed.

Lemma exec_userMedia_at t s u :
userMedia_at (exec keccak256 t s) u =
userMedia_at s u ++ media_created_by keccak256 u t s.
Proof.
unfold exec, media_created_by, media_created.
destruct (tx_call t) as [url|h n ty sz|c|c|c|c|a|a| | |c|c];
  try (cbn; by rewrite ?app_nil_r; destruct (decide _); rewrite ?app_nil_r).
- assert (userMedia (state_after s (createShortLink keccak256 (tx_gas t) (tx_env t) url s))
          = userMedia s) as Hul.
  { destruct (createShortLink _ _ _ _ _) as [c log s2| |] eqn:Hc; try done.
    cbn [state_after]. by apply ContractFacts.createShortLink_Done in Hc as (_ & _ & _ & _ & _ & -> & _). }
  unfold userMedia_at. rewrite Hul. by destruct (decide _); rewrite ?app_nil_r.
- destruct (uploadMedia _ _ _ _ _ _ _ _) as [c log s2| |] eqn:Hc;
    try (cbn; by destruct (decide _); rewrite ?app_nil_r).
  apply ContractFacts.uploadMedia_Done in Hc as (_ & _ & _ & _ & _ & Hul & _).
  cbn [state_after]. rewrite (userMedia_at_insert _ _ _ _ _ Hul).
  destruct (decide _) as [->|]; [done|by rewrite app_nil_r].
- assert (userMedia (state_after s (getLink (tx_env t) c s)) = userMedia s) as Hul.
  { unfold getLink; cbv zeta. destruct (negb _); [done|]. by destruct (_ =? _)%N. }
  unfold userMedia_at. rewrite Hul. by destruct (decide _); rewrite ?app_nil_r.
- assert (userMedia (state_after s (getMedia (tx_env t) c s)) = userMedia s) as Hul.
  { unfold getMedia; cbv zeta. destruct (negb _); [done|]. by destruct (_ =? _)%N. }
  unfold userMedia_at. rewrite Hul. by destruct (decide _); rewrite ?app_nil_r.
- unfold getLinkData. destruct (negb _); cbn; by destruct (decide _); rewrite ?app_nil_r.
- unfold getMediaData. destruct (negb _); cbn; by destruct (decide _); rewrite ?app_nil_r.
Qed.

(** Over a run a list has grown by the codes of its owner's creations, in
  the order of the creations. *)
Lemma run_userLinks_at ts s u :
userLinks_at (run keccak256 ts s) u =
userLinks_at s u ++ links_created_by keccak256 u ts s.
Proof.
revert s; induction ts as [|t ts IH]; intros s.
- cbn. by rewrite app_nil_r.
- unfold run, links_created_by in *. cbn [foldl collect].
  by rewrite IH, exec_userLinks_at, app_assoc.
Qed.

Lemma run_userMedia_at ts s u :
userMedia_at (run keccak256 ts s) u =
userMedia_at s u ++ medias_created_by keccak256 u ts s.
Proof.
revert s; induction ts as [|t ts IH]; intros s.
- cbn. by rewrite app_nil_r.
- unfold run, medias_created_by in *. cbn [foldl collect].
  by rewrite IH, exec_userMedia_at, app_assoc.
Qed.

(** The per-user lists stay the lists of the codes of their owner's
  records. *)
Lemma exec_owned t s : wf s → owned s → owned (exec keccak256 t s).
Proof.
intros Hwf (Hl & Hm & Hnl & Hnm). split_and!.
- intros u c.
  rewrite exec_userLinks_at, elem_of_app, ContractFacts.exec_links_at, Hl.
  unfold link_created_by, link_created.
  destruct (tx_call t) as [url|h n ty sz|c0|c0|c0|c0|a|a| | |c0|c0];
    try (destruct (decide _); rewrite elem_of_nil; tauto).
  + destruct (createShortLink _ _ _ _ _) as [c1 log s2| |] eqn:Hc;
      try (destruct (decide _); rewrite elem_of_nil; tauto).
    apply ContractFacts.createShortLink_Done in Hc as (_ & Hf & _).
    destruct (decide (msg_sender (tx_env t) = u)) as [<-|Hne];
      destruct (decide (c1 = c)) as [->|Hc1]; cbn [l_exists l_creator];
      rewrite ?list_elem_of_singleton, ?elem_of_nil; intuition congruence.
  + assert (Hs := getLink_succeeded (tx_env t) c0 s).
    destruct (decide _); rewrite elem_of_nil;
      destruct (succeeded _); cbn [andb]; try tauto;
      case_bool_decide; cbn [l_exists l_creator]; subst; intuition congruence.
- intros u c.
  rewrite exec_userMedia_at, elem_of_app, ContractFacts.exec_media_at, Hm.
  unfold media_created_by, media_created.
  destruct (tx_call t) as [url|h n ty sz|c0|c0|c0|c0|a|a| | |c0|c0];
    try (destruct (decide _); rewrite elem_of_nil; tauto).
  + destruct (uploadMedia _ _ _ _ _ _ _ _) as [c1 log s2| |] eqn:Hc;
      try (destruct (decide _); rewrite elem_of_nil; tauto).
    apply ContractFacts.uploadMedia_Done in Hc as (_ & _ & Hf & _).
    destruct (decide (msg_sender (tx_env t) = u)) as [<-|Hne];
      destruct (decide (c1 = c)) as [->|Hc1]; cbn [m_exists m_creator];
      rewrite ?list_elem_of_singleton, ?elem_of_nil; intuition congruence.
  + assert (Hs := getMedia_succeeded (tx_env t) c0 s).
    destruct (decide _); rewrite elem_of_nil;
      destruct (succeeded _); cbn [andb]; try tauto;
      case_bool_decide; cbn [m_exists m_creator]; subst; intuition congruence.
- intros u. rewrite exec_userLinks_at. apply NoDup_app. split_and!; [done| |].
  + intros c [Hex _]%Hl Hc. unfold link_created_by in Hc.
    destruct (decide _); [|by apply elem_of_nil in Hc].
    apply ContractFacts.link_created_fresh in Hc as (_ & Hf & _). done.
  + unfold link_created_by, link_created. destruct (decide _); [|apply NoDup_nil_2].
    destruct (tx_call t); try apply NoDup_nil_2.
    destruct (createShortLink _ _ _ _ _); try apply NoDup_nil_2. apply NoDup_singleton.
- intros u. rewrite exec_userMedia_at. apply NoDup_app. split_and!; [done| |].
  + intros c [Hex _]%Hm Hc. unfold media_created_by in Hc.
    destruct (decide _); [|by apply elem_of_nil in Hc].
    apply ContractFacts.media_created_fresh in Hc as (_ & Hf & _). done.
  + unfold media_created_by, media_created. destruct (decide _); [|apply NoDup_nil_2].
    destruct (tx_call t); try apply NoDup_nil_2.
    destruct (uploadMedia _ _ _ _ _ _ _ _); try apply NoDup_nil_2. apply NoDup_singleton.
Qed.

Lemma run_owned ts s : wf s → owned s → owned (run keccak256 ts s).
Proof.
revert s; induction ts as [|t ts IH]; intros s Hwf Hs; [done|].
apply IH; [by apply ContractFacts.exec_wf|by apply exec_owned].
Qed.

Lemma init_owned : owned init.
Proof.
unfold owned, userLinks_at, userMedia_at, links_at, media_at. cbn.
split_and!; intros; rewrite ?lookup_empty; cbn.
- split; [by intros ?%elem_of_nil|by intros [? _]].
- split; [by intros ?%elem_of_nil|by intros [? _]].
- apply NoDup_nil_2.
- apply NoDup_nil_2.
Qed.

End WithHash.
End ContractListing.

(** * The claims *)

(** C1: the short codes assigned by the successful creations of a run
    are pairwise distinct in each namespace, and none of them was taken
    when the run began: creation accepts a candidate only once it is not
    among the keys of its namespace.  A run of the contract is any list
    of transactions; a run of the service is any list of requests without
    the administrative deletion of that namespace, which frees a code.
    With deletions too, the codes of the rows of a table stay pairwise
    distinct. *)
Theorem created_codes_distinct :
  (∀ keccak256 ts s,
     NoDup (Contract.links_created keccak256 ts s)
     ∧ Forall (λ c, Contract.l_exists (Contract.links_at s c) = false)
         (Contract.links_created keccak256 ts s))
  ∧ (∀ keccak256 ts s,
       NoDup (Contract.medias_created keccak256 ts s)
       ∧ Forall (λ c, Contract.m_exists (Contract.media_at s c) = false)
           (Contract.medias_created keccak256 ts s))
  ∧ (∀ rs db,
       Forall (λ r, Service.is_delete_link r = false) rs →
       NoDup (Service.links_posted rs db)
       ∧ Forall (λ c, c ∉ Service.l_short_code <$> Service.links db)
           (Service.links_posted rs db))
  ∧ (∀ rs db,
       Forall (λ r, Service.is_delete_media r = false) rs →
       NoDup (Service.medias_posted rs db)
       ∧ Forall (λ c, c ∉ Service.m_short_code <$> Service.media db)
           (Service.medias_posted rs db))
  ∧ (∀ rs db,
       Service.db_ok db →
       NoDup (Service.l_short_code <$> Service.links (Service.run rs db))
       ∧ NoDup (Service.m_short_code <$> Service.media (Service.run rs db))).
Proof.
  split_and!.
  - intros keccak256 ts s.
    assert (Hok : Forall (λ _ : Contract.Tx, True) ts) by (by apply Forall_true).
    split.
    + eapply (collect_NoDup _ _ (λ s c, Contract.l_exists (Contract.links_at s c) = true));
        [apply ContractFacts.link_created_fresh| |exact Hok].
      intros t s0 c _. apply ContractFacts.exec_link_stays.
    + apply Forall_forall. intros c Hc. apply not_true_is_false.
      eapply (collect_fresh _ _ (λ s c, Contract.l_exists (Contract.links_at s c) = true));
        [apply ContractFacts.link_created_fresh| |exact Hok|exact Hc].
      intros t s0 c0 _. apply ContractFacts.exec_link_stays.
  - intros keccak256 ts s.
    assert (Hok : Forall (λ _ : Contract.Tx, True) ts) by (by apply Forall_true).
    split.
    + eapply (collect_NoDup _ _ (λ s c, Contract.m_exists (Contract.media_at s c) = true));
        [apply ContractFacts.media_created_fresh| |exact Hok].
      intros t s0 c _. apply ContractFacts.exec_media_stays.
    + apply Forall_forall. intros c Hc. apply not_true_is_false.
      eapply (collect_fresh _ _ (λ s c, Contract.m_exists (Contract.media_at s c) = true));
        [apply ContractFacts.media_created_fresh| |exact Hok|exact Hc].
      intros t s0 c0 _. apply ContractFacts.exec_media_stays.
  - intros rs db Hok. split.
    + eapply (collect_NoDup _ _ (λ db c, c ∈ Service.l_short_code <$> Service.links db));
        [apply ServiceFacts.link_posted_fresh| |exact Hok].
      intros r db0 c. apply ServiceFacts.link_code_stays.
    + apply Forall_forall. intros c Hc.
      eapply (collect_fresh _ _ (λ db c, c ∈ Service.l_short_code <$> Service.links db));
        [apply ServiceFacts.link_posted_fresh| |exact Hok|exact Hc].
      intros r db0 c0. apply ServiceFacts.link_code_stays.
  - intros rs db Hok. split.
    + eapply (collect_NoDup _ _ (λ db c, c ∈ Service.m_short_code <$> Service.media db));
        [apply ServiceFacts.media_posted_fresh| |exact Hok].
      intros r db0 c. apply ServiceFacts.media_code_stays.
    + apply Forall_forall. intros c Hc.
      eapply (collect_fresh _ _ (λ db c, c ∈ Service.m_short_code <$> Service.media db));
        [apply ServiceFacts.media_posted_fresh| |exact Hok|exact Hc].
      intros r db0 c0. apply ServiceFacts.media_code_stays.
  - intros rs db Hok.
    by destruct (ServiceFacts.run_ok rs db Hok) as [(_ & ? & _) (_ & ? & _)].
Qed.

(** Three creations that draw from the same entropy: the second and the
    third meet taken codes and draw again. *)
Lemma created_codes_distinct_witness :
  Service.links_posted
    [Sample.post_link "0xABC"; Sample.post_link "0xABC"; Sample.post_link "0xDEF"]
    Service.empty = ["aaaaaa"; "bbbbbb"; "cccccc"]
  ∧ NoDup (Service.links_posted
             [Sample.post_link "0xABC"; Sample.post_link "0xABC"; Sample.post_link "0xDEF"]
             Service.empty).
Proof.
  split; [vm_compute; reflexivity|].
  destruct created_codes_distinct as (_ & _ & H & _).
  apply H. repeat constructor.
Defined.

(** When a counting resolve of the contract succeeds, and what it does
    then. *)
Lemma contract_getLink_counts e c s :
  Contract.l_exists (Contract.links_at s c) = true →
  Contract.l_clicks (Contract.links_at s c) ≠ Contract.uint256_max →
  ∃ s', Contract.getLink e c s =
          Contract.Done (Contract.l_originalUrl (Contract.links_at s c))
            [Contract.LinkAccessed c (Contract.msg_sender e)] s'
        ∧ Contract.l_clicks (Contract.links_at s' c) =
            (Contract.l_clicks (Contract.links_at s c) + 1)%N.
Proof.
  intros He Hc. unfold Contract.getLink. cbv zeta. rewrite He. cbn [negb].
  destruct (N.eqb_spec (Contract.l_clicks (Contract.links_at s c)) Contract.uint256_max)
    as [|_]; [done|].
  assert (Hat : ∀ r a b m ul um,
             Contract.links_at
               (Contract.mkState a b (<[c:=r]> (Contract.links s)) m ul um) c = r).
  { intros. unfold Contract.links_at. cbn [Contract.links]. by rewrite lookup_insert_eq. }
  eexists. split; by rewrite Hat.
Qed.

Lemma contract_getMedia_counts e c s :
  Contract.m_exists (Contract.media_at s c) = true →
  Contract.m_views (Contract.media_at s c) ≠ Contract.uint256_max →
  ∃ s', Contract.getMedia e c s =
          Contract.Done
            (Contract.m_ipfsHash (Contract.media_at s c),
             Contract.m_fileName (Contract.media_at s c),
             Contract.m_fileType (Contract.media_at s c),
             Contract.m_fileSize (Contract.media_at s c))
            [Contract.MediaAccessed c (Contract.msg_sender e)] s'
        ∧ Contract.m_views (Contract.media_at s' c) =
            (Contract.m_views (Contract.media_at s c) + 1)%N.
Proof.
  intros He Hc. unfold Contract.getMedia. cbv zeta. rewrite He. cbn [negb].
  destruct (N.eqb_spec (Contract.m_views (Contract.media_at s c)) Contract.uint256_max)
    as [|_]; [done|].
  assert (Hat : ∀ r a b l ul um,
             Contract.media_at
               (Contract.mkState a b l (<[c:=r]> (Contract.media s)) ul um) c = r).
  { intros. unfold Contract.media_at. cbn [Contract.media]. by rewrite lookup_insert_eq. }
  eexists. split; by rewrite Hat.
Qed.

Lemma contract_counts_link_spec t s c :
  Contract.counts_link t s c = true ↔
  Contract.tx_call t = Contract.GetLink c
  ∧ Contract.l_exists (Contract.links_at s c) = true
  ∧ Contract.l_clicks (Contract.links_at s c) ≠ Contract.uint256_max.
Proof.
  unfold Contract.counts_link. split.
  - destruct (Contract.tx_call t) as [| |c'| | | | | | | | |]; try discriminate.
    intros [Hc Hs]%andb_true_iff. apply bool_decide_eq_true in Hc as ->.
    split; [done|]. revert Hs. unfold Contract.getLink. cbv zeta.
    destruct (Contract.l_exists (Contract.links_at s c)); [|discriminate].
    cbn [negb].
    by destruct (N.eqb_spec (Contract.l_clicks (Contract.links_at s c))
                   Contract.uint256_max).
  - intros (-> & He & Hc). rewrite bool_decide_true by done.
    destruct (contract_getLink_counts (Contract.tx_env t) c s He Hc) as (s' & -> & _).
    reflexivity.
Qed.

Lemma contract_counts_media_spec t s c :
  Contract.counts_media t s c = true ↔
  Contract.tx_call t = Contract.GetMedia c
  ∧ Contract.m_exists (Contract.media_at s c) = true
  ∧ Contract.m_views (Contract.media_at s c) ≠ Contract.uint256_max.
Proof.
  unfold Contract.counts_media. split.
  - destruct (Contract.tx_call t) as [| | |c'| | | | | | | |]; try discriminate.
    intros [Hc Hs]%andb_true_iff. apply bool_decide_eq_true in Hc as ->.
    split; [done|]. revert Hs. unfold Contract.getMedia. cbv zeta.
    destruct (Contract.m_exists (Contract.media_at s c)); [|discriminate].
    cbn [negb].
    by destruct (N.eqb_spec (Contract.m_views (Contract.media_at s c))
                   Contract.uint256_max).
  - intros (-> & He & Hc). rewrite bool_decide_true by done.
    destruct (contract_getMedia_counts (Contract.tx_env t) c s He Hc) as (s' & -> & _).
    reflexivity.
Qed.

(** C2: a counter changes only by the successful counting resolves of
    its record's code, by one each.  In the contract, a [getLink]
    (resp. [getMedia]) of a code that exists and whose counter is below
    the largest [uint256] succeeds, returns the stored data and adds one
    to the counter, and these are the only calls that succeed as
    counting resolves.  One transaction moves [clicks] (resp. [views])
    of a code by one when it is a successful [getLink] (resp.
    [getMedia]) of that code and by nothing otherwise, so that over any
    run the counter has grown by the number of such calls.  In the
    service a record is a row, followed by its id:
    [GET .../redirect] (resp. [.../view]) of its code adds one to its
    counter, the deletion of its code removes the row, no other request
    touches it, and over any run a row that is still there has counted
    the counting resolves of its code.  Counters therefore never
    decrease. *)
Theorem counters_count_resolves :
  (∀ keccak256 ts t s c,
     Contract.wf s →
     Contract.l_clicks (Contract.links_at (Contract.exec keccak256 t s) c) =
       (Contract.l_clicks (Contract.links_at s c)
        + (if Contract.counts_link t s c then 1 else 0))%N
     ∧ Contract.m_views (Contract.media_at (Contract.exec keccak256 t s) c) =
         (Contract.m_views (Contract.media_at s c)
          + (if Contract.counts_media t s c then 1 else 0))%N
     ∧ Contract.l_clicks (Contract.links_at (Contract.run keccak256 ts s) c) =
         (Contract.l_clicks (Contract.links_at s c)
          + Contract.link_resolves keccak256 c ts s)%N
     ∧ Contract.m_views (Contract.media_at (Contract.run keccak256 ts s) c) =
         (Contract.m_views (Contract.media_at s c)
          + Contract.media_resolves keccak256 c ts s)%N)
  ∧ (∀ rs q db i r,
       Service.db_ok db → Service.link_by_id db i = Some r →
       Service.link_by_id (Service.db_after q db) i =
         match q with
         | Service.GetLinkRedirect c =>
             if decide (Service.l_short_code r = c) then Some (Service.click r)
             else Some r
         | Service.DeleteLink c =>
             if decide (Service.l_short_code r ≠ c) then Some r else None
         | _ => Some r
         end
       ∧ ∀ r', Service.link_by_id (Service.run rs db) i = Some r' →
           Service.l_clicks r' =
             (Service.l_clicks r + Service.redirects (Service.l_short_code r) rs)%Z
           ∧ (Service.l_clicks r ≤ Service.l_clicks r')%Z)
  ∧ (∀ rs q db i r,
       Service.db_ok db → Service.media_by_id db i = Some r →
       Service.media_by_id (Service.db_after q db) i =
         match q with
         | Service.GetMediaView c =>
             if decide (Service.m_short_code r = c) then Some (Service.view r)
             else Some r
         | Service.DeleteMedia c =>
             if decide (Service.m_short_code r ≠ c) then Some r else None
         | _ => Some r
         end
       ∧ ∀ r', Service.media_by_id (Service.run rs db) i = Some r' →
           Service.m_views r' =
             (Service.m_views r + Service.views (Service.m_short_code r) rs)%Z
           ∧ (Service.m_views r ≤ Service.m_views r')%Z)
  ∧ (∀ e c s,
       Contract.l_exists (Contract.links_at s c) = true →
       Contract.l_clicks (Contract.links_at s c) ≠ Contract.uint256_max →
       ∃ s', Contract.getLink e c s =
               Contract.Done (Contract.l_originalUrl (Contract.links_at s c))
                 [Contract.LinkAccessed c (Contract.msg_sender e)] s'
             ∧ Contract.l_clicks (Contract.links_at s' c) =
                 (Contract.l_clicks (Contract.links_at s c) + 1)%N)
  ∧ (∀ e c s,
       Contract.m_exists (Contract.media_at s c) = true →
       Contract.m_views (Contract.media_at s c) ≠ Contract.uint256_max →
       ∃ s', Contract.getMedia e c s =
               Contract.Done
                 (Contract.m_ipfsHash (Contract.media_at s c),
                  Contract.m_fileName (Contract.media_at s c),
                  Contract.m_fileType (Contract.media_at s c),
                  Contract.m_fileSize (Contract.media_at s c))
                 [Contract.MediaAccessed c (Contract.msg_sender e)] s'
             ∧ Contract.m_views (Contract.media_at s' c) =
                 (Contract.m_views (Contract.media_at s c) + 1)%N)
  ∧ (∀ t s c,
       (Contract.counts_link t s c = true ↔
        Contract.tx_call t = Contract.GetLink c
        ∧ Contract.l_exists (Contract.links_at s c) = true
        ∧ Contract.l_clicks (Contract.links_at s c) ≠ Contract.uint256_max)
       ∧ (Contract.counts_media t s c = true ↔
          Contract.tx_call t = Contract.GetMedia c
          ∧ Contract.m_exists (Contract.media_at s c) = true
          ∧ Contract.m_views (Contract.media_at s c) ≠ Contract.uint256_max)).
Proof.
  split_and!.
  - intros keccak256 ts t s c Hwf. split_and!.
    + by apply ContractFacts.exec_clicks.
    + by apply ContractFacts.exec_views.
    + by apply ContractFacts.run_clicks.
    + by apply ContractFacts.run_views.
  - intros rs q db i r Hok Hr. split; [by apply ServiceFacts.link_by_id_after|].
    intros r' Hr'. rewrite (ServiceFacts.link_by_id_run rs db i r r' Hok Hr Hr').
    cbn. unfold Service.redirects. lia.
  - intros rs q db i r Hok Hr. split; [by apply ServiceFacts.media_by_id_after|].
    intros r' Hr'. rewrite (ServiceFacts.media_by_id_run rs db i r r' Hok Hr Hr').
    cbn. unfold Service.views. lia.
  - intros e c s He Hc. by apply contract_getLink_counts.
  - intros e c s He Hc. by apply contract_getMedia_counts.
  - intros t s c. split.
    + apply contract_counts_link_spec.
    + apply contract_counts_media_spec.
Qed.

(** On the contract: a link is created, resolved, peeked at and resolved
    again; its counter, 0 after the creation, ends at 2.  The same for
    an upload that is resolved twice. *)
Lemma counters_count_resolves_witness :
  Contract.l_clicks
    (Contract.links_at
       (Contract.run Sample.hash
          [Sample.tx (Contract.GetLink "JQbd1b"); Sample.tx (Contract.GetLinkData "JQbd1b");
           Sample.tx' (Contract.GetLink "JQbd1b"); Sample.tx (Contract.GetLink "nocode")]
          (Contract.exec Sample.hash (Sample.tx (Contract.CreateShortLink Sample.url))
             Contract.init))
       "JQbd1b") = (0 + 2)%N
  ∧ Contract.m_views
      (Contract.media_at
         (Contract.run Sample.hash
            [Sample.tx (Contract.GetMedia "JQbd1b");
             Sample.tx (Contract.GetMediaData "JQbd1b");
             Sample.tx' (Contract.GetMedia "JQbd1b");
             Sample.tx (Contract.GetMedia "nocode")]
            (Contract.exec Sample.hash
               (Sample.tx
                  (Contract.UploadMedia "QmTest123" "a.png" "image/png" 1024000))
               Contract.init))
         "JQbd1b") = (0 + 2)%N.
Proof.
  destruct counters_count_resolves as (H & _).
  split.
  - destruct (H Sample.hash
                [Sample.tx (Contract.GetLink "JQbd1b");
                 Sample.tx (Contract.GetLinkData "JQbd1b");
                 Sample.tx' (Contract.GetLink "JQbd1b");
                 Sample.tx (Contract.GetLink "nocode")]
                (Sample.tx Contract.GetTotalLinks)
                (Contract.exec Sample.hash (Sample.tx (Contract.CreateShortLink Sample.url))
                   Contract.init)
                "JQbd1b") as (_ & _ & Hrun & _).
    + apply ContractFacts.exec_wf, ContractFacts.init_wf.
    + rewrite Hrun. vm_compute. reflexivity.
  - destruct (H Sample.hash
                [Sample.tx (Contract.GetMedia "JQbd1b");
                 Sample.tx (Contract.GetMediaData "JQbd1b");
                 Sample.tx' (Contract.GetMedia "JQbd1b");
                 Sample.tx (Contract.GetMedia "nocode")]
                (Sample.tx Contract.GetTotalLinks)
                (Contract.exec Sample.hash
                   (Sample.tx
                      (Contract.UploadMedia "QmTest123" "a.png" "image/png" 1024000))
                   Contract.init)
                "JQbd1b") as (_ & _ & _ & Hrun).
    + apply ContractFacts.exec_wf, ContractFacts.init_wf.
    + rewrite Hrun. vm_compute. reflexivity.
Defined.

(** C9: the two namespaces are independent keyspaces.  In the contract
    as in the service, a creation in one namespace leaves the storage of
    the other as it was, and its outcome is the same whatever the other
    namespace holds.  A candidate code that is live in the other
    namespace and free in its own is accepted at once, with no further
    turn of the loop (none is allowed here: the gas, or fuel, is 0) and
    no error, and the string is then live in both. *)
Theorem namespaces_independent :
  (∀ keccak256 gas e u s s2,
     Contract.media_part
       (Contract.state_after s (Contract.createShortLink keccak256 gas e u s))
       = Contract.media_part s
     ∧ (Contract.link_part s = Contract.link_part s2 →
        Contract.outcome_on Contract.link_part
          (Contract.createShortLink keccak256 gas e u s)
        = Contract.outcome_on Contract.link_part
            (Contract.createShortLink keccak256 gas e u s2)))
  ∧ (∀ keccak256 gas e h n ty sz s s2,
       Contract.link_part
         (Contract.state_after s (Contract.uploadMedia keccak256 gas e h n ty sz s))
         = Contract.link_part s
       ∧ (Contract.media_part s = Contract.media_part s2 →
          Contract.outcome_on Contract.media_part
            (Contract.uploadMedia keccak256 gas e h n ty sz s)
          = Contract.outcome_on Contract.media_part
              (Contract.uploadMedia keccak256 gas e h n ty sz s2)))
  ∧ (∀ keccak256 e u s,
       let c := (Contract._generateShortCode keccak256 e Contract.LINK s).1 in
       (0 < String.length u ≤ 2048)%nat →
       Contract.m_exists (Contract.media_at s c) = true →
       Contract.l_exists (Contract.links_at s c) = false →
       ∃ s', Contract.createShortLink keccak256 0 e u s
             = Contract.Done c [Contract.LinkCreated c u (Contract.msg_sender e)] s'
             ∧ Contract.l_exists (Contract.links_at s' c) = true
             ∧ Contract.m_exists (Contract.media_at s' c) = true)
  ∧ (∀ keccak256 e h n ty sz s,
       let c := (Contract._generateShortCode keccak256 e Contract.MEDIA s).1 in
       (0 < String.length h)%nat → (0 < String.length n)%nat →
       Contract.l_exists (Contract.links_at s c) = true →
       Contract.m_exists (Contract.media_at s c) = false →
       ∃ s', Contract.uploadMedia keccak256 0 e h n ty sz s
             = Contract.Done c [Contract.MediaUploaded c h n (Contract.msg_sender e)] s'
             ∧ Contract.l_exists (Contract.links_at s' c) = true
             ∧ Contract.m_exists (Contract.media_at s' c) = true)
  ∧ (∀ fuel now rnd body db db2,
       Service.media_part (Service.db_after (Service.PostLinks fuel now rnd body) db)
         = Service.media_part db
       ∧ (Service.link_part db = Service.link_part db2 →
          Service.response_on Service.link_part (Service.post_links fuel now rnd body db)
          = Service.response_on Service.link_part
              (Service.post_links fuel now rnd body db2)))
  ∧ (∀ fuel now rnd body db db2,
       Service.link_part (Service.db_after (Service.PostMedia fuel now rnd body) db)
         = Service.link_part db
       ∧ (Service.media_part db = Service.media_part db2 →
          Service.response_on Service.media_part (Service.post_media fuel now rnd body db)
          = Service.response_on Service.media_part
              (Service.post_media fuel now rnd body db2)))
  ∧ (∀ now rnd body db,
       let c := Service.generateShortCode rnd 0 in
       Service.truthy_str (Service.lb_originalUrl body) = true →
       c ∈ Service.m_short_code <$> Service.media db →
       c ∉ Service.l_short_code <$> Service.links db →
       ∃ j db', Service.post_links 0 now rnd body db = Some (Service.Json (Service.OfLink j), db')
                ∧ Service.lj_shortCode j = c
                ∧ c ∈ Service.l_short_code <$> Service.links db'
                ∧ c ∈ Service.m_short_code <$> Service.media db')
  ∧ (∀ now rnd body db,
       let c := Service.generateShortCode rnd 0 in
       Service.truthy_str (Service.mb_ipfsHash body) = true →
       Service.truthy_str (Service.mb_fileName body) = true →
       Service.truthy_str (Service.mb_fileType body) = true →
       Service.truthy_num (Service.mb_fileSize body) = true →
       c ∈ Service.l_short_code <$> Service.links db →
       c ∉ Service.m_short_code <$> Service.media db →
       ∃ j db', Service.post_media 0 now rnd body db = Some (Service.Json (Service.OfMedia j), db')
                ∧ Service.mj_shortCode j = c
                ∧ c ∈ Service.l_short_code <$> Service.links db'
                ∧ c ∈ Service.m_short_code <$> Service.media db').
Proof.
  split_and!.
  - intros. split; [apply ContractFrame.createShortLink_writes|].
    apply ContractFrame.createShortLink_reads.
  - intros. split; [apply ContractFrame.uploadMedia_writes|].
    apply ContractFrame.uploadMedia_reads.
  - intros keccak256 e u s c Hu Hm Hl.
    pose proof (ContractFrame.createShortLink_writes keccak256 0 e u s) as Hw.
    destruct (ContractFrame.createShortLink_first keccak256 0 e u s Hu Hl)
      as (s' & Hc & Hr & _).
    fold c in Hc, Hr. exists s'. split; [done|]. split; [by rewrite Hr|].
    rewrite Hc in Hw. cbn [Contract.state_after] in Hw.
    injection Hw as _ Hmed _.
    by rewrite (ContractFacts.media_at_ext s s' c Hmed).
  - intros keccak256 e h n ty sz s c Hh Hn Hl Hm.
    pose proof (ContractFrame.uploadMedia_writes keccak256 0 e h n ty sz s) as Hw.
    destruct (ContractFrame.uploadMedia_first keccak256 0 e h n ty sz s Hh Hn Hm)
      as (s' & Hc & Hr & _).
    fold c in Hc, Hr. exists s'. split; [done|]. split; [|by rewrite Hr].
    rewrite Hc in Hw. cbn [Contract.state_after] in Hw.
    injection Hw as _ Hlin _.
    by rewrite (ContractFacts.links_at_ext s s' c Hlin).
  - intros. split; [apply ServiceFrame.post_links_writes|].
    apply ServiceFrame.post_links_reads.
  - intros. split; [apply ServiceFrame.post_media_writes|].
    apply ServiceFrame.post_media_reads.
  - intros now rnd body db c Hu Hm Hl.
    eexists _, _. split; [by apply ServiceFrame.post_links_first|].
    cbn. split; [done|]. split; [|done].
    rewrite fmap_app. apply elem_of_app. right. left.
  - intros now rnd body db c H1 H2 H3 H4 Hl Hm.
    eexists _, _. split; [by apply ServiceFrame.post_media_first|].
    cbn. split; [done|]. split; [done|].
    rewrite fmap_app. apply elem_of_app. right. left.
Qed.

(** C4, as the code has it.  In the contract the totals are the two
    counters: no transaction decreases them (short of the wrap-around of
    [uint256]), only a successful creation in the namespace moves them,
    and a creation whose first candidate is free adds exactly one.  In
    the service the totals of the stats route are the numbers of rows the
    tables hold now: a successful creation adds one, the administrative
    deletion of a code that is there takes one away, and no other request
    changes them. *)
Theorem totals_as_counted :
  (∀ keccak256 t s,
     ((Contract._linkCounter s + N.of_nat (Contract.tx_gas t) + 1 < 2 ^ 256)%N →
      (Contract._linkCounter s ≤ Contract._linkCounter (Contract.exec keccak256 t s))%N)
     ∧ ((Contract._mediaCounter s + N.of_nat (Contract.tx_gas t) + 1 < 2 ^ 256)%N →
        (Contract._mediaCounter s ≤ Contract._mediaCounter (Contract.exec keccak256 t s))%N)
     ∧ (Contract.link_created keccak256 t s = [] →
        Contract._linkCounter (Contract.exec keccak256 t s) = Contract._linkCounter s)
     ∧ (Contract.media_created keccak256 t s = [] →
        Contract._mediaCounter (Contract.exec keccak256 t s) = Contract._mediaCounter s))
  ∧ (∀ keccak256 gas e u s,
       (0 < String.length u ≤ 2048)%nat →
       Contract.l_exists
         (Contract.links_at s (Contract._generateShortCode keccak256 e Contract.LINK s).1)
         = false →
       (Contract._linkCounter s < Contract.uint256_max)%N →
       Contract._linkCounter
         (Contract.state_after s (Contract.createShortLink keccak256 gas e u s))
       = (Contract._linkCounter s + 1)%N)
  ∧ (∀ keccak256 gas e h n ty sz s,
       (0 < String.length h)%nat → (0 < String.length n)%nat →
       Contract.m_exists
         (Contract.media_at s (Contract._generateShortCode keccak256 e Contract.MEDIA s).1)
         = false →
       (Contract._mediaCounter s < Contract.uint256_max)%N →
       Contract._mediaCounter
         (Contract.state_after s (Contract.uploadMedia keccak256 gas e h n ty sz s))
       = (Contract._mediaCounter s + 1)%N)
  ∧ (∀ r db,
       Service.db_ok db →
       Service.get_stats db =
         (Service.Json (Service.OfStats (Z.of_nat (length (Service.links db)))
                          (Z.of_nat (length (Service.media db)))), db)
       ∧ Z.of_nat (length (Service.links (Service.db_after r db))) =
           (Z.of_nat (length (Service.links db))
            + match r with
              | Service.PostLinks _ _ _ _ => Z.of_nat (length (Service.link_posted r db))
              | Service.DeleteLink c =>
                  if decide (c ∈ Service.l_short_code <$> Service.links db) then -1 else 0
              | _ => 0
              end)%Z
       ∧ Z.of_nat (length (Service.media (Service.db_after r db))) =
           (Z.of_nat (length (Service.media db))
            + match r with
              | Service.PostMedia _ _ _ _ => Z.of_nat (length (Service.media_posted r db))
              | Service.DeleteMedia c =>
                  if decide (c ∈ Service.m_short_code <$> Service.media db) then -1 else 0
              | _ => 0
              end)%Z).
Proof.
  split_and!.
  - intros keccak256 t s.
    destruct (Totals.exec_linkCounter keccak256 t s) as (k & Hk & Hc & _ & Hk0).
    destruct (Totals.exec_mediaCounter keccak256 t s) as (k' & Hk' & Hc' & _ & Hk0').
    split_and!.
    + intros Hb. rewrite Hc, Totals.iter_increment; lia.
    + intros Hb. rewrite Hc', Totals.iter_increment; lia.
    + intros ->%Hk0. by rewrite Hc.
    + intros ->%Hk0'. by rewrite Hc'.
  - intros keccak256 gas e u s Hu Hf Hc.
    destruct (ContractFrame.createShortLink_first keccak256 gas e u s Hu Hf)
      as (s' & Hd & _ & Hs').
    rewrite Hd. cbn [Contract.state_after]. rewrite Hs'.
    unfold Contract.increment, Contract.uint256_max in *. rewrite N.mod_small; lia.
  - intros keccak256 gas e h n ty sz s Hh Hn Hf Hc.
    destruct (ContractFrame.uploadMedia_first keccak256 gas e h n ty sz s Hh Hn Hf)
      as (s' & Hd & _ & Hs').
    rewrite Hd. cbn [Contract.state_after]. rewrite Hs'.
    unfold Contract.increment, Contract.uint256_max in *. rewrite N.mod_small; lia.
  - intros r db [(_ & Hl & _) (_ & Hm & _)]. split; [done|].
    destruct (ServiceFacts.db_after_links r db) as [-> _].
    destruct (ServiceFacts.db_after_media r db) as [-> _].
    split.
    + destruct r; rewrite ?Z.add_0_r; try done.
      * rewrite length_app, length_fmap. lia.
      * unfold Service.update_code. by rewrite length_fmap.
      * rewrite Totals.delete_code_length by done. case_decide; lia.
    + destruct r; rewrite ?Z.add_0_r; try done.
      * rewrite length_app, length_fmap. lia.
      * unfold Service.update_code. by rewrite length_fmap.
      * rewrite Totals.delete_code_length by done. case_decide; lia.
Qed.

(** C4 fails as stated: in the service one link is created, the stats
    route reports one link, the link is deleted, and the stats route
    reports none, while one record has been created. *)
Lemma total_decreases_on_delete :
  Service.links_posted [Sample.post_link "0xABC"] Service.empty = ["aaaaaa"]
  ∧ (Service.get_stats (Service.run [Sample.post_link "0xABC"] Service.empty)).1
    = Service.Json (Service.OfStats 1 0)
  ∧ (Service.get_stats
       (Service.run [Sample.post_link "0xABC"; Service.DeleteLink "aaaaaa"]
          Service.empty)).1
    = Service.Json (Service.OfStats 0 0).
Proof. split_and!; vm_compute; reflexivity. Qed.

(** C5, as the code has it.  The service's listing returns rows of the
    table whose creator is the given wallet, newest first, but at most
    10 of them: the 10 most recent when there are more.  The contract's
    listing returns short codes, not records: for every state reached
    from deployment, the codes of the records created by the given
    address, each once, in the order of their creation (oldest first). *)
Theorem list_by_owner :
  (∀ w db, ∃ rows rest,
     Service.get_user_links w db =
       (Service.Json (Service.OfLinks (Service.link_json <$> rows)), db)
     ∧ Forall (λ r, r ∈ Service.links db ∧ Service.l_creator r = w) rows
     ∧ StronglySorted (Service.newer_first Service.l_created_at) rows
     ∧ length rows =
         min 10 (length (filter (λ r, Service.l_creator r = w) (Service.links db)))
     ∧ rows ++ rest ≡ₚ filter (λ r, Service.l_creator r = w) (Service.links db)
     ∧ (∀ a b, a ∈ rows → b ∈ rest →
               (Service.l_created_at b ≤ Service.l_created_at a)%Z))
  ∧ (∀ w db, ∃ rows rest,
       Service.get_user_media w db =
         (Service.Json (Service.OfMediaList (Service.media_json <$> rows)), db)
       ∧ Forall (λ r, r ∈ Service.media db ∧ Service.m_creator r = w) rows
       ∧ StronglySorted (Service.newer_first Service.m_created_at) rows
       ∧ length rows =
           min 10 (length (filter (λ r, Service.m_creator r = w) (Service.media db)))
       ∧ rows ++ rest ≡ₚ filter (λ r, Service.m_creator r = w) (Service.media db)
       ∧ (∀ a b, a ∈ rows → b ∈ rest →
                 (Service.m_created_at b ≤ Service.m_created_at a)%Z))
  ∧ (∀ keccak256 ts u,
       let s := Contract.run keccak256 ts Contract.init in
       Contract.getUserLinks u s =
         Contract.Done (Contract.links_created_by keccak256 u ts Contract.init) [] s
       ∧ NoDup (Contract.links_created_by keccak256 u ts Contract.init)
       ∧ ∀ c, c ∈ Contract.links_created_by keccak256 u ts Contract.init ↔
              Contract.l_exists (Contract.links_at s c) = true
              ∧ Contract.l_creator (Contract.links_at s c) = u)
  ∧ (∀ keccak256 ts u,
       let s := Contract.run keccak256 ts Contract.init in
       Contract.getUserMedia u s =
         Contract.Done (Contract.medias_created_by keccak256 u ts Contract.init) [] s
       ∧ NoDup (Contract.medias_created_by keccak256 u ts Contract.init)
       ∧ ∀ c, c ∈ Contract.medias_created_by keccak256 u ts Contract.init ↔
              Contract.m_exists (Contract.media_at s c) = true
              ∧ Contract.m_creator (Contract.media_at s c) = u).
Proof.
  split_and!.
  - intros w db.
    destruct (Listing.page_spec Service.l_created_at (λ r, Service.l_creator r = w)
                10 (Service.links db)) as (H1 & H2 & H3 & H4 & H5).
    eexists _, _. split; [reflexivity|]. by split_and!.
  - intros w db.
    destruct (Listing.page_spec Service.m_created_at (λ r, Service.m_creator r = w)
                10 (Service.media db)) as (H1 & H2 & H3 & H4 & H5).
    eexists _, _. split; [reflexivity|]. by split_and!.
  - intros keccak256 ts u s.
    destruct (ContractListing.run_owned keccak256 ts Contract.init
                ContractFacts.init_wf ContractListing.init_owned) as (Hl & _ & Hn & _).
    fold s in Hl, Hn.
    assert (Contract.userLinks_at s u
            = Contract.links_created_by keccak256 u ts Contract.init) as Hu
      by (subst s; by rewrite ContractListing.run_userLinks_at).
    unfold Contract.getUserLinks. rewrite <- Hu. by split_and!.
  - intros keccak256 ts u s.
    destruct (ContractListing.run_owned keccak256 ts Contract.init
                ContractFacts.init_wf ContractListing.init_owned) as (_ & Hm & _ & Hn).
    fold s in Hm, Hn.
    assert (Contract.userMedia_at s u
            = Contract.medias_created_by keccak256 u ts Contract.init) as Hu
      by (subst s; by rewrite ContractListing.run_userMedia_at).
    unfold Contract.getUserMedia. rewrite <- Hu. by split_and!.
Qed.

(** C5 fails as stated.  In the service a wallet creates 11 links; its
    listing returns 10 of them.  In the contract an address creates two
    links a minute apart; its listing returns the two codes with the
    older one first. *)
Lemma listing_capped_and_oldest_first :
  length (filter (λ r, Service.l_creator r = "0xABC")
            (Service.links (Service.run Sample.eleven Service.empty))) = 11%nat
  ∧ (∃ js, (Service.get_user_links "0xABC" (Service.run Sample.eleven Service.empty)).1
           = Service.Json (Service.OfLinks js)
           ∧ length js = 10%nat)
  ∧ (∃ s, s = Contract.run Sample.hash
                [Sample.tx_at 1700000000 (Contract.CreateShortLink Sample.url);
                 Sample.tx_at 1700000060 (Contract.CreateShortLink Sample.url)]
                Contract.init
          ∧ Contract.getUserLinks 7%N s = Contract.Done ["JQbd1b"; "IRbd1b"] [] s
          ∧ Contract.l_createdAt (Contract.links_at s "JQbd1b") = 1700000000%N
          ∧ Contract.l_createdAt (Contract.links_at s "IRbd1b") = 1700000060%N).
Proof.
  split_and!.
  - vm_compute. reflexivity.
  - eexists. split; [vm_compute; reflexivity|]. reflexivity.
  - eexists. split; [reflexivity|]. split_and!.
    + vm_compute. reflexivity.
    + vm_compute. reflexivity.
    + vm_compute. reflexivity.
Qed.

(** ** Validation *)

Lemma length_zero_iff_empty (u : string) : String.length u = 0%nat ↔ u = EmptyString.
Proof. destruct u; cbn; split; intros; congruence. Qed.

Lemma contract_createShortLink_reverts keccak256 gas e u s :
  (∃ reason, Contract.createShortLink keccak256 gas e u s = Contract.Revert reason)
  ↔ u = EmptyString ∨ (2048 < String.length u)%nat.
Proof.
  rewrite <- length_zero_iff_empty. unfold Contract.createShortLink.
  destruct (0 <? String.length u)%nat eqn:H0; cbn [negb].
  - apply Nat.ltb_lt in H0.
    destruct (String.length u <=? 2048)%nat eqn:H1; cbn [negb].
    + apply Nat.leb_le in H1.
      destruct (Contract._generateShortCode _ _ _ _) as [c0 s0].
      destruct (Contract.unique_link _ _ _ _ _) as [[c1 s1]|]; split;
        try (intros [reason ?]; discriminate); lia.
    + apply Nat.leb_gt in H1. split; [intros _; lia|]. intros _. by eexists.
  - apply Nat.ltb_ge in H0. split; [intros _; lia|]. intros _. by eexists.
Qed.


Lemma service_post_links_400 fuel now rnd body db :
  (∃ msg db', Service.post_links fuel now rnd body db = Some (Service.Error 400 msg, db'))
  ↔ Service.truthy_str (Service.lb_originalUrl body) = false.
Proof.
  split.
  - intros (msg & db' & Hp).
    by apply ServiceFacts.post_links_cases in Hp as [(? & _)|(c & _ & _ & ? & _)].
  - intros Hu. unfold Service.post_links. rewrite Hu. cbn. by eexists _, _.
Qed.


(** C6 holds of the contract and not of the service: the contract's
    [createShortLink] reverts exactly on an empty URL and on one of more
    than 2048 bytes, whereas the service's [POST /api/links] answers 400
    exactly when [originalUrl] is missing or empty, and has no bound on
    the length.  A URL of 2049 characters, which the contract refuses as
    too long, is stored by the service. *)
Theorem service_accepts_long_url :
  (∀ keccak256 gas e u s,
     (∃ reason, Contract.createShortLink keccak256 gas e u s = Contract.Revert reason)
     ↔ u = EmptyString ∨ (2048 < String.length u)%nat)
  ∧ (∀ fuel now rnd body db,
       (∃ msg db', Service.post_links fuel now rnd body db
                   = Some (Service.Error 400 msg, db'))
       ↔ Service.truthy_str (Service.lb_originalUrl body) = false)
  ∧ String.length Sample.long_url = 2049%nat
  ∧ Contract.createShortLink Sample.hash 3 Sample.env Sample.long_url Contract.init
    = Contract.Revert "URL too long"
  ∧ Service.post_links 0 1700000000123 Sample.step_rnd
      (Service.mkLinkBody (Some Sample.long_url) None) Service.empty
    = Some (Service.Json (Service.OfLink
              (Service.mkLinkJson "aaaaaa" (Some Sample.long_url) "anonymous"
                 1700000000 0)),
            Service.mkDB
              [Service.mkLinkRow 1 "aaaaaa" Sample.long_url "anonymous" 1700000000 0]
              1 [] 0).
Proof.
  split_and!.
  - apply contract_createShortLink_reverts.
  - apply service_post_links_400.
  - vm_compute. reflexivity.
  - vm_compute. reflexivity.
  - vm_compute. reflexivity.
Qed.

(** The creation handlers on any JSON body. *)
Module WireFacts.
Import Wire.

Local Open Scope Z_scope.

Lemma truthy_of_string o : truthy (of_string o) = Service.truthy_str o.
Proof. by destruct o. Qed.

Lemma truthy_of_number o : truthy (of_number o) = Service.truthy_num o.
Proof. by destruct o. Qed.

Lemma bind_creator o :
  bind_text (or_anonymous (of_string o)) = Binds (Service.creator_or_anonymous o).
Proof.
  unfold or_anonymous, Service.creator_or_anonymous. rewrite truthy_of_string.
  destruct (Service.truthy_str o) eqn:Ho; [|reflexivity].
  destruct o; [reflexivity|discriminate].
Qed.

(** On the bodies of [Service] the two handlers are one. *)
Lemma post_links_typed fuel now rnd b db :
  post_links fuel now rnd (of_link_body b) db =
  of_answer (Service.post_links fuel now rnd b db).
Proof.
  unfold post_links, Service.post_links, of_link_body.
  cbn [lb_originalUrl lb_creator]. rewrite truthy_of_string.
  destruct (Service.truthy_str (Service.lb_originalUrl b)) eqn:Hu; cbn [negb];
    [|reflexivity].
  destruct (Service.unique_code _ _ _ _ _ _) as [c|]; [|reflexivity].
  cbv zeta. rewrite bind_creator.
  destruct (Service.lb_originalUrl b) as [u|]; [|discriminate].
  cbn [of_string bind_text both default].
  by destruct (Service.insert_row _ _ _).
Qed.

Lemma post_media_typed fuel now rnd b db :
  safe_size b →
  post_media fuel now rnd (of_media_body b) db =
  of_answer (Service.post_media fuel now rnd b db).
Proof.
  intros Hsafe. unfold post_media, Service.post_media, of_media_body.
  cbn [mb_ipfsHash mb_fileName mb_fileType mb_fileSize mb_creator].
  rewrite !truthy_of_string, truthy_of_number.
  destruct (Service.truthy_str (Service.mb_ipfsHash b)) eqn:Hh,
    (Service.truthy_str (Service.mb_fileName b)) eqn:Hn,
    (Service.truthy_str (Service.mb_fileType b)) eqn:Hty,
    (Service.truthy_num (Service.mb_fileSize b)) eqn:Hsz; cbn [negb orb];
    try reflexivity.
  destruct (Service.unique_code _ _ _ _ _ _) as [c|]; [|reflexivity].
  cbv zeta. rewrite bind_creator.
  destruct (Service.mb_ipfsHash b) as [h|]; [|discriminate].
  destruct (Service.mb_fileName b) as [n|]; [|discriminate].
  destruct (Service.mb_fileType b) as [ty|]; [|discriminate].
  destruct (Service.mb_fileSize b) as [sz|] eqn:Hb; [|discriminate].
  specialize (Hsafe sz Hb).
  cbn [of_string of_number bind_text bind_integer both default].
  destruct (Z.leb_spec (- MAX_SAFE_INTEGER) sz); [|lia].
  destruct (Z.leb_spec sz MAX_SAFE_INTEGER); [|lia].
  cbn [andb both].
  by destruct (Service.insert_row _ _ _).
Qed.


Lemma post_links_400 fuel now rnd body db :
  (∃ msg db', post_links fuel now rnd body db = Answered (Service.Error 400 msg) db')
  ↔ truthy (lb_originalUrl body) = false.
Proof.
  unfold post_links. destruct (truthy (lb_originalUrl body)); cbn [negb].
  - split; [|discriminate]. intros (msg & db' & H). exfalso. revert H.
    destruct (Service.unique_code _ _ _ _ _ _) as [c|]; [|discriminate].
    cbv zeta. destruct (both _ _) as [[u cr]| |]; try discriminate.
    by destruct (Service.insert_row _ _ _).
  - split; [done|]. intros _. by eexists _, _.
Qed.

Lemma both_Binds {A B} (x : Bound A) (y : Bound B) a b :
  both x y = Binds (a, b) ↔ x = Binds a ∧ y = Binds b.
Proof.
  destruct x, y; cbn; (split; [intros H; split; congruence|intros [? ?]; congruence]).
Qed.

Lemma both_Throws {A B} (x : Bound A) (y : Bound B) :
  both x y = Throws ↔ x = Throws ∨ y = Throws.
Proof. destruct x, y; cbn; split; intuition discriminate. Qed.

Lemma bind_text_Binds v s : bind_text v = Binds s ↔ v = Str s.
Proof. destruct v; cbn; split; congruence. Qed.

Lemma bind_text_Throws v : bind_text v = Throws ↔ ∃ b, v = Bool b.
Proof.
  destruct v; cbn; split; try discriminate; try (intros [? ?]; discriminate).
  - by eexists.
  - done.
Qed.

Lemma bind_integer_Binds v z :
  bind_integer v = Binds z ↔ v = Int z ∧ - MAX_SAFE_INTEGER ≤ z ≤ MAX_SAFE_INTEGER.
Proof.
  destruct v as [| | |z'| | | |]; cbn; try (split; [discriminate|intros [? _]; discriminate]).
  destruct (Z.leb_spec (- MAX_SAFE_INTEGER) z'), (Z.leb_spec z' MAX_SAFE_INTEGER);
    cbn; split; try discriminate.
  - intros [= ->]. split; [done|lia].
  - intros [[= ->] _]. done.
  - intros [[= ->] ?]. lia.
  - intros [[= ->] ?]. lia.
  - intros [[= ->] ?]. lia.
Qed.

Lemma bind_integer_Throws v : bind_integer v = Throws ↔ ∃ b, v = Bool b.
Proof.
  destruct v as [| | |z'| | | |]; cbn; split; try discriminate;
    try (intros [? ?]; discriminate).
  - by eexists.
  - done.
  - by destruct (_ && _).
Qed.

Lemma or_anonymous_Bool creator b :
  or_anonymous creator = Bool b ↔ creator = Bool true ∧ b = true.
Proof.
  unfold or_anonymous. destruct creator as [| |[|]| | | | |]; cbn; split;
    try discriminate; try (intros [? ?]; discriminate); try (intros [= <-]; done).
  - by intros [_ ->].
  - by destruct (negb _).
  - by destruct (negb _).
Qed.

(** What an answered [POST /api/links] has done. *)
Lemma wire_post_links_cases fuel now rnd body db resp db' :
  post_links fuel now rnd body db = Answered resp db' →
  (truthy (lb_originalUrl body) = false
   ∧ resp = Service.Error 400 "Original URL is required" ∧ db' = db)
  ∨ ((lb_originalUrl body = Bool true ∨ lb_creator body = Bool true)
     ∧ resp = Service.Error 500 "Failed to create short link" ∧ db' = db)
  ∨ (∃ c u cr,
       lb_originalUrl body = Str u ∧ u ≠ EmptyString
       ∧ or_anonymous (lb_creator body) = Str cr
       ∧ (c ∉ Service.l_short_code <$> Service.links db)
       ∧ resp = Service.Json
                  (Service.OfLink (Service.mkLinkJson c (Some u) cr (now / 1000) 0))
       ∧ db' = Service.set_links db
                 (Service.links db ++
                    [Service.mkLinkRow (Service.links_seq db + 1) c u cr (now / 1000) 0])
                 (Service.links_seq db + 1)).
Proof.
  unfold post_links. destruct (truthy (lb_originalUrl body)) eqn:Hu; cbn [negb].
  - destruct (Service.unique_code _ _ _ _ _ _) as [c|] eqn:Hc; [|discriminate].
    apply ServiceFacts.unique_code_free in Hc. cbv zeta.
    destruct (both _ _) as [[u cr]| |] eqn:Hb; [| |discriminate].
    + apply both_Binds in Hb as [Hb1%bind_text_Binds Hb2%bind_text_Binds].
      rewrite ServiceFacts.insert_row_free by done. intros [= <- <-].
      right; right. exists c, u, cr. split_and!; try done.
      * intros ->. rewrite Hb1 in Hu. discriminate.
      * by apply ServiceFacts.select_code_None.
    + apply both_Throws in Hb as [[b Hb]%bind_text_Throws|[b Hb]%bind_text_Throws].
      * intros [= <- <-]. right; left. split; [|done]. left.
        rewrite Hb in Hu |- *. cbn in Hu. by subst b.
      * intros [= <- <-]. right; left. split; [|done]. right.
        by apply or_anonymous_Bool in Hb as [-> _].
  - intros [= <- <-]. by left.
Qed.

(** What an answered [POST /api/media] has done. *)
Lemma wire_post_media_cases fuel now rnd body db resp db' :
  post_media fuel now rnd body db = Answered resp db' →
  ((truthy (mb_ipfsHash body) = false ∨ truthy (mb_fileName body) = false
    ∨ truthy (mb_fileType body) = false ∨ truthy (mb_fileSize body) = false)
   ∧ resp = Service.Error 400 "Missing required fields" ∧ db' = db)
  ∨ ((mb_ipfsHash body = Bool true ∨ mb_fileName body = Bool true
      ∨ mb_fileType body = Bool true ∨ mb_fileSize body = Bool true
      ∨ mb_creator body = Bool true)
     ∧ resp = Service.Error 500 "Failed to save media metadata" ∧ db' = db)
  ∨ (∃ c h n ty sz cr,
       mb_ipfsHash body = Str h ∧ mb_fileName body = Str n
       ∧ mb_fileType body = Str ty ∧ mb_fileSize body = Int sz
       ∧ or_anonymous (mb_creator body) = Str cr
       ∧ (c ∉ Service.m_short_code <$> Service.media db)
       ∧ resp = Service.Json
                  (Service.OfMedia
                     (Service.mkMediaJson c (Some h) (Some n) (Some ty) (Some sz) cr
                        (now / 1000) 0))
       ∧ db' = Service.set_media db
                 (Service.media db ++
                    [Service.mkMediaRow (Service.media_seq db + 1) c h n ty sz cr
                       (now / 1000) 0])
                 (Service.media_seq db + 1)).
Proof.
  unfold post_media.
  destruct (truthy (mb_ipfsHash body)) eqn:Hh, (truthy (mb_fileName body)) eqn:Hn,
    (truthy (mb_fileType body)) eqn:Hty, (truthy (mb_fileSize body)) eqn:Hsz;
    cbn [negb orb]; try (intros [= <- <-]; left; split; [tauto|done]).
  destruct (Service.unique_code _ _ _ _ _ _) as [c|] eqn:Hc; [|discriminate].
  apply ServiceFacts.unique_code_free in Hc. cbv zeta.
  destruct (both _ _) as [[h [n [ty [sz cr]]]]| |] eqn:Hb; [| |discriminate].
  - apply both_Binds in Hb as [Hb1%bind_text_Binds Hb].
    apply both_Binds in Hb as [Hb2%bind_text_Binds Hb].
    apply both_Binds in Hb as [Hb3%bind_text_Binds Hb].
    apply both_Binds in Hb as [[Hb4 _]%bind_integer_Binds Hb5%bind_text_Binds].
    rewrite ServiceFacts.insert_row_free by done. intros [= <- <-].
    right; right. exists c, h, n, ty, sz, cr. split_and!; try done.
    by apply ServiceFacts.select_code_None.
  - intros [= <- <-]. right; left. split; [|done].
    assert (Hbool : ∀ v b, truthy v = true → v = Bool b → v = Bool true).
    { intros v b Hv ->. cbn in Hv. by subst b. }
    apply both_Throws in Hb as [[b Hb]%bind_text_Throws|Hb]; [eauto 6|].
    apply both_Throws in Hb as [[b Hb]%bind_text_Throws|Hb]; [eauto 6|].
    apply both_Throws in Hb as [[b Hb]%bind_text_Throws|Hb]; [eauto 6|].
    apply both_Throws in Hb as [[b Hb]%bind_integer_Throws|[b Hb]%bind_text_Throws];
      [eauto 7|].
    apply or_anonymous_Bool in Hb as [-> _]. tauto.
Qed.


Lemma wire_post_links_first fuel now rnd u creator cr db :
  u ≠ EmptyString → or_anonymous creator = Str cr →
  Service.generateShortCode rnd 0 ∉ Service.l_short_code <$> Service.links db →
  post_links fuel now rnd (mkLinkBody (Str u) creator) db =
  Answered
    (Service.Json
       (Service.OfLink
          (Service.mkLinkJson (Service.generateShortCode rnd 0) (Some u) cr
             (now / 1000) 0)))
    (Service.set_links db
       (Service.links db ++
          [Service.mkLinkRow (Service.links_seq db + 1) (Service.generateShortCode rnd 0)
             u cr (now / 1000) 0])
       (Service.links_seq db + 1)).
Proof.
  intros Hu Hcr Hfree%ServiceFacts.select_code_None.
  unfold post_links. cbn [lb_originalUrl lb_creator truthy].
  destruct (String.eqb_spec u EmptyString); [done|]. cbn [negb].
  rewrite (ServiceFacts.unique_code_first _ _ _ _ _ _ Hfree). cbv zeta.
  rewrite Hcr. cbn [bind_text both]. by rewrite ServiceFacts.insert_row_free.
Qed.

End WireFacts.



(** C3, as the code has it: both generators return six symbols of the
    alphabet.  In the contract they are the six low base-62 digits of the
    seed; in the service each symbol is a function of its own random
    byte, [chars[b mod 62]], so that the symbols are independent for
    independent bytes, but not uniform: of the 256 byte values (listed
    once each in [all_bytes]), five map to each of the first eight
    symbols [a..h] and four to each of the other 54. *)
Theorem generator_six_symbols_modulo_62 :
  (∀ keccak256 e ct s,
     let code := (Contract._generateShortCode keccak256 e ct s).1 in
     let seed := keccak256 (Contract.block_timestamp e) (Contract.block_prevrandao e)
                   (Contract.msg_sender e)
                   (match ct with
                    | Contract.LINK => Contract.increment (Contract._linkCounter s)
                    | Contract.MEDIA => Contract.increment (Contract._mediaCounter s)
                    end) in
     is_code code ∧
     list_ascii_of_string code =
       map (λ i, char_at (N.to_nat ((seed / 62 ^ N.of_nat i) mod 62)%N)) (seq 0 6))
  ∧ (∀ rnd pos,
       is_code (Service.generateShortCode rnd pos) ∧
       list_ascii_of_string (Service.generateShortCode rnd pos) =
         map (λ i, Service.pick (rnd (pos + i)%nat)) (seq 0 6))
  ∧ (NoDup all_bytes ∧ (∀ b, b ∈ all_bytes) ∧ length all_bytes = 256%nat)
  ∧ map preimages alphabet = (replicate 8 5%nat ++ replicate 54 4%nat)%list.
Proof.
  split; [|split; [|split]].
  - intros keccak256 e ct s code seed. split; [apply contract_code_is_code|].
    subst code seed. unfold Contract._generateShortCode; cbn [fst].
    rewrite list_ascii_of_string_of_list_ascii, fill_digits.
    by destruct ct.
  - intros rnd pos. split; [apply service_code_is_code | apply service_code_symbols].
  - split; [apply all_bytes_NoDup|]. split; [apply all_bytes_complete|reflexivity].
  - vm_compute. reflexivity.
Qed.

(** C3 fails as stated: with a uniform random byte the symbol [a] is
    chosen by five of the 256 byte values and the symbol [i] by four, so
    the 62 symbols are not equally likely. *)
Lemma generator_not_uniform :
  "a"%char ∈ alphabet ∧ "i"%char ∈ alphabet ∧
  preimages "a" = 5%nat ∧ preimages "i" = 4%nat.
Proof.
  split; [apply (char_at_alphabet 0); lia|].
  split; [apply (char_at_alphabet 8); lia|].
  split; vm_compute; reflexivity.
Qed.

(** C8, as the code has it: the contract's generator leaves the records
    and the per-user lists alone but increments the counter of the
    namespace it is called for (the counter is part of the seed), and its
    result does not depend on the stored records: it makes no uniqueness
    check.  The service's generator is a function of its entropy alone;
    it has no access to the database. *)
Theorem generator_frame keccak256 e ct s :
  let s' := (Contract._generateShortCode keccak256 e ct s).2 in
  Contract.links s' = Contract.links s
  ∧ Contract.media s' = Contract.media s
  ∧ Contract.userLinks s' = Contract.userLinks s
  ∧ Contract.userMedia s' = Contract.userMedia s
  ∧ Contract._linkCounter s' =
      match ct with
      | Contract.LINK => Contract.increment (Contract._linkCounter s)
      | Contract.MEDIA => Contract._linkCounter s
      end
  ∧ Contract._mediaCounter s' =
      match ct with
      | Contract.LINK => Contract._mediaCounter s
      | Contract.MEDIA => Contract.increment (Contract._mediaCounter s)
      end
  ∧ ∀ l m ul um,
      (Contract._generateShortCode keccak256 e ct
         (Contract.mkState (Contract._linkCounter s) (Contract._mediaCounter s) l m ul um)).1
      = (Contract._generateShortCode keccak256 e ct s).1.
Proof. destruct ct; cbn; repeat split; reflexivity. Qed.

(** C8 fails as stated: on the freshly deployed contract one call of the
    generator for the link namespace moves the link counter from 0 to 1. *)
Lemma generator_increments_counter :
  Contract._linkCounter Contract.init = 0%N ∧
  Contract._linkCounter
    (Contract._generateShortCode Sample.hash Sample.env Contract.LINK Contract.init).2
  = 1%N.
Proof. split; reflexivity. Qed.

(** C10: any sequence of non-counting reads ([getLinkData],
    [getMediaData] of the contract; [GET /api/links/:shortCode],
    [GET /api/media/:shortCode] of the service), in any order, leaves the
    whole registry state as it was, so no counter moves, and a read gives
    after the sequence the result it gave before it. *)
Theorem peek_pure_idempotent :
  (∀ keccak256 ts s c,
     forallb (λ t, Contract.is_peek (Contract.tx_call t)) ts = true →
     Contract.run keccak256 ts s = s
     ∧ Contract.getLinkData c (Contract.run keccak256 ts s) = Contract.getLinkData c s
     ∧ Contract.getMediaData c (Contract.run keccak256 ts s) = Contract.getMediaData c s)
  ∧ (∀ rs db c,
       forallb Service.is_peek rs = true →
       Service.run rs db = db
       ∧ Service.get_link c (Service.run rs db) = Service.get_link c db
       ∧ Service.get_media c (Service.run rs db) = Service.get_media c db).
Proof.
  split.
  - intros keccak256 ts s c H. by rewrite contract_peek_run.
  - intros rs db c H. by rewrite service_peek_run.
Qed.

(** ** The claims on concrete runs *)

(** Non-counting reads after one creation in the service. *)
Lemma peek_pure_idempotent_witness :
  Service.run
    [Service.GetLink "aaaaaa"; Service.GetMedia "aaaaaa"; Service.GetLink "aaaaaa"]
    (Service.run [Sample.post_link "0xABC"] Service.empty)
  = Service.run [Sample.post_link "0xABC"] Service.empty
  ∧ Service.get_link "aaaaaa"
      (Service.run
         [Service.GetLink "aaaaaa"; Service.GetMedia "aaaaaa"; Service.GetLink "aaaaaa"]
         (Service.run [Sample.post_link "0xABC"] Service.empty))
    = Service.get_link "aaaaaa" (Service.run [Sample.post_link "0xABC"] Service.empty)
  ∧ Service.get_media "aaaaaa"
      (Service.run
         [Service.GetLink "aaaaaa"; Service.GetMedia "aaaaaa"; Service.GetLink "aaaaaa"]
         (Service.run [Sample.post_link "0xABC"] Service.empty))
    = Service.get_media "aaaaaa" (Service.run [Sample.post_link "0xABC"] Service.empty).
Proof.
  destruct peek_pure_idempotent as [_ H]. apply H. reflexivity.
Defined.

(** The same entropy forced into both namespaces of the service: the
    code [aaaaaa], already a media code, becomes a link code as well. *)
Lemma namespaces_independent_witness :
  ∃ j db',
    Service.post_links 0 1700000000123 Sample.step_rnd
      (Service.mkLinkBody (Some Sample.url) (Some "0xABC"))
      (Service.run [Sample.post_media "0xABC"] Service.empty)
    = Some (Service.Json (Service.OfLink j), db')
    ∧ Service.lj_shortCode j = "aaaaaa"
    ∧ "aaaaaa" ∈ Service.l_short_code <$> Service.links db'
    ∧ "aaaaaa" ∈ Service.m_short_code <$> Service.media db'.
Proof.
  destruct namespaces_independent as (_ & _ & _ & _ & _ & _ & H & _).
  apply (H 1700000000123%Z Sample.step_rnd
           (Service.mkLinkBody (Some Sample.url) (Some "0xABC"))
           (Service.run [Sample.post_media "0xABC"] Service.empty)).
  - reflexivity.
  - vm_compute. left.
  - vm_compute. intros Hin. inversion Hin.
Defined.

(** The first creation on the freshly deployed contract moves the total
    from 0 to 1. *)
Lemma totals_as_counted_witness :
  Contract._linkCounter
    (Contract.state_after Contract.init
       (Contract.createShortLink Sample.hash 3 Sample.env Sample.url Contract.init))
  = (0 + 1)%N.
Proof.
  destruct totals_as_counted as (_ & H & _).
  apply (H Sample.hash 3%nat Sample.env Sample.url Contract.init).
  - vm_compute. lia.
  - reflexivity.
  - reflexivity.
Defined.


(** * Further properties of the contract *)

Module ContractMore.
Import Contract.

Local Open Scope N_scope.

Section WithHash.
Variable keccak256 : N → N → address → N → N.

(** X1: A link that has just been created reads back as it was written: the
    peek returns the URL, the sender and the block timestamp with no
    click, the code exists, and a resolve by anyone returns the URL,
    logs the access and leaves the counter at 1. *)
Theorem link_round_trip gas e u s c log s' e2 :
  createShortLink keccak256 gas e u s = Done c log s' →
  log = [LinkCreated c u (msg_sender e)]
  ∧ getLinkData c s' = Done (u, msg_sender e, block_timestamp e, 0) [] s'
  ∧ linkExists c s' = Done true [] s'
  ∧ ∃ s'', getLink e2 c s' = Done u [LinkAccessed c (msg_sender e2)] s''
           ∧ getLinkData c s'' = Done (u, msg_sender e, block_timestamp e, 1) [] s''.
Proof.
  intros Hc.
  assert (Hlog : log = [LinkCreated c u (msg_sender e)]).
  { unfold createShortLink in Hc.
    destruct (negb _); [discriminate|]. destruct (negb _); [discriminate|].
    destruct (_generateShortCode _ _ _ _) as [c0 s0].
    destruct (unique_link _ _ _ _ _) as [[c1 s1]|]; [|discriminate].
    by injection Hc as <- <- _. }
  apply ContractFacts.createShortLink_Done in Hc as (_ & _ & Hl & _).
  assert (Hr : links_at s' c = mkLinkData u (msg_sender e) (block_timestamp e) 0 true)
    by (rewrite (ContractFacts.links_at_insert _ _ _ _ _ Hl); by rewrite decide_True).
  split; [done|]. split; [unfold getLinkData; by rewrite Hr|].
  split; [unfold linkExists; by rewrite Hr|].
  unfold getLink; cbv zeta. rewrite Hr. cbn [l_exists l_clicks negb].
  replace (0 =? uint256_max) with false by reflexivity.
  eexists. split.
  - unfold links_at at 1. cbn [links]. rewrite lookup_insert_eq. reflexivity.
  - unfold getLinkData, links_at. cbn [links]. rewrite lookup_insert_eq. reflexivity.
Qed.

(** X2: The same for a media record: the peek returns the seven stored
    fields with no view, and a counting read returns the four
    descriptive fields and leaves the counter at 1. *)
Theorem media_round_trip gas e h n ty sz s c log s' e2 :
  uploadMedia keccak256 gas e h n ty sz s = Done c log s' →
  log = [MediaUploaded c h n (msg_sender e)]
  ∧ getMediaData c s' =
      Done (h, n, ty, sz, msg_sender e, block_timestamp e, 0) [] s'
  ∧ mediaExists c s' = Done true [] s'
  ∧ ∃ s'', getMedia e2 c s' = Done (h, n, ty, sz) [MediaAccessed c (msg_sender e2)] s''
           ∧ getMediaData c s'' =
               Done (h, n, ty, sz, msg_sender e, block_timestamp e, 1) [] s''.
Proof.
  intros Hc.
  assert (Hlog : log = [MediaUploaded c h n (msg_sender e)]).
  { unfold uploadMedia in Hc.
    destruct (negb _); [discriminate|]. destruct (negb _); [discriminate|].
    destruct (_generateShortCode _ _ _ _) as [c0 s0].
    destruct (unique_media _ _ _ _ _) as [[c1 s1]|]; [|discriminate].
    by injection Hc as <- <- _. }
  apply ContractFacts.uploadMedia_Done in Hc as (_ & _ & _ & Hm & _).
  assert (Hr : media_at s' c =
               mkMediaData h n ty sz (msg_sender e) (block_timestamp e) 0 true)
    by (rewrite (ContractFacts.media_at_insert _ _ _ _ _ Hm); by rewrite decide_True).
  split; [done|]. split; [unfold getMediaData; by rewrite Hr|].
  split; [unfold mediaExists; by rewrite Hr|].
  unfold getMedia; cbv zeta. rewrite Hr. cbn [m_exists m_views negb].
  replace (0 =? uint256_max) with false by reflexivity.
  eexists. split.
  - unfold media_at at 1 2 3 4. cbn [media]. rewrite lookup_insert_eq. reflexivity.
  - unfold getMediaData, media_at. cbn [media]. rewrite lookup_insert_eq. reflexivity.
Qed.

Lemma exec_link_exists t s c :
  l_exists (links_at (exec keccak256 t s) c) = true ↔
  l_exists (links_at s c) = true ∨ c ∈ link_created keccak256 t s.
Proof.
  rewrite ContractFacts.exec_links_at. unfold link_created.
  destruct (tx_call t) as [u|h n ty sz|c0|c0|c0|c0|a|a| | |c0|c0];
    try (rewrite elem_of_nil; tauto).
  - destruct (createShortLink _ _ _ _ _) as [c1 log s2| |];
      try (rewrite elem_of_nil; tauto).
    rewrite list_elem_of_singleton. case_decide; cbn [l_exists]; intuition congruence.
  - rewrite elem_of_nil.
    pose proof (ContractListing.getLink_succeeded (tx_env t) c0 s) as Hs.
    destruct (succeeded _); cbn [andb]; [|tauto].
    case_bool_decide; cbn [l_exists]; subst; intuition congruence.
Qed.

Lemma exec_media_exists t s c :
  m_exists (media_at (exec keccak256 t s) c) = true ↔
  m_exists (media_at s c) = true ∨ c ∈ media_created keccak256 t s.
Proof.
  rewrite ContractFacts.exec_media_at. unfold media_created.
  destruct (tx_call t) as [u|h n ty sz|c0|c0|c0|c0|a|a| | |c0|c0];
    try (rewrite elem_of_nil; tauto).
  - destruct (uploadMedia _ _ _ _ _ _ _ _) as [c1 log s2| |];
      try (rewrite elem_of_nil; tauto).
    rewrite list_elem_of_singleton. case_decide; cbn [m_exists]; intuition congruence.
  - rewrite elem_of_nil.
    pose proof (ContractListing.getMedia_succeeded (tx_env t) c0 s) as Hs.
    destruct (succeeded _); cbn [andb]; [|tauto].
    case_bool_decide; cbn [m_exists]; subst; intuition congruence.
Qed.

Lemma run_link_exists ts s c :
  l_exists (links_at (run keccak256 ts s) c) = true ↔
  l_exists (links_at s c) = true ∨ c ∈ links_created keccak256 ts s.
Proof.
  revert s; induction ts as [|t ts IH]; intros s.
  - cbn. rewrite elem_of_nil. tauto.
  - unfold run, links_created in *. cbn [foldl collect].
    rewrite IH, exec_link_exists, elem_of_app. tauto.
Qed.

Lemma run_media_exists ts s c :
  m_exists (media_at (run keccak256 ts s) c) = true ↔
  m_exists (media_at s c) = true ∨ c ∈ medias_created keccak256 ts s.
Proof.
  revert s; induction ts as [|t ts IH]; intros s.
  - cbn. rewrite elem_of_nil. tauto.
  - unfold run, medias_created in *. cbn [foldl collect].
    rewrite IH, exec_media_exists, elem_of_app. tauto.
Qed.

(** X3: On the contract as deployed and run by any transactions, a code
    exists exactly when a successful creation of that namespace has
    handed it out; for any other code both reads revert with the
    not-found reason. *)
Theorem exists_iff_created ts c e :
  let s := run keccak256 ts init in
  linkExists c s = Done (bool_decide (c ∈ links_created keccak256 ts init)) [] s
  ∧ mediaExists c s = Done (bool_decide (c ∈ medias_created keccak256 ts init)) [] s
  ∧ (c ∉ links_created keccak256 ts init →
     getLinkData c s = Revert "Link does not exist"
     ∧ getLink e c s = Revert "Link does not exist")
  ∧ (c ∉ medias_created keccak256 ts init →
     getMediaData c s = Revert "Media does not exist"
     ∧ getMedia e c s = Revert "Media does not exist").
Proof.
  intros s.
  assert (Hl : l_exists (links_at s c) = bool_decide (c ∈ links_created keccak256 ts init)).
  { pose proof (run_link_exists ts init c) as H. fold s in H.
    replace (l_exists (links_at init c)) with false in H by reflexivity.
    destruct (decide (c ∈ links_created keccak256 ts init));
      [rewrite bool_decide_true by done|rewrite bool_decide_false by done];
      destruct (l_exists (links_at s c)); intuition congruence. }
  assert (Hm : m_exists (media_at s c) = bool_decide (c ∈ medias_created keccak256 ts init)).
  { pose proof (run_media_exists ts init c) as H. fold s in H.
    replace (m_exists (media_at init c)) with false in H by reflexivity.
    destruct (decide (c ∈ medias_created keccak256 ts init));
      [rewrite bool_decide_true by done|rewrite bool_decide_false by done];
      destruct (m_exists (media_at s c)); intuition congruence. }
  split_and!.
  - unfold linkExists. by rewrite Hl.
  - unfold mediaExists. by rewrite Hm.
  - intros Hc. rewrite bool_decide_false in Hl by done.
    unfold getLinkData, getLink. by rewrite Hl.
  - intros Hc. rewrite bool_decide_false in Hm by done.
    unfold getMediaData, getMedia. by rewrite Hm.
Qed.

(** X4: A record, once created, keeps its URL (resp. its content fields),
    its creator and its creation time over any transactions; only its
    counter moves, and it never ceases to exist. *)
Theorem record_immutable ts s c :
  (l_exists (links_at s c) = true →
   let r := links_at s c in
   let r' := links_at (run keccak256 ts s) c in
   l_originalUrl r' = l_originalUrl r ∧ l_creator r' = l_creator r
   ∧ l_createdAt r' = l_createdAt r ∧ l_exists r' = true)
  ∧ (m_exists (media_at s c) = true →
     let r := media_at s c in
     let r' := media_at (run keccak256 ts s) c in
     m_ipfsHash r' = m_ipfsHash r ∧ m_fileName r' = m_fileName r
     ∧ m_fileType r' = m_fileType r ∧ m_fileSize r' = m_fileSize r
     ∧ m_creator r' = m_creator r ∧ m_createdAt r' = m_createdAt r
     ∧ m_exists r' = true).
Proof.
  split.
  - revert s. induction ts as [|t ts IH]; intros s Hex; [done|].
    cbn zeta in *. change (run keccak256 (t :: ts) s) with (run keccak256 ts (exec keccak256 t s)).
    assert (Hstep : l_originalUrl (links_at (exec keccak256 t s) c) = l_originalUrl (links_at s c)
                    ∧ l_creator (links_at (exec keccak256 t s) c) = l_creator (links_at s c)
                    ∧ l_createdAt (links_at (exec keccak256 t s) c) = l_createdAt (links_at s c)).
    { rewrite ContractFacts.exec_links_at.
      destruct (tx_call t) as [u|h n ty sz|c0|c0|c0|c0|a|a| | |c0|c0]; try done.
      - destruct (createShortLink _ _ _ _ _) as [c1 log s2| |] eqn:Hc; try done.
        case_decide as Hc1; [|done]. subst c1.
        apply ContractFacts.createShortLink_Done in Hc as (_ & Hf & _). congruence.
      - by destruct (_ && _). }
    destruct Hstep as (H1 & H2 & H3).
    destruct (IH (exec keccak256 t s)) as (? & ? & ? & ?);
      [by apply ContractFacts.exec_link_stays|].
    split_and!; congruence.
  - revert s. induction ts as [|t ts IH]; intros s Hex; [done|].
    cbn zeta in *. change (run keccak256 (t :: ts) s) with (run keccak256 ts (exec keccak256 t s)).
    assert (Hstep : m_ipfsHash (media_at (exec keccak256 t s) c) = m_ipfsHash (media_at s c)
                    ∧ m_fileName (media_at (exec keccak256 t s) c) = m_fileName (media_at s c)
                    ∧ m_fileType (media_at (exec keccak256 t s) c) = m_fileType (media_at s c)
                    ∧ m_fileSize (media_at (exec keccak256 t s) c) = m_fileSize (media_at s c)
                    ∧ m_creator (media_at (exec keccak256 t s) c) = m_creator (media_at s c)
                    ∧ m_createdAt (media_at (exec keccak256 t s) c) = m_createdAt (media_at s c)).
    { rewrite ContractFacts.exec_media_at.
      destruct (tx_call t) as [u|h n ty sz|c0|c0|c0|c0|a|a| | |c0|c0]; try done.
      - destruct (uploadMedia _ _ _ _ _ _ _ _) as [c1 log s2| |] eqn:Hc; try done.
        case_decide as Hc1; [|done]. subst c1.
        apply ContractFacts.uploadMedia_Done in Hc as (_ & _ & Hf & _). congruence.
      - by destruct (_ && _). }
    destruct Hstep as (H1 & H2 & H3 & H4 & H5 & H6).
    destruct (IH (exec keccak256 t s)) as (? & ? & ? & ? & ? & ? & ?);
      [by apply ContractFacts.exec_media_stays|].
    split_and!; congruence.
Qed.

Lemma unique_link_is_code gas e c s c' s' :
  unique_link keccak256 gas e c s = Some (c', s') → is_code c → is_code c'.
Proof.
  revert c s. induction gas as [|gas IH]; intros c s; cbn [unique_link];
    destruct (l_exists (links_at s c)); try discriminate; try (by intros [= <- <-]).
  destruct (_generateShortCode keccak256 e LINK s) as [c1 s1] eqn:Hg.
  intros Hu _. apply (IH _ _ Hu).
  replace c1 with (_generateShortCode keccak256 e LINK s).1 by (by rewrite Hg).
  apply contract_code_is_code.
Qed.

Lemma unique_media_is_code gas e c s c' s' :
  unique_media keccak256 gas e c s = Some (c', s') → is_code c → is_code c'.
Proof.
  revert c s. induction gas as [|gas IH]; intros c s; cbn [unique_media];
    destruct (m_exists (media_at s c)); try discriminate; try (by intros [= <- <-]).
  destruct (_generateShortCode keccak256 e MEDIA s) as [c1 s1] eqn:Hg.
  intros Hu _. apply (IH _ _ Hu).
  replace c1 with (_generateShortCode keccak256 e MEDIA s).1 by (by rewrite Hg).
  apply contract_code_is_code.
Qed.

Lemma link_created_is_code t s : Forall is_code (link_created keccak256 t s).
Proof.
  unfold link_created. destruct (tx_call t); try constructor.
  unfold createShortLink.
  destruct (negb _); [constructor|]. destruct (negb _); [constructor|].
  destruct (_generateShortCode keccak256 (tx_env t) LINK s) as [c0 s0] eqn:Hg.
  destruct (unique_link _ _ _ _ _) as [[c1 s1]|] eqn:Hu; [|constructor].
  apply Forall_singleton, (unique_link_is_code _ _ _ _ _ _ Hu).
  replace c0 with (_generateShortCode keccak256 (tx_env t) LINK s).1 by (by rewrite Hg).
  apply contract_code_is_code.
Qed.

Lemma media_created_is_code t s : Forall is_code (media_created keccak256 t s).
Proof.
  unfold media_created. destruct (tx_call t); try constructor.
  unfold uploadMedia.
  destruct (negb _); [constructor|]. destruct (negb _); [constructor|].
  destruct (_generateShortCode keccak256 (tx_env t) MEDIA s) as [c0 s0] eqn:Hg.
  destruct (unique_media _ _ _ _ _) as [[c1 s1]|] eqn:Hu; [|constructor].
  apply Forall_singleton, (unique_media_is_code _ _ _ _ _ _ Hu).
  replace c0 with (_generateShortCode keccak256 (tx_env t) MEDIA s).1 by (by rewrite Hg).
  apply contract_code_is_code.
Qed.

(** X5: Every code the contract has assigned, hence every code that exists
    on a contract run from deployment, is made of six symbols of the
    alphabet. *)
Theorem contract_codes_well_formed ts c :
  let s := run keccak256 ts init in
  Forall is_code (links_created keccak256 ts init)
  ∧ Forall is_code (medias_created keccak256 ts init)
  ∧ (l_exists (links_at s c) = true → is_code c)
  ∧ (m_exists (media_at s c) = true → is_code c).
Proof.
  intros s.
  assert (Hl : ∀ ts s0, Forall is_code (links_created keccak256 ts s0)).
  { clear. intros ts. induction ts as [|t ts IH]; intros s0; [constructor|].
    unfold links_created in *. cbn [collect]. apply Forall_app. split; [|apply IH].
    apply link_created_is_code. }
  assert (Hm : ∀ ts s0, Forall is_code (medias_created keccak256 ts s0)).
  { clear. intros ts. induction ts as [|t ts IH]; intros s0; [constructor|].
    unfold medias_created in *. cbn [collect]. apply Forall_app. split; [|apply IH].
    apply media_created_is_code. }
  split_and!; [apply Hl|apply Hm| |].
  - intros [Hex|Hex]%run_link_exists; [discriminate|].
    specialize (Hl ts init). rewrite Forall_forall in Hl. by apply Hl.
  - intros [Hex|Hex]%run_media_exists; [discriminate|].
    specialize (Hm ts init). rewrite Forall_forall in Hm. by apply Hm.
Qed.

(** The loop from a current code [c]: candidate 0 is [c], candidate
    [j+1] is what the generator returns at its [j+1]-th further call. *)
Lemma unique_link_search n gas e c s :
  let w := λ j, match j with
                | O => c
                | S _ => code_at keccak256 e (Nat.iter j increment (_linkCounter s))
                end in
  (∀ j, (j < n)%nat → l_exists (links_at s (w j)) = true) →
  l_exists (links_at s (w n)) = false →
  ((n ≤ gas)%nat →
   ∃ s', unique_link keccak256 gas e c s = Some (w n, s')
         ∧ _linkCounter s' = Nat.iter n increment (_linkCounter s))
  ∧ ((gas < n)%nat → unique_link keccak256 gas e c s = None).
Proof.
  revert gas c s. induction n as [|n IH]; intros gas c s w Htaken Hfree.
  - split; [|lia]. intros _. exists s. split; [|done].
    destruct gas; cbn [unique_link]; cbn in Hfree; by rewrite Hfree.
  - assert (Hc : l_exists (links_at s c) = true) by (apply (Htaken 0%nat); lia).
    destruct gas as [|gas]; cbn [unique_link]; rewrite Hc.
    { split; [lia|done]. }
    destruct (_generateShortCode keccak256 e LINK s) as [c1 s1] eqn:Hg.
    assert (Hc1 : c1 = code_at keccak256 e (increment (_linkCounter s)))
      by (by injection Hg as <- _).
    assert (Hs1 : _linkCounter s1 = increment (_linkCounter s))
      by (by injection Hg as _ <-).
    assert (Hl1 : links s1 = links s) by (by injection Hg as _ <-).
    assert (Hw : ∀ j, match j with
                      | O => c1
                      | S _ => code_at keccak256 e (Nat.iter j increment (_linkCounter s1))
                      end = w (S j)).
    { intros [|j]; [done|]. subst w. cbn beta iota.
      by rewrite Hs1, <- Nat.iter_succ_r. }
    destruct (IH gas c1 s1) as [Hyes Hno].
    + intros j Hj. cbn zeta. rewrite Hw, (ContractFacts.links_at_ext s s1) by done.
      apply Htaken. lia.
    + cbn zeta. by rewrite Hw, (ContractFacts.links_at_ext s s1).
    + cbn zeta in Hyes, Hno. rewrite Hw in Hyes. split.
      * intros Hle. destruct Hyes as (s' & -> & Hs'); [lia|].
        exists s'. split; [done|]. by rewrite Hs', Hs1, <- Nat.iter_succ_r.
      * intros Hlt. apply Hno. lia.
Qed.

(** X6: Which code a creation assigns, and with how much gas: if the [n]-th
    candidate is the first one that is free in the link namespace, the
    creation assigns it when its gas allows [n] further turns of the
    loop (having called the generator [n+1] times), and runs out of gas
    otherwise. *)
Theorem createShortLink_first_free n gas e u s :
  (0 < String.length u ≤ 2048)%nat →
  (∀ j, (j < n)%nat →
        l_exists (links_at s (candidate keccak256 e (_linkCounter s) j)) = true) →
  l_exists (links_at s (candidate keccak256 e (_linkCounter s) n)) = false →
  ((n ≤ gas)%nat →
   ∃ s', createShortLink keccak256 gas e u s
         = Done (candidate keccak256 e (_linkCounter s) n)
             [LinkCreated (candidate keccak256 e (_linkCounter s) n) u (msg_sender e)] s'
         ∧ _linkCounter s' = Nat.iter (S n) increment (_linkCounter s))
  ∧ ((gas < n)%nat → createShortLink keccak256 gas e u s = OutOfGas).
Proof.
  intros [H0 H1] Htaken Hfree. unfold createShortLink.
  apply Nat.ltb_lt in H0 as ->. apply Nat.leb_le in H1 as ->. cbn [negb].
  destruct (_generateShortCode keccak256 e LINK s) as [c0 s0] eqn:Hg.
  assert (Hc0 : c0 = code_at keccak256 e (increment (_linkCounter s)))
    by (by injection Hg as <- _).
  assert (Hs0 : _linkCounter s0 = increment (_linkCounter s))
    by (by injection Hg as _ <-).
  assert (Hl0 : links s0 = links s) by (by injection Hg as _ <-).
  assert (Hw : ∀ j, match j with
                    | O => c0
                    | S _ => code_at keccak256 e (Nat.iter j increment (_linkCounter s0))
                    end = candidate keccak256 e (_linkCounter s) j).
  { intros [|j]; [done|]. unfold candidate. by rewrite Hs0, <- Nat.iter_succ_r. }
  destruct (unique_link_search n gas e c0 s0) as [Hyes Hno].
  - intros j Hj. cbn zeta. rewrite Hw, (ContractFacts.links_at_ext s s0) by done.
    by apply Htaken.
  - cbn zeta. by rewrite Hw, (ContractFacts.links_at_ext s s0).
  - cbn zeta in Hyes, Hno. rewrite Hw in Hyes. split.
    + intros Hle. destruct (Hyes Hle) as (s' & -> & Hs').
      eexists. split; [reflexivity|]. cbn [_linkCounter].
      by rewrite Hs', Hs0, <- Nat.iter_succ_r.
    + intros Hlt. by rewrite (Hno Hlt).
Qed.

(** X7: The total of the link namespace counts the calls of the generator:
    on a contract run from deployment that cannot wrap the counter
    around, it is at least the number of links created and at most the
    number of calls the run can pay for. *)
Theorem total_at_least_created ts :
  (N.of_nat (generator_budget ts) < 2 ^ 256)%N →
  (N.of_nat (length (links_created keccak256 ts init))
   ≤ _linkCounter (run keccak256 ts init))%N
  ∧ (_linkCounter (run keccak256 ts init) ≤ N.of_nat (generator_budget ts))%N.
Proof.
  assert (H : ∀ ts s, ∃ K : nat,
             (length (links_created keccak256 ts s) ≤ K ≤ generator_budget ts)%nat
             ∧ _linkCounter (run keccak256 ts s) = Nat.iter K increment (_linkCounter s)).
  { clear. intros ts. induction ts as [|t ts IH]; intros s.
    - exists 0%nat. split; [cbn; lia|done].
    - destruct (Totals.exec_linkCounter keccak256 t s) as (k & Hkg & Hk & Hlen & _).
      destruct (IH (exec keccak256 t s)) as (K & HK & Hc).
      exists (K + k)%nat. split.
      + unfold links_created in *. cbn [collect generator_budget foldr].
        rewrite length_app. fold (generator_budget ts). lia.
      + change (run keccak256 (t :: ts) s) with (run keccak256 ts (exec keccak256 t s)).
        by rewrite Hc, Hk, Nat.iter_add. }
  intros Hb. destruct (H ts init) as (K & HK & Hc).
  rewrite Hc, Totals.iter_increment by (cbn [_linkCounter init]; lia).
  cbn [_linkCounter init]. lia.
Qed.

End WithHash.
End ContractMore.

(** * Further properties of the service *)

Module ServiceMore.
Import Service.

Local Open Scope Z_scope.

Section Tables.
Context {Row : Type}.
Variable code : Row → string.

Lemma select_code_update f c t :
  (∀ r, code (f r) = code r) →
  select_code code c (update_code code f c t) = f <$> select_code code c t.
Proof.
  intros Hf. unfold select_code, update_code.
  rewrite ServiceFacts.find_by_fmap by (intros r; by case_decide).
  destruct (find_by code c t) as [r|] eqn:Hr; [|done].
  apply ServiceFacts.find_by_Some in Hr as [_ Hr]. cbn. by rewrite decide_True.
Qed.

Lemma select_code_update_ne f c c' t :
  (∀ r, code (f r) = code r) → c' ≠ c →
  select_code code c' (update_code code f c t) = select_code code c' t.
Proof.
  intros Hf Hne. unfold select_code, update_code.
  rewrite ServiceFacts.find_by_fmap by (intros r; by case_decide).
  destruct (find_by code c' t) as [r|] eqn:Hr; [|done].
  apply ServiceFacts.find_by_Some in Hr as [_ Hr]. cbn.
  rewrite decide_False; [done|congruence].
Qed.

Lemma select_code_delete c c' t :
  select_code code c' (delete_code code c t) =
  if decide (c' = c) then None else select_code code c' t.
Proof.
  unfold select_code, delete_code, find_by. case_decide as Hc.
  - subst c'. apply head_None. induction t as [|r t IH]; [done|].
    rewrite filter_cons. case_decide; [|done].
    rewrite filter_cons. by rewrite decide_False.
  - f_equal. induction t as [|r t IH]; [done|].
    rewrite (filter_cons (λ r, code r ≠ c)). case_decide as Hr.
    + rewrite !filter_cons. case_decide; [by f_equal|done].
    + rewrite IH, filter_cons.
      rewrite decide_False; [done|congruence].
Qed.

Lemma select_code_snoc c' t r :
  select_code code c' (t ++ [r]) =
  match select_code code c' t with
  | Some r' => Some r'
  | None => if decide (code r = c') then Some r else None
  end.
Proof.
  unfold select_code. rewrite ServiceFacts.find_by_app.
  destruct (find_by code c' t); [done|].
  unfold find_by. rewrite filter_cons. by case_decide.
Qed.

(** The loop from the candidate [i]: the first free candidate from [i]
    on is returned if the fuel reaches it. *)
Lemma unique_code_search (t : list Row) rnd n fuel i :
  (∀ j, (i ≤ j < i + n)%nat → candidate rnd j ∈ code <$> t) →
  candidate rnd (i + n) ∉ code <$> t →
  ((n ≤ fuel)%nat →
   unique_code code t rnd fuel (S i) (candidate rnd i) = Some (candidate rnd (i + n)))
  ∧ ((fuel < n)%nat → unique_code code t rnd fuel (S i) (candidate rnd i) = None).
Proof.
  revert fuel i. induction n as [|n IH]; intros fuel i Htaken Hfree.
  - rewrite Nat.add_0_r in *. split; [|lia]. intros _.
    apply ServiceFacts.unique_code_first. by apply ServiceFacts.select_code_None.
  - assert (Hi : candidate rnd i ∈ code <$> t) by (apply Htaken; lia).
    destruct (select_code code (candidate rnd i) t) as [r|] eqn:Hs;
      [|by apply ServiceFacts.select_code_None in Hs].
    destruct fuel as [|fuel]; cbn [unique_code]; rewrite Hs; [split; [lia|done]|].
    fold (candidate rnd (S i)).
    destruct (IH fuel (S i)) as [Hyes Hno].
    + intros j Hj. apply Htaken. lia.
    + by replace (S i + n)%nat with (i + S n)%nat by lia.
    + replace (S i + n)%nat with (i + S n)%nat in Hyes by lia.
      split; intros; [apply Hyes|apply Hno]; lia.
Qed.
End Tables.

(** X8: What a creation is answered, whatever JSON values its body
    holds.  The INSERT never meets a UNIQUE violation, the loop having
    made sure of it.  An answer is 400, for a falsy required field, with
    the database as it was; or 500, with the database as it was, and
    then a boolean sits in a field that reaches the INSERT; or 200, and
    then the fields are strings (the size an integer) and one row has
    been appended to the table of the namespace, with the next id, a
    code that was not in the table and a counter of 0, the other table
    left alone.  A boolean for the URL is answered 500 when the first
    code drawn is free.  On the bodies of strings and integers, which
    are those the client posts, this handler is the one of [Service]. *)
Theorem creation_answers :
  (∀ fuel now rnd body db resp db',
     Wire.post_links fuel now rnd body db = Wire.Answered resp db' →
     (Wire.truthy (Wire.lb_originalUrl body) = false
      ∧ resp = Error 400 "Original URL is required" ∧ db' = db)
     ∨ ((Wire.lb_originalUrl body = Wire.Bool true
         ∨ Wire.lb_creator body = Wire.Bool true)
        ∧ resp = Error 500 "Failed to create short link" ∧ db' = db)
     ∨ (∃ j u cr,
          resp = Json (OfLink j) ∧ Wire.lb_originalUrl body = Wire.Str u
          ∧ Wire.or_anonymous (Wire.lb_creator body) = Wire.Str cr
          ∧ (lj_shortCode j ∉ l_short_code <$> links db)
          ∧ media_part db' = media_part db
          ∧ links_seq db' = links_seq db + 1
          ∧ links db' =
              links db ++
                [mkLinkRow (links_seq db + 1) (lj_shortCode j) u cr (now / 1000) 0]))
  ∧ (∀ fuel now rnd body db resp db',
       Wire.post_media fuel now rnd body db = Wire.Answered resp db' →
       ((Wire.truthy (Wire.mb_ipfsHash body) = false
         ∨ Wire.truthy (Wire.mb_fileName body) = false
         ∨ Wire.truthy (Wire.mb_fileType body) = false
         ∨ Wire.truthy (Wire.mb_fileSize body) = false)
        ∧ resp = Error 400 "Missing required fields" ∧ db' = db)
       ∨ ((Wire.mb_ipfsHash body = Wire.Bool true
           ∨ Wire.mb_fileName body = Wire.Bool true
           ∨ Wire.mb_fileType body = Wire.Bool true
           ∨ Wire.mb_fileSize body = Wire.Bool true
           ∨ Wire.mb_creator body = Wire.Bool true)
          ∧ resp = Error 500 "Failed to save media metadata" ∧ db' = db)
       ∨ (∃ j h n ty sz cr,
            resp = Json (OfMedia j)
            ∧ Wire.mb_ipfsHash body = Wire.Str h ∧ Wire.mb_fileName body = Wire.Str n
            ∧ Wire.mb_fileType body = Wire.Str ty
            ∧ Wire.mb_fileSize body = Wire.Int sz
            ∧ Wire.or_anonymous (Wire.mb_creator body) = Wire.Str cr
            ∧ (mj_shortCode j ∉ m_short_code <$> media db)
            ∧ link_part db' = link_part db
            ∧ media_seq db' = media_seq db + 1
            ∧ media db' =
                media db ++
                  [mkMediaRow (media_seq db + 1) (mj_shortCode j) h n ty sz cr
                     (now / 1000) 0]))
  ∧ (∀ fuel now rnd creator db,
       generateShortCode rnd 0 ∉ l_short_code <$> links db →
       Wire.post_links fuel now rnd (Wire.mkLinkBody (Wire.Bool true) creator) db =
       Wire.Answered (Error 500 "Failed to create short link") db)
  ∧ (∀ fuel now rnd body db,
       Wire.post_links fuel now rnd (Wire.of_link_body body) db =
       Wire.of_answer (post_links fuel now rnd body db))
  ∧ (∀ fuel now rnd body db,
       Wire.safe_size body →
       Wire.post_media fuel now rnd (Wire.of_media_body body) db =
       Wire.of_answer (post_media fuel now rnd body db)).
Proof.
  split_and!.
  - intros fuel now rnd body db resp db' Hp.
    apply WireFacts.wire_post_links_cases in Hp
      as [?|[?|(c & u & cr & Hu & _ & Hcr & Hc & -> & ->)]]; [by left|by right; left|].
    right; right. by eexists _, u, cr.
  - intros fuel now rnd body db resp db' Hp.
    apply WireFacts.wire_post_media_cases in Hp
      as [?|[?|(c & h & n & ty & sz & cr & ? & ? & ? & ? & ? & ? & -> & ->)]];
      [by left|by right; left|].
    right; right. by eexists _, h, n, ty, sz, cr.
  - intros fuel now rnd creator db Hfree%ServiceFacts.select_code_None.
    unfold Wire.post_links. cbn [Wire.lb_originalUrl Wire.truthy negb].
    by rewrite (ServiceFacts.unique_code_first _ _ _ _ _ _ Hfree).
  - apply WireFacts.post_links_typed.
  - apply WireFacts.post_media_typed.
Qed.

(** X9: When a creation is answered 200, its fields having reached the
    INSERT as strings and an integer size, the record it answers is the
    one the read by code answers next, with a counter of 0. *)
Theorem creation_reads_back :
  (∀ fuel now rnd body db p db',
     Wire.post_links fuel now rnd body db = Wire.Answered (Json p) db' →
     ∃ j u, p = OfLink j ∧ lj_clicks j = 0
            ∧ Wire.lb_originalUrl body = Wire.Str u ∧ lj_originalUrl j = Some u
            ∧ get_link (lj_shortCode j) db' = (Json (OfLink j), db'))
  ∧ (∀ fuel now rnd body db p db',
       Wire.post_media fuel now rnd body db = Wire.Answered (Json p) db' →
       ∃ j h n ty sz,
         p = OfMedia j ∧ mj_views j = 0
         ∧ Wire.mb_ipfsHash body = Wire.Str h ∧ Wire.mb_fileName body = Wire.Str n
         ∧ Wire.mb_fileType body = Wire.Str ty ∧ Wire.mb_fileSize body = Wire.Int sz
         ∧ (mj_ipfsHash j, mj_fileName j, mj_fileType j, mj_fileSize j) =
           (Some h, Some n, Some ty, Some sz)
         ∧ get_media (mj_shortCode j) db' = (Json (OfMedia j), db')).
Proof.
  split.
  - intros fuel now rnd body db p db' Hp.
    apply WireFacts.wire_post_links_cases in Hp
      as [(_ & ? & _)|[(_ & ? & _)|(c & u & cr & Hu & _ & Hcr & Hc & [= ->] & ->)]];
      [done|done|].
    eexists _, u. split; [reflexivity|]. split_and!; try done.
    unfold get_link. cbn [links set_links lj_shortCode].
    rewrite select_code_snoc.
    apply ServiceFacts.select_code_None in Hc. rewrite Hc. cbn [l_short_code].
    by rewrite decide_True.
  - intros fuel now rnd body db p db' Hp.
    apply WireFacts.wire_post_media_cases in Hp
      as [(_ & ? & _)|[(_ & ? & _)
          |(c & h & n & ty & sz & cr & ? & ? & ? & ? & ? & Hc & [= ->] & ->)]];
      [done|done|].
    eexists _, h, n, ty, sz. split; [reflexivity|]. split_and!; try done.
    unfold get_media. cbn [media set_media mj_shortCode].
    rewrite select_code_snoc.
    apply ServiceFacts.select_code_None in Hc. rewrite Hc. cbn [m_short_code].
    by rewrite decide_True.
Qed.

(** X10: A counting read answers what is stored once it is done: the media
    view returns the record that the plain read returns next, views
    included, and after a redirect the plain read shows one click more
    than before. *)
Theorem counting_read_matches_store :
  (∀ c db p db',
     get_media_view c db = (Json p, db') → get_media c db' = (Json p, db'))
  ∧ (∀ c db p db',
       get_link_redirect c db = (Json p, db') →
       ∃ r, get_link c db = (Json (OfLink (link_json r)), db)
            ∧ p = OfUrl (l_original_url r)
            ∧ get_link c db' = (Json (OfLink (link_json (click r))), db')).
Proof.
  split.
  - intros c db p db'. unfold get_media_view, get_media.
    destruct (select_code m_short_code c (media db)) as [m|] eqn:Hs; [|discriminate].
    intros [= <- <-]. cbn [media set_media].
    by rewrite select_code_update, Hs.
  - intros c db p db'. unfold get_link_redirect, get_link.
    destruct (select_code l_short_code c (links db)) as [r|] eqn:Hs; [|discriminate].
    intros [= <- <-]. exists r. split_and!; try done. cbn [links set_links].
    by rewrite select_code_update, Hs.
Qed.

Lemma delete_code_none {Row : Type} (code : Row → string) c (t : list Row) :
  c ∉ code <$> t → delete_code code c t = t.
Proof.
  intros Hc. unfold delete_code. induction t as [|r t IH]; [done|].
  rewrite fmap_cons, not_elem_of_cons in Hc. destruct Hc as [Hr Ht].
  rewrite filter_cons, decide_True by congruence. f_equal. by apply IH.
Qed.

Lemma link_codes_after r db c :
  c ∈ l_short_code <$> links (db_after r db) →
  c ∈ l_short_code <$> links db ∨ c ∈ link_posted r db.
Proof.
  destruct (ServiceFacts.db_after_links r db) as [-> _].
  destruct r; try (by left).
  - rewrite fmap_app, elem_of_app, <- list_fmap_compose.
    intros [?|Hc]; [by left|right].
    apply list_elem_of_fmap in Hc as (c' & -> & Hc'). done.
  - rewrite ServiceFacts.update_code_key by done. by left.
  - intros (r & -> & [_ Hr]%list_elem_of_filter)%list_elem_of_fmap.
    left. by apply list_elem_of_fmap_2.
Qed.

Lemma media_codes_after r db c :
  c ∈ m_short_code <$> media (db_after r db) →
  c ∈ m_short_code <$> media db ∨ c ∈ media_posted r db.
Proof.
  destruct (ServiceFacts.db_after_media r db) as [-> _].
  destruct r; try (by left).
  - rewrite fmap_app, elem_of_app, <- list_fmap_compose.
    intros [?|Hc]; [by left|right].
    apply list_elem_of_fmap in Hc as (c' & -> & Hc'). done.
  - rewrite ServiceFacts.update_code_key by done. by left.
  - intros (r & -> & [_ Hr]%list_elem_of_filter)%list_elem_of_fmap.
    left. by apply list_elem_of_fmap_2.
Qed.

Lemma link_codes_run rs db c :
  c ∈ l_short_code <$> links (run rs db) →
  c ∈ l_short_code <$> links db ∨ c ∈ links_posted rs db.
Proof.
  revert db. induction rs as [|r rs IH]; intros db; [by left|].
  unfold run, links_posted in *. cbn [foldl collect]. rewrite elem_of_app.
  intros [[?|?]%link_codes_after|?]%IH; tauto.
Qed.

Lemma media_codes_run rs db c :
  c ∈ m_short_code <$> media (run rs db) →
  c ∈ m_short_code <$> media db ∨ c ∈ medias_posted rs db.
Proof.
  revert db. induction rs as [|r rs IH]; intros db; [by left|].
  unfold run, medias_posted in *. cbn [foldl collect]. rewrite elem_of_app.
  intros [[?|?]%media_codes_after|?]%IH; tauto.
Qed.

Lemma link_routes_404 c db :
  c ∉ l_short_code <$> links db →
  get_link c db = (Error 404 "Link not found", db)
  ∧ get_link_redirect c db = (Error 404 "Link not found", db)
  ∧ delete_link c db = (Error 404 "Link not found", db).
Proof.
  intros Hc. unfold get_link, get_link_redirect, delete_link.
  rewrite (delete_code_none _ _ _ Hc).
  apply ServiceFacts.select_code_None in Hc. rewrite Hc.
  unfold changes. by rewrite Nat.sub_diag.
Qed.

Lemma media_routes_404 c db :
  c ∉ m_short_code <$> media db →
  get_media c db = (Error 404 "Media not found", db)
  ∧ get_media_view c db = (Error 404 "Media not found", db)
  ∧ delete_media c db = (Error 404 "Media not found", db).
Proof.
  intros Hc. unfold get_media, get_media_view, delete_media.
  rewrite (delete_code_none _ _ _ Hc).
  apply ServiceFacts.select_code_None in Hc. rewrite Hc.
  unfold changes. by rewrite Nat.sub_diag.
Qed.

(** X11: On a database that started empty, a code that no creation has
    answered is not found, whatever has been requested since: the read,
    the counting read and the deletion answer 404 and change nothing. *)
Theorem never_posted_not_found rs c :
  let db := run rs empty in
  (c ∉ links_posted rs empty →
   get_link c db = (Error 404 "Link not found", db)
   ∧ get_link_redirect c db = (Error 404 "Link not found", db)
   ∧ delete_link c db = (Error 404 "Link not found", db))
  ∧ (c ∉ medias_posted rs empty →
     get_media c db = (Error 404 "Media not found", db)
     ∧ get_media_view c db = (Error 404 "Media not found", db)
     ∧ delete_media c db = (Error 404 "Media not found", db)).
Proof.
  intros db. split; intros Hc.
  - apply link_routes_404. intros [Hin|Hin]%link_codes_run; [|done].
    by apply elem_of_nil in Hin.
  - apply media_routes_404. intros [Hin|Hin]%media_codes_run; [|done].
    by apply elem_of_nil in Hin.
Qed.

(** X12: The administrative deletion of a code that is there answers 200 and
    removes that code alone: the code is not found afterwards (a second
    deletion answers 404), every other code reads as before, and the
    other table and the id sequence are untouched. *)
Theorem delete_removes_only_that_code c db :
  (c ∈ l_short_code <$> links db →
   let db' := (delete_link c db).2 in
   (delete_link c db).1 = Json (OfMessage "Link deleted")
   ∧ get_link c db' = (Error 404 "Link not found", db')
   ∧ delete_link c db' = (Error 404 "Link not found", db')
   ∧ (∀ c', c' ≠ c → (get_link c' db').1 = (get_link c' db).1)
   ∧ media_part db' = media_part db ∧ links_seq db' = links_seq db)
  ∧ (c ∈ m_short_code <$> media db →
     let db' := (delete_media c db).2 in
     (delete_media c db).1 = Json (OfMessage "Media deleted")
     ∧ get_media c db' = (Error 404 "Media not found", db')
     ∧ delete_media c db' = (Error 404 "Media not found", db')
     ∧ (∀ c', c' ≠ c → (get_media c' db').1 = (get_media c' db).1)
     ∧ link_part db' = link_part db ∧ media_seq db' = media_seq db).
Proof.
  split.
  - intros (r & Hr & Hin)%list_elem_of_fmap.
    assert (Hch : (changes (links db) (delete_code l_short_code c (links db)) =? 0)%nat
                  = false).
    { apply Nat.eqb_neq. unfold changes, delete_code.
      pose proof (length_filter_lt (λ r, l_short_code r ≠ c) (links db) r Hin) as Hlt.
      cbn beta in Hlt. specialize (Hlt (λ H, H (eq_sym Hr))). lia. }
    unfold delete_link at 1 2. rewrite Hch. cbn [fst snd].
    assert (Hgone : c ∉ l_short_code <$>
                      links (set_links db (delete_code l_short_code c (links db))
                               (links_seq db))).
    { cbn [links set_links].
      intros (r' & Hc & [Hne _]%list_elem_of_filter)%list_elem_of_fmap. congruence. }
    destruct (link_routes_404 _ _ Hgone) as (Hg & _ & Hd).
    split_and!; try done.
    intros c' Hne. unfold get_link. cbn [links set_links].
    rewrite select_code_delete, decide_False by done.
    by destruct (select_code _ _ _).
  - intros (r & Hr & Hin)%list_elem_of_fmap.
    assert (Hch : (changes (media db) (delete_code m_short_code c (media db)) =? 0)%nat
                  = false).
    { apply Nat.eqb_neq. unfold changes, delete_code.
      pose proof (length_filter_lt (λ r, m_short_code r ≠ c) (media db) r Hin) as Hlt.
      cbn beta in Hlt. specialize (Hlt (λ H, H (eq_sym Hr))). lia. }
    unfold delete_media at 1 2. rewrite Hch. cbn [fst snd].
    assert (Hgone : c ∉ m_short_code <$>
                      media (set_media db (delete_code m_short_code c (media db))
                               (media_seq db))).
    { cbn [media set_media].
      intros (r' & Hc & [Hne _]%list_elem_of_filter)%list_elem_of_fmap. congruence. }
    destruct (media_routes_404 _ _ Hgone) as (Hg & _ & Hd).
    split_and!; try done.
    intros c' Hne. unfold get_media. cbn [media set_media].
    rewrite select_code_delete, decide_False by done.
    by destruct (select_code _ _ _).
Qed.

Lemma whole_page {Row : Type} (created_at : Row → Z) (n : nat) (t : list Row) :
  let rows := take n (order_desc created_at t) in
  let rest := drop n (order_desc created_at t) in
  Forall (λ r, r ∈ t) rows
  ∧ StronglySorted (newer_first created_at) rows
  ∧ length rows = min n (length t)
  ∧ rows ++ rest ≡ₚ t
  ∧ (∀ a b, a ∈ rows → b ∈ rest → created_at b ≤ created_at a).
Proof.
  intros rows rest.
  pose proof (merge_sort_Permutation (newer_first created_at) t) as Hperm.
  pose proof (@StronglySorted_merge_sort _ (newer_first created_at) _
                (Listing.newer_first_trans created_at)
                (Listing.newer_first_total created_at) t) as Hsort.
  fold (order_desc created_at t) in Hperm, Hsort.
  assert (Hsplit : rows ++ rest = order_desc created_at t) by apply firstn_skipn.
  rewrite <- Hsplit in Hsort. split_and!.
  - apply Forall_forall. intros r Hr.
    rewrite <- Hperm, <- Hsplit. apply elem_of_app. by left.
  - by apply StronglySorted_app_1_l in Hsort.
  - subst rows. by rewrite length_take, Hperm.
  - by rewrite Hsplit.
  - intros a b Ha Hb. by apply (StronglySorted_app_1_elem_of _ _ _ _ _ Hsort).
Qed.

(** X13: The administrative listings return rows of the table as stored,
    newest first, at most 100 of them: all the rows when there are no
    more than 100, and otherwise 100 rows than which the rows left out
    are no newer. *)
Theorem admin_listing_page db :
  (∃ rows rest,
     admin_links db = (Json (OfLinkRows rows), db)
     ∧ Forall (λ r, r ∈ links db) rows
     ∧ StronglySorted (newer_first l_created_at) rows
     ∧ length rows = min 100 (length (links db))
     ∧ rows ++ rest ≡ₚ links db
     ∧ (∀ a b, a ∈ rows → b ∈ rest → l_created_at b ≤ l_created_at a))
  ∧ (∃ rows rest,
       admin_media db = (Json (OfMediaRows rows), db)
       ∧ Forall (λ r, r ∈ media db) rows
       ∧ StronglySorted (newer_first m_created_at) rows
       ∧ length rows = min 100 (length (media db))
       ∧ rows ++ rest ≡ₚ media db
       ∧ (∀ a b, a ∈ rows → b ∈ rest → m_created_at b ≤ m_created_at a)).
Proof.
  split.
  - destruct (whole_page l_created_at 100 (links db)) as (H1 & H2 & H3 & H4 & H5).
    eexists _, _. split; [reflexivity|]. by split_and!.
  - destruct (whole_page m_created_at 100 (media db)) as (H1 & H2 & H3 & H4 & H5).
    eexists _, _. split; [reflexivity|]. by split_and!.
Qed.

(** X14: AUTOINCREMENT never hands an id out twice: an id that the sequence
    has passed and that no row carries, because its row was deleted,
    is carried by no row ever after. *)
Theorem ids_never_reused rs db i :
  db_ok db →
  (i ≤ links_seq db → link_by_id db i = None → link_by_id (run rs db) i = None)
  ∧ (i ≤ media_seq db → media_by_id db i = None → media_by_id (run rs db) i = None).
Proof.
  intros Hok. split; intros Hi Hn.
  - by apply ServiceFacts.link_gone_run.
  - by apply ServiceFacts.media_gone_run.
Qed.

(** X15: A row keeps its code, its content, its creator and its creation time
    for as long as it is there: no request edits them. *)
Theorem row_immutable rs db i :
  db_ok db →
  (∀ r r', link_by_id db i = Some r → link_by_id (run rs db) i = Some r' →
           l_short_code r' = l_short_code r ∧ l_original_url r' = l_original_url r
           ∧ l_creator r' = l_creator r ∧ l_created_at r' = l_created_at r)
  ∧ (∀ r r', media_by_id db i = Some r → media_by_id (run rs db) i = Some r' →
             m_short_code r' = m_short_code r ∧ m_ipfs_hash r' = m_ipfs_hash r
             ∧ m_file_name r' = m_file_name r ∧ m_file_type r' = m_file_type r
             ∧ m_file_size r' = m_file_size r ∧ m_creator r' = m_creator r
             ∧ m_created_at r' = m_created_at r).
Proof.
  intros Hok. split; intros r r' Hr Hr'.
  - by rewrite (ServiceFacts.link_by_id_run rs db i r r' Hok Hr Hr').
  - by rewrite (ServiceFacts.media_by_id_run rs db i r r' Hok Hr Hr').
Qed.

(** X16: Which code a creation assigns, and whether it answers: if the [n]-th
    candidate drawn from the entropy is the first one that is not in the
    table, a valid creation answers 200 with that code when its loop may
    take [n] further turns, and does not answer otherwise. *)
Theorem post_first_free n fuel now rnd :
  (∀ body db,
     truthy_str (lb_originalUrl body) = true →
     (∀ j, (j < n)%nat → candidate rnd j ∈ l_short_code <$> links db) →
     candidate rnd n ∉ l_short_code <$> links db →
     ((n ≤ fuel)%nat →
      ∃ db', post_links fuel now rnd body db
             = Some (Json (OfLink (mkLinkJson (candidate rnd n) (lb_originalUrl body)
                                     (creator_or_anonymous (lb_creator body))
                                     (now / 1000) 0)), db'))
     ∧ ((fuel < n)%nat → post_links fuel now rnd body db = None))
  ∧ (∀ body db,
       truthy_str (mb_ipfsHash body) = true → truthy_str (mb_fileName body) = true →
       truthy_str (mb_fileType body) = true → truthy_num (mb_fileSize body) = true →
       (∀ j, (j < n)%nat → candidate rnd j ∈ m_short_code <$> media db) →
       candidate rnd n ∉ m_short_code <$> media db →
       ((n ≤ fuel)%nat →
        ∃ db', post_media fuel now rnd body db
               = Some (Json (OfMedia (mkMediaJson (candidate rnd n) (mb_ipfsHash body)
                                        (mb_fileName body) (mb_fileType body)
                                        (mb_fileSize body)
                                        (creator_or_anonymous (mb_creator body))
                                        (now / 1000) 0)), db'))
       ∧ ((fuel < n)%nat → post_media fuel now rnd body db = None)).
Proof.
  split.
  - intros body db Hu Htaken Hfree.
    destruct (unique_code_search l_short_code (links db) rnd n fuel 0) as [Hyes Hno];
      [intros j Hj; apply Htaken; lia|done|].
    unfold post_links. rewrite Hu. cbn [negb].
    change (generateShortCode rnd 0) with (candidate rnd 0). cbn [Nat.add] in Hyes.
    split.
    + intros Hle. rewrite (Hyes Hle).
      rewrite ServiceFacts.insert_row_free by (by apply ServiceFacts.select_code_None).
      by eexists.
    + intros Hlt. by rewrite (Hno Hlt).
  - intros body db H1 H2 H3 H4 Htaken Hfree.
    destruct (unique_code_search m_short_code (media db) rnd n fuel 0) as [Hyes Hno];
      [intros j Hj; apply Htaken; lia|done|].
    unfold post_media. rewrite H1, H2, H3, H4. cbn [negb orb].
    change (generateShortCode rnd 0) with (candidate rnd 0). cbn [Nat.add] in Hyes.
    split.
    + intros Hle. rewrite (Hyes Hle).
      rewrite ServiceFacts.insert_row_free by (by apply ServiceFacts.select_code_None).
      by eexists.
    + intros Hlt. by rewrite (Hno Hlt).
Qed.

Lemma unique_code_is_code {Row : Type} (code : Row → string) t rnd fuel k c c' :
  unique_code code t rnd fuel k c = Some c' → is_code c → is_code c'.
Proof.
  revert k c. induction fuel as [|fuel IH]; intros k c; cbn [unique_code];
    destruct (select_code code c t); try discriminate; try (by intros [= <-]).
  intros Hu _. apply (IH _ _ Hu), service_code_is_code.
Qed.

Lemma link_posted_is_code r db : Forall is_code (link_posted r db).
Proof.
  destruct r; try constructor. cbn [link_posted]. unfold post_links.
  destruct (negb _); [constructor|].
  destruct (unique_code _ _ _ _ _ _) as [c|] eqn:Hu; [|constructor].
  destruct (insert_row _ _ _); [|constructor].
  apply Forall_singleton. cbn. apply (unique_code_is_code _ _ _ _ _ _ _ Hu).
  apply service_code_is_code.
Qed.

Lemma media_posted_is_code r db : Forall is_code (media_posted r db).
Proof.
  destruct r; try constructor. cbn [media_posted]. unfold post_media.
  destruct (_ || _); [constructor|].
  destruct (unique_code _ _ _ _ _ _) as [c|] eqn:Hu; [|constructor].
  destruct (insert_row _ _ _); [|constructor].
  apply Forall_singleton. cbn. apply (unique_code_is_code _ _ _ _ _ _ _ Hu).
  apply service_code_is_code.
Qed.

(** X17: Every code the service has assigned, hence every code in a database
    that started empty, is made of six symbols of the alphabet. *)
Theorem service_codes_well_formed rs :
  Forall is_code (links_posted rs empty)
  ∧ Forall is_code (medias_posted rs empty)
  ∧ Forall is_code (l_short_code <$> links (run rs empty))
  ∧ Forall is_code (m_short_code <$> media (run rs empty)).
Proof.
  assert (Hl : ∀ rs db, Forall is_code (links_posted rs db)).
  { clear. intros rs. induction rs as [|r rs IH]; intros db; [constructor|].
    unfold links_posted in *. cbn [collect]. apply Forall_app. split; [|apply IH].
    apply link_posted_is_code. }
  assert (Hm : ∀ rs db, Forall is_code (medias_posted rs db)).
  { clear. intros rs. induction rs as [|r rs IH]; intros db; [constructor|].
    unfold medias_posted in *. cbn [collect]. apply Forall_app. split; [|apply IH].
    apply media_posted_is_code. }
  split_and!; [apply Hl|apply Hm| |].
  - apply Forall_forall. intros c [Hc|Hc]%link_codes_run.
    + by apply elem_of_nil in Hc.
    + specialize (Hl rs empty). rewrite Forall_forall in Hl. by apply Hl.
  - apply Forall_forall. intros c [Hc|Hc]%media_codes_run.
    + by apply elem_of_nil in Hc.
    + specialize (Hm rs empty). rewrite Forall_forall in Hm. by apply Hm.
Qed.

End ServiceMore.

(** ** The IPFS helpers *)

Module IpfsFacts.
Import Ipfs.

Lemma padStart_toString16 b :
  padStart 2 "0"%char (toString16 b) = string_of_list_ascii (hex_pair b).
Proof. destruct b; reflexivity. Qed.

Lemma getIpfsUrls_head hash :
  getIpfsUrls hash = getIpfsUrl hash :: tail (getIpfsUrls hash).
Proof. reflexivity. Qed.

(** The simulated identifier written out: the prefix and the hex pairs
    of the first 22 bytes. *)
Lemma simulated_hash_eq rnd :
  simulated_hash rnd =
  String.append "Qm"
    (string_of_list_ascii (flat_map (λ i, hex_pair (rnd i)) (seq 0 22))).
Proof.
  unfold simulated_hash, Service.randomBytes.
  cbn [seq map]. rewrite !padStart_toString16. reflexivity.
Qed.

Lemma first_reachable_spec throws urls :
  match first_reachable throws urls with
  | Some url =>
      ∃ l1 l2, urls = l1 ++ url :: l2
               ∧ Forall (λ u, throws u = true) l1 ∧ throws url = false
  | None => Forall (λ u, throws u = true) urls
  end.
Proof.
  induction urls as [|u urls IH]; cbn [first_reachable]; [constructor|].
  destruct (throws u) eqn:Hu.
  - destruct (first_reachable throws urls) as [url|].
    + destruct IH as (l1 & l2 & -> & H1 & H2).
      exists (u :: l1), l2. split_and!; [done| |done]. by constructor.
    + by constructor.
  - exists [], urls. split_and!; [done|constructor|done].
Qed.

End IpfsFacts.

(** ** More of the browser side *)

Module IpfsMore.
Import Ipfs.

(** X18: Without both Pinata keys the upload never fails: it answers with a
    made-up identifier of 46 characters that [isValidCid] accepts, the
    first gateway's URL of it and the file's own name, type and size.
    The identifier is fixed by the first 22 of the 32 random bytes
    drawn. *)
Theorem upload_without_keys apiKey secretKey rnd answer f
    (Hkeys : Service.truthy_str apiKey && Service.truthy_str secretKey = false) :
  ∃ u, uploadToIPFS apiKey secretKey rnd answer f = inl u
       ∧ isValidCid (Some (u_hash u)) = true
       ∧ String.length (u_hash u) = 46%nat
       ∧ u_url u = getIpfsUrl (u_hash u)
       ∧ (u_name u, u_type u, u_size u) = (f_name f, f_type f, f_size f)
       ∧ ∀ rnd' answer' f',
           (∀ i, (i < 22)%nat → rnd' i = rnd i) →
           ∃ u', uploadToIPFS apiKey secretKey rnd' answer' f' = inl u'
                 ∧ u_hash u' = u_hash u.
Proof.
  assert (Hup : ∀ rnd answer f,
             uploadToIPFS apiKey secretKey rnd answer f = inl (simulateUpload rnd f)).
  { intros. unfold uploadToIPFS.
    destruct (Service.truthy_str apiKey), (Service.truthy_str secretKey);
      try discriminate; reflexivity. }
  exists (simulateUpload rnd f). split; [apply Hup|].
  cbn [simulateUpload u_hash u_url u_name u_type u_size].
  split_and!; try reflexivity.
  - rewrite IpfsFacts.simulated_hash_eq. reflexivity.
  - rewrite IpfsFacts.simulated_hash_eq. reflexivity.
  - intros rnd' answer' f' Hrnd. eexists. split; [apply Hup|].
    cbn [simulateUpload u_hash]. rewrite !IpfsFacts.simulated_hash_eq.
    cbn [seq flat_map]. rewrite !Hrnd by lia. reflexivity.
Qed.

(** X19: [fetchFromIPFS] answers one of the four gateway URLs of the hash:
    the first in the list whose request does not throw, all before it
    having thrown, and the default URL of [getIpfsUrl] when every
    gateway throws. *)
Theorem fetchFromIPFS_first_reachable throws hash :
  (∃ gateway, gateway ∈ IPFS_GATEWAYS
              ∧ fetchFromIPFS throws hash = String.append gateway hash)
  ∧ ((∃ l1 l2, getIpfsUrls hash = l1 ++ fetchFromIPFS throws hash :: l2
               ∧ Forall (λ u, throws u = true) l1
               ∧ throws (fetchFromIPFS throws hash) = false)
     ∨ (Forall (λ u, throws u = true) (getIpfsUrls hash)
        ∧ fetchFromIPFS throws hash = getIpfsUrl hash)).
Proof.
  assert (Hor : (∃ l1 l2, getIpfsUrls hash = l1 ++ fetchFromIPFS throws hash :: l2
               ∧ Forall (λ u, throws u = true) l1
               ∧ throws (fetchFromIPFS throws hash) = false)
     ∨ (Forall (λ u, throws u = true) (getIpfsUrls hash)
        ∧ fetchFromIPFS throws hash = getIpfsUrl hash)).
  { unfold fetchFromIPFS. cbv zeta.
    pose proof (IpfsFacts.first_reachable_spec throws (getIpfsUrls hash)) as H.
    destruct (first_reachable throws (getIpfsUrls hash)) as [url|].
    - left. exact H.
    - right. split; [exact H|reflexivity]. }
  split; [|exact Hor].
  assert (Hin : fetchFromIPFS throws hash ∈ getIpfsUrls hash).
  { destruct Hor as [(l1 & l2 & Hl & _)|[_ ->]].
    - rewrite Hl. apply elem_of_app. right. apply elem_of_cons. by left.
    - rewrite IpfsFacts.getIpfsUrls_head. apply elem_of_cons. by left. }
  unfold getIpfsUrls in Hin. apply (list_elem_of_fmap (λ g, String.append g hash)) in Hin.
  destruct Hin as (g & Hg & Hin). by exists g.
Qed.

End IpfsMore.

Module PagesFacts.
Import Pages.

Lemma creator_or_anonymous_idem o :
  Service.creator_or_anonymous (Some (Service.creator_or_anonymous o)) =
  Service.creator_or_anonymous o.
Proof.
  unfold Service.creator_or_anonymous.
  destruct (Service.truthy_str o) eqn:Ho; [|reflexivity].
  destruct o as [s|]; [|discriminate]. cbn [default id]. by rewrite Ho.
Qed.

Lemma supported_type_nonempty ty :
  ty ∈ SUPPORTED_FILE_TYPES → Service.truthy_str (Some ty) = true.
Proof.
  unfold SUPPORTED_FILE_TYPES. rewrite !elem_of_cons, elem_of_nil.
  intros H. repeat (destruct H as [->|H]; [reflexivity|]). done.
Qed.

Lemma truthy_str_spec s :
  Service.truthy_str (Some s) = true ↔ s ≠ EmptyString.
Proof.
  cbn [Service.truthy_str]. destruct (String.eqb_spec s EmptyString); cbn; split;
    congruence.
Qed.

Lemma truthy_num_spec z : Service.truthy_num (Some z) = true ↔ z ≠ 0%Z.
Proof.
  cbn [Service.truthy_num]. destruct (Z.eqb_spec z 0); cbn; split; congruence.
Qed.

(** What the checks of the form let through. *)
Lemma handleFileSelect_file sel st f :
  file (handleFileSelect sel st) = Some f →
  file st = Some f
  ∨ (Ipfs.f_type f ∈ SUPPORTED_FILE_TYPES ∧ (Ipfs.f_size f ≤ MAX_FILE_SIZE)%Z).
Proof.
  unfold handleFileSelect. destruct sel as [g|]; [|by left].
  destruct (decide (Ipfs.f_type g ∈ SUPPORTED_FILE_TYPES)) as [Hty|Hty].
  - rewrite bool_decide_true by done. cbn [negb].
    destruct (Z.ltb_spec MAX_FILE_SIZE (Ipfs.f_size g)); cbn [file]; [by left|].
    intros [= <-]. by right.
  - rewrite bool_decide_false by done. by left.
Qed.

Lemma picks_file ps st :
  (∀ f, file st = Some f →
        Ipfs.f_type f ∈ SUPPORTED_FILE_TYPES ∧ (Ipfs.f_size f ≤ MAX_FILE_SIZE)%Z) →
  ∀ f, file (picks ps st) = Some f →
       Ipfs.f_type f ∈ SUPPORTED_FILE_TYPES ∧ (Ipfs.f_size f ≤ MAX_FILE_SIZE)%Z.
Proof.
  revert st. induction ps as [|p ps IH]; intros st Hst; [exact Hst|].
  cbn [picks foldl]. apply IH. intros f Hf. destruct p as [sel|]; cbn [pick] in Hf.
  - apply handleFileSelect_file in Hf as [Hf|Hf]; [by apply Hst|done].
  - discriminate.
Qed.

Lemma post_media_invalid fuel now rnd body db :
  Service.truthy_str (Service.mb_ipfsHash body)
  && Service.truthy_str (Service.mb_fileName body)
  && Service.truthy_str (Service.mb_fileType body)
  && Service.truthy_num (Service.mb_fileSize body) = false →
  Service.post_media fuel now rnd body db =
  Some (Service.Error 400 "Missing required fields", db).
Proof.
  unfold Service.post_media.
  destruct (Service.truthy_str (Service.mb_ipfsHash body)),
    (Service.truthy_str (Service.mb_fileName body)),
    (Service.truthy_str (Service.mb_fileType body)),
    (Service.truthy_num (Service.mb_fileSize body)); cbn [negb orb andb];
    intros; (discriminate || reflexivity).
Qed.

Lemma uploadToIPFS_no_keys apiKey secretKey rnd answer f :
  Service.truthy_str apiKey && Service.truthy_str secretKey = false →
  Ipfs.uploadToIPFS apiKey secretKey rnd answer f = inl (Ipfs.simulateUpload rnd f).
Proof.
  intros. unfold Ipfs.uploadToIPFS.
  destruct (Service.truthy_str apiKey), (Service.truthy_str secretKey);
    try discriminate; reflexivity.
Qed.

Lemma simulated_hash_nonempty rnd :
  Service.truthy_str (Some (Ipfs.simulated_hash rnd)) = true.
Proof. rewrite IpfsFacts.simulated_hash_eq. reflexivity. Qed.

Lemma reached_cons d ds :
  reached (d :: ds) = ((if reaches d then 1 else 0) + reached ds)%Z.
Proof.
  unfold reached. cbn [List.filter]. destruct (reaches d); cbn [length]; lia.
Qed.



Lemma viewed_view r k : viewed (Service.view r) k = viewed r (1 + k).
Proof. unfold viewed, Service.view. cbn. f_equal. lia. Qed.

Lemma viewed_0 r : viewed r 0 = r.
Proof. destruct r. unfold viewed. cbn. f_equal. lia. Qed.

Lemma view_viewed r : Service.view r = viewed r 1.
Proof. reflexivity. Qed.

(** The database after one run of the effect. *)
Lemma effect_db type c p db d :
  (effect type c (p, db) d).2 = if reaches d then (route type c db).2 else db.
Proof. unfold effect. cbn [fst snd]. by destruct d. Qed.


Lemma effects_media_reached ds c p db r :
  Service.select_code Service.m_short_code c (Service.media db) = Some r →
  Service.select_code Service.m_short_code c
    (Service.media (effects media c ds (p, db)).2) = Some (viewed r (reached ds)).
Proof.
  revert p db r. induction ds as [|d ds IH]; intros p db r Hr.
  - cbn. by rewrite viewed_0.
  - unfold effects. cbn [foldl]. fold (effects media c ds (effect media c (p, db) d)).
    rewrite reached_cons.
    destruct (effect media c (p, db) d) as [p' db'] eqn:He.
    assert (Hdb : db' = if reaches d then (route media c db).2 else db).
    { by rewrite <- (effect_db media c p db d), He. }
    destruct (reaches d).
    + rewrite <- viewed_view. apply IH. subst db'.
      cbn [route]. unfold Service.get_media_view. rewrite Hr.
      cbn [snd Service.media Service.set_media].
      rewrite ServiceMore.select_code_update by done. by rewrite Hr.
    + rewrite Z.add_0_l. apply IH. by subst db'.
Qed.

(** The media page after runs that were all delivered. *)
Lemma effects_media_delivered n c p db r :
  Service.select_code Service.m_short_code c (Service.media db) = Some r →
  page_error p = EmptyString →
  (effects media c (repeat Delivered (S n)) (p, db)).1 =
  mkPage false EmptyString
    (Some (Service.OfMedia (Service.media_json (viewed r (Z.of_nat (S n)))),
           Ipfs.getIpfsUrl (Service.m_ipfs_hash r)))
    (href p).
Proof.
  revert p db r. induction n as [|n IH]; intros p db r Hr Hp.
  - cbn [repeat effects foldl]. unfold effect. cbn [fst snd exchange_get route].
    unfold Service.get_media_view. rewrite Hr. cbn [fst snd fetchData getMediaForView].
    rewrite Hp. reflexivity.
  - change (repeat Delivered (S (S n))) with (Delivered :: repeat Delivered (S n)).
    unfold effects. cbn [foldl].
    fold (effects media c (repeat Delivered (S n)) (effect media c (p, db) Delivered)).
    unfold effect at 1. cbn [fst snd exchange_get route].
    unfold Service.get_media_view. rewrite Hr. cbn [fst snd fetchData getMediaForView].
    rewrite (IH _ _ (Service.view r)).
    + rewrite viewed_view. cbn [href].
      replace (1 + Z.of_nat (S n))%Z with (Z.of_nat (S (S n))) by lia. reflexivity.
    + cbn [Service.media Service.set_media].
      rewrite ServiceMore.select_code_update by done. by rewrite Hr.
    + cbn [page_error]. exact Hp.
Qed.

End PagesFacts.

Module PagesMore.
Import Pages.

(** X20: The file field of the upload form.  A selected file of a
    supported type and of at most 50 MB replaces the file the form
    holds and clears the message and the result.  Any other selected
    file leaves the file held before in place, under a message that
    says what is wrong with the new one, and a cancelled selection
    changes no file either.  So, whatever is selected, dropped or
    removed, in any order, the file the form holds is of a supported
    type and of at most 50 MB. *)
Theorem form_file_always_valid :
  (∀ ps f,
     file (picks ps initial) = Some f →
     Ipfs.f_type f ∈ SUPPORTED_FILE_TYPES ∧ (Ipfs.f_size f ≤ MAX_FILE_SIZE)%Z)
  ∧ (∀ f st,
       Ipfs.f_type f ∈ SUPPORTED_FILE_TYPES → (Ipfs.f_size f ≤ MAX_FILE_SIZE)%Z →
       handleFileSelect (Some f) st =
       mkForm (Some f) EmptyString EmptyString EmptyString)
  ∧ (∀ f st,
       Ipfs.f_type f ∉ SUPPORTED_FILE_TYPES →
       handleFileSelect (Some f) st =
       mkForm (file st)
         "Unsupported file type. Please upload images, videos, audio, or PDF files."
         EmptyString EmptyString)
  ∧ (∀ f st,
       Ipfs.f_type f ∈ SUPPORTED_FILE_TYPES → (MAX_FILE_SIZE < Ipfs.f_size f)%Z →
       handleFileSelect (Some f) st =
       mkForm (file st) "File is too large. Maximum size is 50MB."
         EmptyString EmptyString)
  ∧ (∀ st, handleFileSelect None st =
           mkForm (file st) EmptyString EmptyString EmptyString)
  ∧ (∀ st, removeFile st = mkForm None (error st) (shortCode st) (ipfsHash st)).
Proof.
  split_and!.
  - intros ps f Hfile. revert f Hfile. apply PagesFacts.picks_file.
    intros f. discriminate.
  - intros f st Hty Hsz. unfold handleFileSelect.
    rewrite bool_decide_true by done. cbn [negb].
    by destruct (Z.ltb_spec MAX_FILE_SIZE (Ipfs.f_size f)); [lia|].
  - intros f st Hty. unfold handleFileSelect. by rewrite bool_decide_false.
  - intros f st Hty Hsz. unfold handleFileSelect.
    rewrite bool_decide_true by done. cbn [negb].
    by destruct (Z.ltb_spec MAX_FILE_SIZE (Ipfs.f_size f)); [|lia].
  - reflexivity.
  - reflexivity.
Qed.

(** X21: The upload of the file the form holds, of a supported type,
    without Pinata keys.  If the request is lost, the form shows the
    browser's message and nothing is stored.  If the exchange goes
    through: a file with an empty name or of zero bytes, which the form
    accepts, is refused by the service, the form shows the service's
    message, keeps the identifier made up in its state, and nothing is
    stored; for any other file, once the service has answered, the form
    holds the short code, the record reads back under it with the
    file's name, type and size, the account or [anonymous] as creator
    and no view, and the page of the short code, after [n] runs of its
    effect that all went through, renders the record with [n] views
    under the first gateway's address of the identifier.  If only the
    reply is lost, the form shows the browser's message although the
    record has been stored. *)
Theorem upload_then_view apiKey secretKey rnd_cid answer fuel now rnd account st db f
    (Hkeys : Service.truthy_str apiKey && Service.truthy_str secretKey = false)
    (Hfile : file st = Some f)
    (Htype : Ipfs.f_type f ∈ SUPPORTED_FILE_TYPES) :
  (∀ message,
     handleUpload apiKey secretKey rnd_cid answer (RequestLost message) fuel now rnd
       account st db =
     Some (mkForm (Some f) (message_or message "Failed to upload media") (shortCode st)
             (Ipfs.simulated_hash rnd_cid), db))
  ∧ (Ipfs.f_name f = EmptyString ∨ Ipfs.f_size f = 0%Z →
     handleUpload apiKey secretKey rnd_cid answer Delivered fuel now rnd account st db =
     Some (mkForm (Some f) "Missing required fields" (shortCode st)
             (Ipfs.simulated_hash rnd_cid), db))
  ∧ (Ipfs.f_name f ≠ EmptyString → Ipfs.f_size f ≠ 0%Z →
     handleUpload apiKey secretKey rnd_cid answer Delivered fuel now rnd account st db
     = None
     ∨ ∃ c db',
         handleUpload apiKey secretKey rnd_cid answer Delivered fuel now rnd account
           st db =
         Some (mkForm (Some f) EmptyString c (Ipfs.simulated_hash rnd_cid), db')
         ∧ Service.get_media c db' =
           (Service.Json
              (Service.OfMedia
                 (Service.mkMediaJson c (Some (Ipfs.simulated_hash rnd_cid))
                    (Some (Ipfs.f_name f)) (Some (Ipfs.f_type f))
                    (Some (Ipfs.f_size f))
                    (Service.creator_or_anonymous account) (now / 1000)%Z 0)), db')
         ∧ ∀ n,
             render media
               (effects media c (repeat Delivered (S n)) (opened, db')).1 =
             Media
               (Service.OfMedia
                  (Service.mkMediaJson c (Some (Ipfs.simulated_hash rnd_cid))
                     (Some (Ipfs.f_name f)) (Some (Ipfs.f_type f))
                     (Some (Ipfs.f_size f))
                     (Service.creator_or_anonymous account) (now / 1000)%Z
                     (Z.of_nat (S n))))
               (Ipfs.getIpfsUrl (Ipfs.simulated_hash rnd_cid)))
  ∧ (Ipfs.f_name f ≠ EmptyString → Ipfs.f_size f ≠ 0%Z →
     ∀ message,
       handleUpload apiKey secretKey rnd_cid answer (ReplyLost message) fuel now rnd
         account st db = None
       ∨ ∃ db',
           handleUpload apiKey secretKey rnd_cid answer (ReplyLost message) fuel now
             rnd account st db =
           Some (mkForm (Some f) (message_or message "Failed to upload media")
                   (shortCode st) (Ipfs.simulated_hash rnd_cid), db')
           ∧ length (Service.media db') = S (length (Service.media db))).
Proof.
  unfold handleUpload. rewrite Hfile.
  rewrite (PagesFacts.uploadToIPFS_no_keys _ _ _ _ _ Hkeys).
  cbn [Ipfs.simulateUpload Ipfs.u_hash].
  pose proof (PagesFacts.simulated_hash_nonempty rnd_cid) as Hh.
  pose proof (PagesFacts.supported_type_nonempty _ Htype) as Hty.
  assert (Hvalid : Ipfs.f_name f ≠ EmptyString → Ipfs.f_size f ≠ 0%Z →
    ∀ resp db',
      Service.post_media fuel now rnd
        (saveMediaMetadata_body (Ipfs.simulated_hash rnd_cid) (Ipfs.f_name f)
           (Ipfs.f_type f) (Ipfs.f_size f) account) db = Some (resp, db') →
      ∃ c,
        (c ∉ Service.m_short_code <$> Service.media db)
        ∧ resp = Service.Json
                   (Service.OfMedia
                      (Service.mkMediaJson c (Some (Ipfs.simulated_hash rnd_cid))
                         (Some (Ipfs.f_name f)) (Some (Ipfs.f_type f))
                         (Some (Ipfs.f_size f))
                         (Service.creator_or_anonymous account) (now / 1000)%Z 0))
        ∧ db' = Service.set_media db
                  (Service.media db ++
                     [Service.mkMediaRow (Service.media_seq db + 1) c
                        (Ipfs.simulated_hash rnd_cid) (Ipfs.f_name f) (Ipfs.f_type f)
                        (Ipfs.f_size f) (Service.creator_or_anonymous account)
                        (now / 1000)%Z 0])
                  (Service.media_seq db + 1)).
  { intros Hn%PagesFacts.truthy_str_spec Hs%PagesFacts.truthy_num_spec resp db' Hp.
    apply ServiceFacts.post_media_cases in Hp as [(Hv & _)|(c & _ & Hc & -> & ->)].
    { unfold saveMediaMetadata_body in Hv. cbn [Service.mb_ipfsHash Service.mb_fileName
        Service.mb_fileType Service.mb_fileSize] in Hv. rewrite Hh, Hty, Hn, Hs in Hv.
      discriminate. }
    exists c. unfold saveMediaMetadata_body.
    cbn [Service.mb_ipfsHash Service.mb_fileName Service.mb_fileType
         Service.mb_fileSize Service.mb_creator default].
    by rewrite PagesFacts.creator_or_anonymous_idem. }
  split_and!.
  - intros message. reflexivity.
  - intros Hbad. rewrite PagesFacts.post_media_invalid; [reflexivity|].
    unfold saveMediaMetadata_body. cbn [Service.mb_ipfsHash Service.mb_fileName
      Service.mb_fileType Service.mb_fileSize]. rewrite Hh, Hty. cbn [andb].
    destruct Hbad as [-> | ->]; [reflexivity|]. apply andb_false_r.
  - intros Hn Hs.
    destruct (Service.post_media _ _ _ _ _) as [[resp db']|] eqn:Hp; [|by left].
    right. destruct (Hvalid Hn Hs _ _ eq_refl) as (c & Hc & -> & ->).
    apply ServiceFacts.select_code_None in Hc.
    exists c. eexists. cbn [exchange saveMediaMetadata shortCode_of Service.mj_shortCode].
    split; [reflexivity|].
    assert (Hsel : Service.select_code Service.m_short_code c
                     (Service.media db ++
                        [Service.mkMediaRow (Service.media_seq db + 1) c
                           (Ipfs.simulated_hash rnd_cid) (Ipfs.f_name f) (Ipfs.f_type f)
                           (Ipfs.f_size f) (Service.creator_or_anonymous account)
                           (now / 1000)%Z 0]) =
                   Some (Service.mkMediaRow (Service.media_seq db + 1) c
                           (Ipfs.simulated_hash rnd_cid) (Ipfs.f_name f) (Ipfs.f_type f)
                           (Ipfs.f_size f) (Service.creator_or_anonymous account)
                           (now / 1000)%Z 0)).
    { rewrite ServiceMore.select_code_snoc, Hc. cbn [Service.m_short_code].
      by rewrite decide_True. }
    split.
    + unfold Service.get_media. cbn [Service.media Service.set_media].
      by rewrite Hsel.
    + intros n. erewrite PagesFacts.effects_media_delivered; [|exact Hsel|reflexivity].
      reflexivity.
  - intros Hn Hs message.
    destruct (Service.post_media _ _ _ _ _) as [[resp db']|] eqn:Hp; [|by left].
    right. destruct (Hvalid Hn Hs _ _ eq_refl) as (c & Hc & -> & ->).
    eexists. cbn [exchange saveMediaMetadata]. split; [reflexivity|].
    cbn [Service.media Service.set_media]. rewrite length_app. cbn [length]. lia.
Qed.


End PagesMore.

(** ** The registry in [localStorage] *)

Module LocalStoreFacts.
Import LocalStore.

Local Open Scope Z_scope.

Lemma code_not_inherited c : is_code c → c ∉ object_prototype.
Proof.
  intros [Hlen _]. unfold object_prototype. rewrite !elem_of_cons, elem_of_nil.
  intros H. repeat (destruct H as [->|H]; [discriminate Hlen|]). done.
Qed.

Lemma generateShortCode_is_code rnd pos : is_code (generateShortCode rnd pos).
Proof. apply service_code_is_code. Qed.

Lemma get_code links c :
  is_code c → get links c = match links !! c with Some d => Own d | None => Undefined end.
Proof.
  intros Hc%code_not_inherited. unfold get.
  destruct (links !! c); [done|]. by rewrite bool_decide_false.
Qed.

Lemma get_Own links c d : get links c = Own d ↔ links !! c = Some d.
Proof.
  unfold get. destruct (links !! c) as [d'|].
  - split; congruence.
  - case_bool_decide; split; discriminate.
Qed.

Lemma get_insert links c d : get (<[c := d]> links) c = Own d.
Proof. apply get_Own, lookup_insert_eq. Qed.

Lemma get_insert_ne links c c' d :
  c' ≠ c → get (<[c := d]> links) c' = get links c'.
Proof. intros Hne. unfold get. by rewrite lookup_insert_ne. Qed.

Lemma unique_code_spec links rnd fuel k c c' :
  is_code c → unique_code links rnd fuel k c = Some c' →
  is_code c' ∧ links !! c' = None.
Proof.
  revert k c. induction fuel as [|fuel IH]; intros k c Hc; cbn [unique_code];
    rewrite (get_code _ _ Hc); destruct (links !! c) eqn:Hl; cbn [truthy];
    try discriminate.
  - by intros [= <-].
  - apply IH, generateShortCode_is_code.
  - by intros [= <-].
Qed.

Lemma createShortLink_Some fuel now rnd u w st d st' :
  createShortLink fuel now rnd u w st = Some (d, st') →
  is_code (shortCode d) ∧ getLinks st !! shortCode d = None
  ∧ d = mkLinkData (shortCode d) u (Service.creator_or_anonymous w) (now / 1000) 0
  ∧ st' = mkStorage (Stored (<[shortCode d := d]> (getLinks st)))
            (Stored (mkStats (totalLinks (getStats st) + 1) (totalMedia (getStats st)))).
Proof.
  unfold createShortLink. cbv zeta.
  destruct (unique_code _ _ _ _ _) as [c|] eqn:Hu; [|discriminate].
  apply unique_code_spec in Hu as [Hc Hl]; [|apply generateShortCode_is_code].
  intros [= <- <-]. cbn [shortCode]. done.
Qed.

(** The difference between the total and the number of records. *)
Lemma step_surplus st c :
  getTotalLinks (step st c) - Z.of_nat (size (getLinks (step st c))) =
  getTotalLinks st - Z.of_nat (size (getLinks st)).
Proof.
  destruct c as [fuel now rnd u w|c]; cbn [step].
  - destruct (createShortLink fuel now rnd u w st) as [[d st']|] eqn:Hc; [|done].
    apply createShortLink_Some in Hc as (_ & Hfree & _ & ->).
    unfold getTotalLinks. cbn [getStats getLinks stats_item links_item totalLinks].
    rewrite map_size_insert_None by done. lia.
  - unfold incrementLinkClicks. cbv zeta.
    destruct (get (getLinks st) c) as [d| |] eqn:Hg; [| |done].
    + apply get_Own in Hg. unfold getTotalLinks.
      cbn [getStats getLinks stats_item links_item].
      rewrite map_size_insert_Some by done. done.
    + done.
Qed.

Lemma creator_filter w d :
  (if Service.truthy_str w then creator d = default EmptyString w
   else creator d = "anonymous")
  ↔ creator d = Service.creator_or_anonymous w.
Proof. unfold Service.creator_or_anonymous. by destruct (Service.truthy_str w). Qed.

End LocalStoreFacts.

Module LocalStoreMore.
Import LocalStore.

Local Open Scope Z_scope.

(** X23: A creation in the browser's registry answers the record it stores:
    the record sits under a code of six alphabet symbols that was free,
    carries the address as given, the wallet or [anonymous] and no
    click, reads back by its code, leaves every other code as it was and
    adds one to the total of links and nothing to that of media. *)
Theorem local_creation_reads_back fuel now rnd u w st d st'
    (Hc : createShortLink fuel now rnd u w st = Some (d, st')) :
  is_code (shortCode d)
  ∧ linkExists (shortCode d) st = false
  ∧ d = mkLinkData (shortCode d) u (Service.creator_or_anonymous w) (now / 1000) 0
  ∧ getLinkData (shortCode d) st' = Own d
  ∧ (∀ c, c ≠ shortCode d → getLinkData c st' = getLinkData c st)
  ∧ getTotalLinks st' = getTotalLinks st + 1
  ∧ totalMedia (getStats st') = totalMedia (getStats st).
Proof.
  apply LocalStoreFacts.createShortLink_Some in Hc as (Hcode & Hfree & Hd & ->).
  split_and!; try done.
  - unfold linkExists. rewrite LocalStoreFacts.get_code by done. by rewrite Hfree.
  - unfold getLinkData. cbn [getLinks links_item]. apply LocalStoreFacts.get_insert.
  - intros c Hne. unfold getLinkData. cbn [getLinks links_item].
    by apply LocalStoreFacts.get_insert_ne.
Qed.

(** X24: The stored total of links moves with the number of records: no run
    of creations and click increments changes their difference, so that
    from a cleared storage the total is the number of records. *)
Theorem local_total_counts_records cs :
  (∀ st, getTotalLinks (run cs st) - Z.of_nat (size (getLinks (run cs st))) =
         getTotalLinks st - Z.of_nat (size (getLinks st)))
  ∧ getTotalLinks (run cs clear) = Z.of_nat (size (getLinks (run cs clear))).
Proof.
  assert (H : ∀ st, getTotalLinks (run cs st) - Z.of_nat (size (getLinks (run cs st))) =
         getTotalLinks st - Z.of_nat (size (getLinks st))).
  { induction cs as [|c cs IH]; intros st; [done|].
    cbn [run foldl]. fold (run cs (step st c)).
    rewrite IH. apply LocalStoreFacts.step_surplus. }
  split; [exact H|]. specialize (H clear).
  unfold clear at 3 4 in H. unfold getTotalLinks at 2 in H.
  cbn [getStats getLinks stats_item links_item totalLinks] in H.
  rewrite map_size_empty in H. lia.
Qed.

(** X25: The listing of the browser's registry holds all the records whose
    creator is the wallet, or [anonymous] without a wallet, each once
    and without a cap, the newest first. *)
Theorem local_listing w st :
  getUserLinks w st ≡ₚ
    filter (λ d, creator d = Service.creator_or_anonymous w)
      (Object_values (getLinks st))
  ∧ StronglySorted (Service.newer_first createdAt) (getUserLinks w st)
  ∧ (∀ d, d ∈ getUserLinks w st ↔
          creator d = Service.creator_or_anonymous w
          ∧ ∃ c, getLinks st !! c = Some d).
Proof.
  assert (Hperm : getUserLinks w st ≡ₚ
    filter (λ d, creator d = Service.creator_or_anonymous w)
      (Object_values (getLinks st))).
  { unfold getUserLinks, Service.creator_or_anonymous. cbv zeta.
    destruct (Service.truthy_str w); apply merge_sort_Permutation. }
  split_and!; [exact Hperm| |].
  - unfold getUserLinks. cbv zeta.
    destruct (Service.truthy_str w);
      apply (@StronglySorted_merge_sort _ (Service.newer_first createdAt) _
               (Listing.newer_first_trans createdAt)
               (Listing.newer_first_total createdAt)).
  - intros d. rewrite Hperm, list_elem_of_filter. unfold Object_values.
    rewrite list_elem_of_fmap. split.
    + intros [Hcr ([c d'] & -> & Hin)]. split; [done|]. exists c.
      by apply elem_of_map_to_list in Hin.
    + intros [Hcr [c Hc]]. split; [done|]. exists (c, d). split; [done|].
      by apply elem_of_map_to_list.
Qed.

(** X26: Over any run of creations and click increments a stored record
    stays under its code with the fields it had, and has counted
    exactly the click increments of its code: no creation overwrites
    it and no increment of another code reaches it. *)
Theorem local_clicks_counted cs st c d
    (Hd : getLinkData c st = Own d) :
  getLinkData c (run cs st) =
  Own (mkLinkData (shortCode d) (originalUrl d) (creator d) (createdAt d)
         (clicks d + increments c cs)).
Proof.
  revert st d Hd. induction cs as [|call cs IH]; intros st d Hd.
  - cbn [run foldl]. rewrite Hd. unfold increments. cbn. rewrite Z.add_0_r.
    by destruct d.
  - cbn [run foldl]. fold (run cs (step st call)).
    unfold increments. cbn [List.filter]. fold (increments c cs).
    unfold getLinkData in Hd. apply LocalStoreFacts.get_Own in Hd.
    destruct call as [fuel now rnd u w|c']; cbn [step is_increment_of].
    + fold (increments c cs).
      destruct (createShortLink fuel now rnd u w st) as [[d' st']|] eqn:Hc.
      * apply LocalStoreFacts.createShortLink_Some in Hc as (_ & Hfree & _ & ->).
        apply IH. unfold getLinkData. cbn [getLinks links_item].
        apply LocalStoreFacts.get_Own. rewrite lookup_insert_ne; [done|].
        intros Heq. rewrite Heq in Hfree. congruence.
      * apply IH. by apply LocalStoreFacts.get_Own.
    + unfold incrementLinkClicks. cbv zeta.
      destruct (decide (c' = c)) as [->|Hne].
      * rewrite bool_decide_true by done. cbn [length].
        rewrite (proj2 (LocalStoreFacts.get_Own _ _ _) Hd).
        rewrite (IH _ (click d)).
        -- cbn [click shortCode originalUrl creator createdAt clicks]. f_equal. f_equal.
           unfold increments. lia.
        -- unfold getLinkData. cbn [getLinks links_item].
           apply LocalStoreFacts.get_insert.
      * rewrite bool_decide_false by done. fold (increments c cs).
        apply IH. unfold getLinkData.
        destruct (get (getLinks st) c') as [d'| |] eqn:Hg;
          cbn [getLinks links_item].
        -- apply LocalStoreFacts.get_Own. by rewrite lookup_insert_ne.
        -- by apply LocalStoreFacts.get_Own.
        -- by apply LocalStoreFacts.get_Own.
Qed.

End LocalStoreMore.

(** ** Instances of the further properties *)

(** The first link of the contract, then its first resolve by another
    sender. *)
Lemma link_round_trip_witness :
  Contract.getLinkData "JQbd1b" Sample.s1 =
    Contract.Done (Sample.url, 7%N, 1700000000%N, 0%N) [] Sample.s1
  ∧ Contract.linkExists "JQbd1b" Sample.s1 = Contract.Done true [] Sample.s1
  ∧ ∃ s'', Contract.getLink Sample.env2 "JQbd1b" Sample.s1 =
             Contract.Done Sample.url [Contract.LinkAccessed "JQbd1b" 8%N] s''
           ∧ Contract.getLinkData "JQbd1b" s'' =
               Contract.Done (Sample.url, 7%N, 1700000000%N, 1%N) [] s''.
Proof.
  refine (proj2 (ContractMore.link_round_trip Sample.hash 3 Sample.env Sample.url
                   Contract.init "JQbd1b" [Contract.LinkCreated "JQbd1b" Sample.url 7%N]
                   Sample.s1 Sample.env2 _)).
  vm_compute. reflexivity.
Defined.

(** The first upload of the contract, then its first resolve. *)
Lemma media_round_trip_witness :
  Contract.getMediaData "JQbd1b" Sample.m1 =
    Contract.Done ("QmTest123", "a.png", "image/png", 1024000%N, 7%N, 1700000000%N, 0%N)
      [] Sample.m1
  ∧ Contract.mediaExists "JQbd1b" Sample.m1 = Contract.Done true [] Sample.m1
  ∧ ∃ s'', Contract.getMedia Sample.env2 "JQbd1b" Sample.m1 =
             Contract.Done ("QmTest123", "a.png", "image/png", 1024000%N)
               [Contract.MediaAccessed "JQbd1b" 8%N] s''
           ∧ Contract.getMediaData "JQbd1b" s'' =
               Contract.Done
                 ("QmTest123", "a.png", "image/png", 1024000%N, 7%N, 1700000000%N, 1%N)
                 [] s''.
Proof.
  refine (proj2 (ContractMore.media_round_trip Sample.hash 3 Sample.env "QmTest123"
                   "a.png" "image/png" 1024000%N Contract.init "JQbd1b"
                   [Contract.MediaUploaded "JQbd1b" "QmTest123" "a.png" 7%N]
                   Sample.m1 Sample.env2 _)).
  vm_compute. reflexivity.
Defined.

(** A second link whose first candidate is the code of the first: the
    creation takes the next candidate and moves the counter by two, and
    without gas for the second draw it runs out of gas. *)
Lemma createShortLink_first_free_witness :
  Contract.candidate Sample.hash Sample.env2 (Contract._linkCounter Sample.s1) 0 = "JQbd1b"
  ∧ Contract.candidate Sample.hash Sample.env2 (Contract._linkCounter Sample.s1) 1 = "KQbd1b"
  ∧ (∃ s', Contract.createShortLink Sample.hash 3 Sample.env2 Sample.url Sample.s1 =
             Contract.Done "KQbd1b" [Contract.LinkCreated "KQbd1b" Sample.url 8%N] s'
           ∧ Contract._linkCounter s' = 3%N)
  ∧ Contract.createShortLink Sample.hash 0 Sample.env2 Sample.url Sample.s1 =
      Contract.OutOfGas.
Proof.
  assert (H : ∀ gas,
    ((1 ≤ gas)%nat →
     ∃ s', Contract.createShortLink Sample.hash gas Sample.env2 Sample.url Sample.s1 =
             Contract.Done
               (Contract.candidate Sample.hash Sample.env2 (Contract._linkCounter Sample.s1) 1)
               [Contract.LinkCreated
                  (Contract.candidate Sample.hash Sample.env2
                     (Contract._linkCounter Sample.s1) 1)
                  Sample.url (Contract.msg_sender Sample.env2)] s'
           ∧ Contract._linkCounter s' =
               Nat.iter 2 Contract.increment (Contract._linkCounter Sample.s1))
    ∧ ((gas < 1)%nat →
       Contract.createShortLink Sample.hash gas Sample.env2 Sample.url Sample.s1 =
         Contract.OutOfGas)).
  { intros gas.
    apply (ContractMore.createShortLink_first_free Sample.hash 1 gas Sample.env2
             Sample.url Sample.s1).
    - vm_compute. lia.
    - intros j Hj. replace j with 0%nat by lia. vm_compute. reflexivity.
    - vm_compute. reflexivity. }
  split; [vm_compute; reflexivity|]. split; [vm_compute; reflexivity|]. split.
  - destruct (proj1 (H 3%nat)) as (s' & Hs & Hc); [lia|].
    exists s'. split; [exact Hs|]. rewrite Hc. vm_compute. reflexivity.
  - apply (proj2 (H 0%nat)). lia.
Defined.

(** Two creations with gas for three further draws each, the second of
    which draws twice: two links, a total of three, a budget of
    eight. *)
Lemma total_at_least_created_witness :
  Contract._linkCounter
    (Contract.run Sample.hash
       [Sample.tx (Contract.CreateShortLink Sample.url);
        Sample.tx' (Contract.CreateShortLink Sample.url)] Contract.init) = 3%N
  ∧ (N.of_nat
       (length
          (Contract.links_created Sample.hash
             [Sample.tx (Contract.CreateShortLink Sample.url);
              Sample.tx' (Contract.CreateShortLink Sample.url)] Contract.init))
     ≤ Contract._linkCounter
         (Contract.run Sample.hash
            [Sample.tx (Contract.CreateShortLink Sample.url);
             Sample.tx' (Contract.CreateShortLink Sample.url)] Contract.init))%N
  ∧ (Contract._linkCounter
       (Contract.run Sample.hash
          [Sample.tx (Contract.CreateShortLink Sample.url);
           Sample.tx' (Contract.CreateShortLink Sample.url)] Contract.init)
     ≤ N.of_nat
         (Contract.generator_budget
            [Sample.tx (Contract.CreateShortLink Sample.url);
             Sample.tx' (Contract.CreateShortLink Sample.url)]))%N.
Proof.
  split; [vm_compute; reflexivity|].
  apply (ContractMore.total_at_least_created Sample.hash).
  vm_compute. reflexivity.
Defined.

(** The service's first link is deleted and a link is created: the new
    row takes the id 2, the id 1 stays vacant. *)
Lemma ids_never_reused_witness :
  Service.link_by_id
    (Service.run [Sample.post_link "0xDEF"]
       (Service.run [Service.DeleteLink "aaaaaa"] Sample.db1)) 1 = None.
Proof.
  refine (proj1 (ServiceMore.ids_never_reused [Sample.post_link "0xDEF"]
                   (Service.run [Service.DeleteLink "aaaaaa"] Sample.db1) 1 _) _ _).
  - apply ServiceFacts.run_ok, ServiceFacts.run_ok, ServiceFacts.empty_ok.
  - vm_compute. discriminate.
  - vm_compute. reflexivity.
Defined.

(** The service's first link after a redirect and another creation:
    one click more, the other columns as they were. *)
Lemma row_immutable_witness :
  ∃ r r',
    Service.link_by_id Sample.db1 1 = Some r
    ∧ Service.link_by_id
        (Service.run [Service.GetLinkRedirect "aaaaaa"; Sample.post_link "0xDEF"]
           Sample.db1) 1 = Some r'
    ∧ Service.l_clicks r = 0%Z ∧ Service.l_clicks r' = 1%Z
    ∧ Service.l_short_code r' = Service.l_short_code r
    ∧ Service.l_original_url r' = Service.l_original_url r
    ∧ Service.l_creator r' = Service.l_creator r
    ∧ Service.l_created_at r' = Service.l_created_at r.
Proof.
  exists (Service.mkLinkRow 1 "aaaaaa" Sample.url "0xABC" 1700000000 0),
         (Service.mkLinkRow 1 "aaaaaa" Sample.url "0xABC" 1700000000 1).
  split; [vm_compute; reflexivity|]. split; [vm_compute; reflexivity|].
  split; [reflexivity|]. split; [reflexivity|].
  refine (proj1 (ServiceMore.row_immutable
                   [Service.GetLinkRedirect "aaaaaa"; Sample.post_link "0xDEF"]
                   Sample.db1 1 _) _ _ _ _).
  - apply ServiceFacts.run_ok, ServiceFacts.empty_ok.
  - vm_compute. reflexivity.
  - vm_compute. reflexivity.
Defined.

(** A creation whose first candidate is the code of the service's
    first link: with fuel it answers the second candidate, without it
    gets no response. *)
Lemma post_first_free_witness :
  Service.candidate Sample.step_rnd 0 = "aaaaaa"
  ∧ Service.candidate Sample.step_rnd 1 = "bbbbbb"
  ∧ (∃ db', Service.post_links 5 1700000000123 Sample.step_rnd
              (Service.mkLinkBody (Some Sample.url) (Some "0xDEF")) Sample.db1 =
            Some (Service.Json
                    (Service.OfLink
                       (Service.mkLinkJson (Service.candidate Sample.step_rnd 1)
                          (Some Sample.url) (Service.creator_or_anonymous (Some "0xDEF"))
                          (1700000000123 / 1000)%Z 0)), db'))
  ∧ Service.post_links 0 1700000000123 Sample.step_rnd
      (Service.mkLinkBody (Some Sample.url) (Some "0xDEF")) Sample.db1 = None.
Proof.
  assert (H : ∀ fuel,
    ((1 ≤ fuel)%nat →
     ∃ db', Service.post_links fuel 1700000000123 Sample.step_rnd
              (Service.mkLinkBody (Some Sample.url) (Some "0xDEF")) Sample.db1 =
            Some (Service.Json
                    (Service.OfLink
                       (Service.mkLinkJson (Service.candidate Sample.step_rnd 1)
                          (Some Sample.url) (Service.creator_or_anonymous (Some "0xDEF"))
                          (1700000000123 / 1000)%Z 0)), db'))
    ∧ ((fuel < 1)%nat →
       Service.post_links fuel 1700000000123 Sample.step_rnd
         (Service.mkLinkBody (Some Sample.url) (Some "0xDEF")) Sample.db1 = None)).
  { intros fuel.
    apply (proj1 (ServiceMore.post_first_free 1 fuel 1700000000123 Sample.step_rnd)
             (Service.mkLinkBody (Some Sample.url) (Some "0xDEF")) Sample.db1).
    - reflexivity.
    - intros j Hj. replace j with 0%nat by lia.
      apply (bool_decide_unpack _). vm_compute. exact I.
    - apply (bool_decide_unpack _). vm_compute. exact I. }
  split; [vm_compute; reflexivity|]. split; [vm_compute; reflexivity|]. split.
  - apply (proj1 (H 5%nat)). lia.
  - apply (proj2 (H 0%nat)). lia.
Defined.

(** A code the service never assigned. *)
Lemma never_posted_not_found_witness :
  Service.get_link "zzzzzz" Sample.db1 = (Service.Error 404 "Link not found", Sample.db1)
  ∧ Service.get_link_redirect "zzzzzz" Sample.db1 =
    (Service.Error 404 "Link not found", Sample.db1)
  ∧ Service.delete_link "zzzzzz" Sample.db1 =
    (Service.Error 404 "Link not found", Sample.db1).
Proof.
  apply (proj1 (ServiceMore.never_posted_not_found [Sample.post_link "0xABC"] "zzzzzz")).
  apply (bool_decide_unpack _). vm_compute. exact I.
Defined.

(** The deletion of the service's first link. *)
Lemma delete_removes_only_that_code_witness :
  (Service.delete_link "aaaaaa" Sample.db1).1 = Service.Json (Service.OfMessage "Link deleted")
  ∧ Service.get_link "aaaaaa" (Service.delete_link "aaaaaa" Sample.db1).2 =
    (Service.Error 404 "Link not found", (Service.delete_link "aaaaaa" Sample.db1).2)
  ∧ Service.delete_link "aaaaaa" (Service.delete_link "aaaaaa" Sample.db1).2 =
    (Service.Error 404 "Link not found", (Service.delete_link "aaaaaa" Sample.db1).2)
  ∧ (∀ c', c' ≠ "aaaaaa" →
           (Service.get_link c' (Service.delete_link "aaaaaa" Sample.db1).2).1 =
           (Service.get_link c' Sample.db1).1)
  ∧ Service.media_part (Service.delete_link "aaaaaa" Sample.db1).2 =
    Service.media_part Sample.db1
  ∧ Service.links_seq (Service.delete_link "aaaaaa" Sample.db1).2 =
    Service.links_seq Sample.db1.
Proof.
  apply (proj1 (ServiceMore.delete_removes_only_that_code "aaaaaa" Sample.db1)).
  apply (bool_decide_unpack _). vm_compute. exact I.
Defined.

(** The contract's first link after a resolve and a second creation. *)
Lemma record_immutable_witness :
  Contract.l_clicks
    (Contract.links_at
       (Contract.run Sample.hash
          [Sample.tx' (Contract.GetLink "JQbd1b");
           Sample.tx' (Contract.CreateShortLink Sample.url)] Sample.s1) "JQbd1b") = 1%N
  ∧ Contract.l_originalUrl
      (Contract.links_at
         (Contract.run Sample.hash
            [Sample.tx' (Contract.GetLink "JQbd1b");
             Sample.tx' (Contract.CreateShortLink Sample.url)] Sample.s1) "JQbd1b") =
    Contract.l_originalUrl (Contract.links_at Sample.s1 "JQbd1b")
  ∧ Contract.l_creator
      (Contract.links_at
         (Contract.run Sample.hash
            [Sample.tx' (Contract.GetLink "JQbd1b");
             Sample.tx' (Contract.CreateShortLink Sample.url)] Sample.s1) "JQbd1b") =
    Contract.l_creator (Contract.links_at Sample.s1 "JQbd1b")
  ∧ Contract.l_createdAt
      (Contract.links_at
         (Contract.run Sample.hash
            [Sample.tx' (Contract.GetLink "JQbd1b");
             Sample.tx' (Contract.CreateShortLink Sample.url)] Sample.s1) "JQbd1b") =
    Contract.l_createdAt (Contract.links_at Sample.s1 "JQbd1b")
  ∧ Contract.l_exists
      (Contract.links_at
         (Contract.run Sample.hash
            [Sample.tx' (Contract.GetLink "JQbd1b");
             Sample.tx' (Contract.CreateShortLink Sample.url)] Sample.s1) "JQbd1b") = true.
Proof.
  split; [vm_compute; reflexivity|].
  apply (proj1 (ContractMore.record_immutable Sample.hash
                  [Sample.tx' (Contract.GetLink "JQbd1b");
                   Sample.tx' (Contract.CreateShortLink Sample.url)] Sample.s1 "JQbd1b")).
  vm_compute. reflexivity.
Defined.

(** Either key left empty, the upload is simulated. *)
Lemma upload_without_keys_witness :
  ∃ u, Ipfs.uploadToIPFS (Some EmptyString) (Some "secret") (Sample.const_rnd 10)
         (Ipfs.Pinned "bafy") Sample.pdf = inl u
       ∧ Ipfs.isValidCid (Some (Ipfs.u_hash u)) = true
       ∧ String.length (Ipfs.u_hash u) = 46%nat
       ∧ Ipfs.u_url u = Ipfs.getIpfsUrl (Ipfs.u_hash u)
       ∧ (Ipfs.u_name u, Ipfs.u_type u, Ipfs.u_size u) =
         (Ipfs.f_name Sample.pdf, Ipfs.f_type Sample.pdf, Ipfs.f_size Sample.pdf)
       ∧ ∀ rnd' answer' f',
           (∀ i, (i < 22)%nat → rnd' i = Sample.const_rnd 10 i) →
           ∃ u', Ipfs.uploadToIPFS (Some EmptyString) (Some "secret") rnd' answer' f' =
                   inl u'
                 ∧ Ipfs.u_hash u' = Ipfs.u_hash u.
Proof.
  apply (IpfsMore.upload_without_keys (Some EmptyString) (Some "secret")
           (Sample.const_rnd 10) (Ipfs.Pinned "bafy") Sample.pdf).
  reflexivity.
Defined.

(** A file that is too large, a good one, a program and a cancelled
    dialog, in this order: the form holds the good one.  A file that is
    too large, selected after the good one, leaves the good one in
    place. *)
Lemma form_file_always_valid_witness :
  (Ipfs.f_type Sample.pdf ∈ Pages.SUPPORTED_FILE_TYPES
   ∧ (Ipfs.f_size Sample.pdf ≤ Pages.MAX_FILE_SIZE)%Z)
  ∧ Pages.handleFileSelect (Some Sample.big_pdf)
      (Pages.picks [Pages.Select (Some Sample.pdf)] Pages.initial) =
    Pages.mkForm (Some Sample.pdf) "File is too large. Maximum size is 50MB."
      EmptyString EmptyString.
Proof.
  destruct PagesMore.form_file_always_valid as (Hinv & _ & _ & Hbig & _).
  split.
  - apply (Hinv
             [Pages.Select (Some Sample.big_pdf); Pages.Select (Some Sample.pdf);
              Pages.Select (Some (Ipfs.mkFile "a.exe" "application/x-msdownload" 10));
              Pages.Select None]).
    vm_compute. reflexivity.
  - apply (Hbig Sample.big_pdf
             (Pages.picks [Pages.Select (Some Sample.pdf)] Pages.initial)).
    + apply (bool_decide_unpack _). vm_compute. exact I.
    + vm_compute. reflexivity.
Defined.

(** A PDF of zero bytes is accepted by the form and refused by the
    service. *)
Lemma upload_then_view_witness :
  Pages.file (Pages.picks [Pages.Select (Some Sample.empty_pdf)] Pages.initial) =
    Some Sample.empty_pdf
  ∧ Pages.handleUpload None None (Sample.const_rnd 10) (Ipfs.Pinned "bafy")
      Pages.Delivered 5 1700000000123 Sample.step_rnd None
      (Pages.picks [Pages.Select (Some Sample.empty_pdf)] Pages.initial) Service.empty =
    Some (Pages.mkForm (Some Sample.empty_pdf) "Missing required fields"
            (Pages.shortCode
               (Pages.picks [Pages.Select (Some Sample.empty_pdf)] Pages.initial))
            (Ipfs.simulated_hash (Sample.const_rnd 10)), Service.empty).
Proof.
  split; [vm_compute; reflexivity|].
  destruct (PagesMore.upload_then_view None None (Sample.const_rnd 10)
              (Ipfs.Pinned "bafy") 5 1700000000123 Sample.step_rnd None
              (Pages.picks [Pages.Select (Some Sample.empty_pdf)] Pages.initial)
              Service.empty Sample.empty_pdf) as (_ & H & _).
  - reflexivity.
  - vm_compute. reflexivity.
  - apply (bool_decide_unpack _). vm_compute. exact I.
  - apply H. right. reflexivity.
Defined.


(** A body whose URL is [true] is answered 500. *)
Lemma creation_answers_witness :
  Wire.post_links 0 1700000000123 (Sample.const_rnd 1)
    (Wire.mkLinkBody (Wire.Bool true) Wire.Undefined) Sample.db1 =
  Wire.Answered (Service.Error 500 "Failed to create short link") Sample.db1.
Proof.
  destruct ServiceMore.creation_answers as (_ & _ & H & _).
  apply H. apply (bool_decide_unpack _). vm_compute. exact I.
Defined.

(** The first link of a cleared browser registry. *)
Lemma local_creation_reads_back_witness :
  is_code (LocalStore.shortCode Sample.local_link)
  ∧ LocalStore.linkExists (LocalStore.shortCode Sample.local_link) LocalStore.clear = false
  ∧ Sample.local_link =
    LocalStore.mkLinkData (LocalStore.shortCode Sample.local_link) Sample.url
      (Service.creator_or_anonymous None) (1700000000123 / 1000) 0
  ∧ LocalStore.getLinkData (LocalStore.shortCode Sample.local_link) Sample.local1 =
    LocalStore.Own Sample.local_link
  ∧ (∀ c, c ≠ LocalStore.shortCode Sample.local_link →
          LocalStore.getLinkData c Sample.local1 =
          LocalStore.getLinkData c LocalStore.clear)
  ∧ LocalStore.getTotalLinks Sample.local1 =
    (LocalStore.getTotalLinks LocalStore.clear + 1)%Z
  ∧ LocalStore.totalMedia (LocalStore.getStats Sample.local1) =
    LocalStore.totalMedia (LocalStore.getStats LocalStore.clear).
Proof.
  apply (LocalStoreMore.local_creation_reads_back 5 1700000000123 Sample.step_rnd
           Sample.url None LocalStore.clear Sample.local_link Sample.local1).
  vm_compute. reflexivity.
Defined.

(** Two increments of the first link's code among other calls. *)
Lemma local_clicks_counted_witness :
  LocalStore.increments "aaaaaa"
    [LocalStore.IncrementLinkClicks "aaaaaa";
     LocalStore.CreateShortLink 5 1700000001123 Sample.step_rnd Sample.url (Some "0xABC");
     LocalStore.IncrementLinkClicks "bbbbbb";
     LocalStore.IncrementLinkClicks "aaaaaa"] = 2%Z
  ∧ LocalStore.getLinkData "aaaaaa"
      (LocalStore.run
         [LocalStore.IncrementLinkClicks "aaaaaa";
          LocalStore.CreateShortLink 5 1700000001123 Sample.step_rnd Sample.url
            (Some "0xABC");
          LocalStore.IncrementLinkClicks "bbbbbb";
          LocalStore.IncrementLinkClicks "aaaaaa"] Sample.local1) =
    LocalStore.Own
      (LocalStore.mkLinkData (LocalStore.shortCode Sample.local_link)
         (LocalStore.originalUrl Sample.local_link)
         (LocalStore.creator Sample.local_link)
         (LocalStore.createdAt Sample.local_link)
         (LocalStore.clicks Sample.local_link
          + LocalStore.increments "aaaaaa"
              [LocalStore.IncrementLinkClicks "aaaaaa";
               LocalStore.CreateShortLink 5 1700000001123 Sample.step_rnd Sample.url
                 (Some "0xABC");
               LocalStore.IncrementLinkClicks "bbbbbb";
               LocalStore.IncrementLinkClicks "aaaaaa"])).
Proof.
  split; [vm_compute; reflexivity|].
  apply (LocalStoreMore.local_clicks_counted _ Sample.local1 "aaaaaa" Sample.local_link).
  vm_compute. reflexivity.
Defined.
